(** * Conversion server: option validation, stage orchestration, result envelopes

    A shallow embedding of the converter classes of the conversion server
    (Markdown/HTML/URL to HTML/PDF/DOCX) and the properties of their
    orchestration logic.  The Markdown parser, the HTML sanitizer, the
    browser engine, the DOCX emitter, the file system and the network are
    external collaborators: they appear as a record of outcome functions
    ([World]) over which every theorem quantifies.  The callers of the
    converters follow: the command line ([Cli]), the REST endpoints of
    the HTTP server ([Rest]) and the tool handlers of the MCP server
    ([Tools]), each over a host that adds what it needs of the platform. *)

From Stdlib Require Import String Ascii List Bool Arith Lia Floats.
From Stdlib.Strings Require Import Byte.
Import ListNotations.

Set Warnings "-register-all,-inexact-float".

Open Scope string_scope.
Open Scope list_scope.

(* ================================================================== *)
(** ** JavaScript values *)
(* ================================================================== *)

(** Strings are sequences of code units; [String.length] is [.length]. *)

Module Js.

(** JSON-shaped run-time values, as tool arguments arrive.  An object is
    the ordered list of its own properties; a property is looked up by
    its first occurrence. *)
Inductive value : Type :=
| VUndefined
| VNull
| VBool (b : bool)
| VNum (x : float)
| VStr (s : string)
| VArr (items : list value)
| VObj (fields : list (string * value)).

(** [o[k]] on the property list of an object. *)
Fixpoint get_prop (k : string) (fields : list (string * value)) : value :=
  match fields with
  | [] => VUndefined
  | (k', v) :: rest => if String.eqb k k' then v else get_prop k rest
  end.

(** [k in o]. *)
Fixpoint has_prop (k : string) (fields : list (string * value)) : bool :=
  match fields with
  | [] => false
  | (k', _) :: rest => String.eqb k k' || has_prop k rest
  end.

(** [v?.k]: the property of an object, [undefined] elsewhere. *)
Definition prop (v : value) (k : string) : value :=
  match v with
  | VObj fields => get_prop k fields
  | _ => VUndefined
  end.

(** [o[k] = v]: an existing property keeps its position, a new one is
    appended. *)
Fixpoint set_prop (k : string) (v : value) (fields : list (string * value))
  : list (string * value) :=
  match fields with
  | [] => [(k, v)]
  | (k', v') :: rest =>
      if String.eqb k k' then (k', v) :: rest else (k', v') :: set_prop k v rest
  end.

(** [{...a, ...b}] on property lists. *)
Definition spread (a b : list (string * value)) : list (string * value) :=
  fold_left (fun acc kv => set_prop (fst kv) (snd kv) acc) b a.

(** The own properties copied by [...v]: none for [undefined]. *)
Definition own_props (v : value) : list (string * value) :=
  match v with
  | VObj fields => fields
  | _ => []
  end.

(** ToBoolean. *)
Definition truthy (v : value) : bool :=
  match v with
  | VUndefined | VNull => false
  | VBool b => b
  | VNum x => negb (PrimFloat.eqb x 0 || PrimFloat.is_nan x)
  | VStr s => negb (String.eqb s "")
  | VArr _ | VObj _ => true
  end.

(** [!x || typeof x !== 'string'] fails exactly on a non-empty string. *)
Definition nonempty_string (v : value) : option string :=
  match v with
  | VStr s => if String.eqb s "" then None else Some s
  | _ => None
  end.

(** [v !== false]. *)
Definition is_not_false (v : value) : bool :=
  match v with
  | VBool false => false
  | _ => true
  end.

(** [a || b]. *)
Definition or_else (a b : value) : value := if truthy a then a else b.

End Js.
Import Js.

(* ================================================================== *)
(** ** String operations of the standard library of the language *)
(* ================================================================== *)

Module Str.

Fixpoint starts_with (p s : string) : bool :=
  match p, s with
  | EmptyString, _ => true
  | String a p', String b s' => Ascii.eqb a b && starts_with p' s'
  | String _ _, EmptyString => false
  end.

(** [hay.includes(needle)]. *)
Fixpoint includes (needle hay : string) : bool :=
  starts_with needle hay ||
  match hay with
  | EmptyString => false
  | String _ rest => includes needle rest
  end.

Fixpoint drop (n : nat) (s : string) : string :=
  match n, s with
  | O, _ => s
  | S n', String _ s' => drop n' s'
  | S _, EmptyString => EmptyString
  end.

(** Splits [hay] around the first occurrence of [needle]. *)
Fixpoint split_first (needle hay : string) : option (string * string) :=
  if starts_with needle hay then Some (EmptyString, drop (String.length needle) hay)
  else match hay with
       | EmptyString => None
       | String c rest =>
           match split_first needle rest with
           | Some (before, after) => Some (String c before, after)
           | None => None
           end
       end.

(** The replacement text of [String.prototype.replace] for a string
    pattern (no capture groups): [$$], [$&], [$`] and [$'] are
    substituted, every other character stands for itself. *)
Fixpoint get_substitution (matched before after template : string) : string :=
  match template with
  | EmptyString => EmptyString
  | String c rest =>
      if Ascii.eqb c "$" then
        match rest with
        | String d rest' =>
            if Ascii.eqb d "$" then String "$" (get_substitution matched before after rest')
            else if Ascii.eqb d "&" then matched ++ get_substitution matched before after rest'
            else if Ascii.eqb d "`" then before ++ get_substitution matched before after rest'
            else if Ascii.eqb d "'" then after ++ get_substitution matched before after rest'
            else String c (get_substitution matched before after rest)
        | EmptyString => String c EmptyString
        end
      else String c (get_substitution matched before after rest)
  end.

(** [s.replace(pattern, replacement)] with a string pattern: the first
    occurrence only. *)
Definition replace (pattern replacement s : string) : string :=
  match split_first pattern s with
  | Some (before, after) =>
      before ++ get_substitution pattern before after replacement ++ after
  | None => s
  end.

(** [parts.join(sep)]. *)
Fixpoint join (sep : string) (parts : list string) : string :=
  match parts with
  | [] => EmptyString
  | [p] => p
  | p :: rest => p ++ sep ++ join sep rest
  end.

(** Decimal text of a non-negative integer. *)
Definition digit (n : nat) : ascii := ascii_of_nat (48 + n).

Fixpoint of_nat_fuel (fuel n : nat) (acc : string) : string :=
  match fuel with
  | O => acc
  | S fuel' =>
      let acc' := String (digit (Nat.modulo n 10)) acc in
      if Nat.ltb n 10 then acc' else of_nat_fuel fuel' (Nat.div n 10) acc'
  end.

Definition of_nat (n : nat) : string := of_nat_fuel (S n) n EmptyString.

End Str.

(* ================================================================== *)
(** ** Schema validation (the zod schemas of the converters) *)
(* ================================================================== *)

(** The converters declare their option shapes with the schema library and
    call [safeParse] on the incoming options.  The library is not part of
    the repository; the interpreter below follows its version 3 behaviour
    for the combinators the converters use: [z.object] parses the keys of
    its shape and drops every other key, [.optional()] accepts [undefined],
    [.min]/[.max] are inclusive, and all issues of all fields are
    collected. *)

Module Zod.

(** A numeric bound with the text the language prints for it. *)
Inductive check : Type :=
| CMin (bound : float) (text : string)
| CMax (bound : float) (text : string).

Inductive schema : Type :=
| ZString
| ZNumber (checks : list check)
| ZBoolean
| ZEnum (values : list string)
| ZArray (element : schema)
| ZRecord (element : schema)
| ZObject (shape : list (string * schema))
| ZOptional (inner : schema).

Inductive path_elem : Type :=
| PKey (k : string)
| PIndex (i : nat).

Definition path := list path_elem.

(** The issues the library raises.  An enum given what is no string
    raises a type issue of its own, which the error text prints with
    [expected] and [received] before [code]. *)
Inductive issue : Type :=
| InvalidType (expected received : string) (at_path : path)
| InvalidEnumType (expected received : string) (at_path : path)
| InvalidEnumValue (received : string) (options : list string) (at_path : path)
| TooSmall (minimum : string) (at_path : path)
| TooBig (maximum : string) (at_path : path).

Definition issue_path (i : issue) : path :=
  match i with
  | InvalidType _ _ p | InvalidEnumType _ _ p | InvalidEnumValue _ _ p
  | TooSmall _ p | TooBig _ p => p
  end.

(** The type name the library reports for a value. *)
Definition parsed_type (v : value) : string :=
  match v with
  | VUndefined => "undefined"
  | VNull => "null"
  | VBool _ => "boolean"
  | VNum x => if PrimFloat.is_nan x then "nan" else "number"
  | VStr _ => "string"
  | VArr _ => "array"
  | VObj _ => "object"
  end.

Definition quoted (s : string) : string := "'" ++ s ++ "'".

(** [util.joinValues]: ['A4' | 'A3' | ...]. *)
Definition join_values (vals : list string) : string :=
  Str.join " | " (map quoted vals).

Definition mem (x : string) (l : list string) : bool := existsb (String.eqb x) l.

Fixpoint run_checks (checks : list check) (x : float) (p : path) : list issue :=
  match checks with
  | [] => []
  | CMin b text :: rest =>
      (if PrimFloat.ltb x b then [TooSmall text p] else []) ++ run_checks rest x p
  | CMax b text :: rest =>
      (if PrimFloat.ltb b x then [TooBig text p] else []) ++ run_checks rest x p
  end.

Definition is_undefined (v : value) : bool :=
  match v with VUndefined => true | _ => false end.

(** [schema._parse]: the normalized value and the issues found.  The
    value is meaningful when there is no issue. *)
Fixpoint parse (s : schema) (p : path) (v : value) {struct s} : value * list issue :=
  let mismatch expected := (VUndefined, [InvalidType expected (parsed_type v) p]) in
  match s with
  | ZString =>
      match v with
      | VStr _ => (v, [])
      | _ => mismatch "string"
      end
  | ZNumber checks =>
      match v with
      | VNum x => if PrimFloat.is_nan x then mismatch "number"
                  else (v, run_checks checks x p)
      | _ => mismatch "number"
      end
  | ZBoolean =>
      match v with
      | VBool _ => (v, [])
      | _ => mismatch "boolean"
      end
  | ZEnum vals =>
      match v with
      | VStr x => if mem x vals then (v, [])
                  else (VUndefined, [InvalidEnumValue x vals p])
      | _ => (VUndefined, [InvalidEnumType (join_values vals) (parsed_type v) p])
      end
  | ZOptional inner =>
      match v with
      | VUndefined => (VUndefined, [])
      | _ => parse inner p v
      end
  | ZArray element =>
      match v with
      | VArr items =>
          let fix each (i : nat) (xs : list value) : list value * list issue :=
            match xs with
            | [] => ([], [])
            | x :: xs' =>
                let (d, is1) := parse element (p ++ [PIndex i]) x in
                let (ds, is2) := each (S i) xs' in
                (d :: ds, is1 ++ is2)
            end in
          let (ds, iss) := each 0 items in (VArr ds, iss)
      | _ => mismatch "array"
      end
  | ZRecord element =>
      match v with
      | VObj fields =>
          let fix each (fs : list (string * value))
            : list (string * value) * list issue :=
            match fs with
            | [] => ([], [])
            | (k, x) :: fs' =>
                let (d, is1) := parse element (p ++ [PKey k]) x in
                let (ds, is2) := each fs' in
                (if String.eqb k "__proto__" then ds else (k, d) :: ds, is1 ++ is2)
            end in
          let (ds, iss) := each fields in (VObj ds, iss)
      | _ => mismatch "object"
      end
  | ZObject shape =>
      match v with
      | VObj fields =>
          let fix each (sh : list (string * schema))
            : list (string * value) * list issue :=
            match sh with
            | [] => ([], [])
            | (k, sk) :: sh' =>
                let (d, is1) := parse sk (p ++ [PKey k]) (get_prop k fields) in
                let (ds, is2) := each sh' in
                (if negb (is_undefined d) || has_prop k fields
                 then (k, d) :: ds else ds,
                 is1 ++ is2)
            end in
          let (ds, iss) := each shape in (VObj ds, iss)
      | _ => mismatch "object"
      end
  end.

Inductive parse_result : Type :=
| ParseOk (data : value)
| ParseError (issues : list issue).

(** [schema.safeParse(v)]. *)
Definition safeParse (s : schema) (v : value) : parse_result :=
  match parse s [] v with
  | (d, []) => ParseOk d
  | (_, iss) => ParseError iss
  end.

End Zod.
Import Zod.

(* ================================================================== *)
(** ** The text of a validation error *)
(* ================================================================== *)

(** [ZodError.message] is the issue list printed by
    [JSON.stringify(issues, _, 2)]. *)

Module Json.

Inductive json : Type :=
| JStr (s : string)
| JLit (text : string)
| JArr (items : list json)
| JObj (members : list (string * json)).

Definition nl : string := String "010"%char EmptyString.
Definition dquote : ascii := "034"%char.
Definition backslash : ascii := "092"%char.

Definition hex_digit (n : nat) : ascii :=
  if Nat.ltb n 10 then ascii_of_nat (48 + n) else ascii_of_nat (87 + n).

(** One code unit inside a JSON string literal. *)
Definition escape_char (c : ascii) : string :=
  let n := nat_of_ascii c in
  if Ascii.eqb c dquote then String backslash (String dquote EmptyString)
  else if Ascii.eqb c backslash then String backslash (String backslash EmptyString)
  else if Nat.eqb n 8 then String backslash "b"
  else if Nat.eqb n 9 then String backslash "t"
  else if Nat.eqb n 10 then String backslash "n"
  else if Nat.eqb n 12 then String backslash "f"
  else if Nat.eqb n 13 then String backslash "r"
  else if Nat.ltb n 32 then
    String backslash ("u00" ++ String (hex_digit (Nat.div n 16))
                                (String (hex_digit (Nat.modulo n 16)) EmptyString))
  else String c EmptyString.

Fixpoint escape (s : string) : string :=
  match s with
  | EmptyString => EmptyString
  | String c rest => escape_char c ++ escape rest
  end.

Definition quote (s : string) : string :=
  String dquote (escape s ++ String dquote EmptyString).

(** [JSON.stringify(j, _, 2)] at the given current indentation. *)
Fixpoint stringify (indent : string) (j : json) : string :=
  let inner := (indent ++ "  ")%string in
  match j with
  | JStr s => quote s
  | JLit text => text
  | JArr [] => "[]"
  | JArr items =>
      "[" ++ nl ++ inner
          ++ Str.join ("," ++ nl ++ inner)%string (map (stringify inner) items)
          ++ nl ++ indent ++ "]"
  | JObj [] => "{}"
  | JObj members =>
      "{" ++ nl ++ inner
          ++ Str.join ("," ++ nl ++ inner)%string
               (map (fun m => (quote (fst m) ++ ": " ++ stringify inner (snd m))%string)
                    members)
          ++ nl ++ indent ++ "}"
  end.

End Json.

Module ZodError.
Import Json.

Definition path_json (p : path) : json :=
  JArr (map (fun e => match e with
                      | PKey k => JStr k
                      | PIndex i => JLit (Str.of_nat i)
                      end) p).

(** The default English error map. *)
Definition issue_message (i : issue) : string :=
  match i with
  | InvalidType expected received _ | InvalidEnumType expected received _ =>
      if String.eqb received "undefined" then "Required"
      else "Expected " ++ expected ++ ", received " ++ received
  | InvalidEnumValue received options _ =>
      "Invalid enum value. Expected " ++ join_values options
        ++ ", received " ++ quoted received
  | TooSmall minimum _ => "Number must be greater than or equal to " ++ minimum
  | TooBig maximum _ => "Number must be less than or equal to " ++ maximum
  end.

Definition issue_json (i : issue) : json :=
  match i with
  | InvalidType expected received p =>
      JObj [("code", JStr "invalid_type"); ("expected", JStr expected);
            ("received", JStr received); ("path", path_json p);
            ("message", JStr (issue_message i))]
  | InvalidEnumType expected received p =>
      JObj [("expected", JStr expected); ("received", JStr received);
            ("code", JStr "invalid_type"); ("path", path_json p);
            ("message", JStr (issue_message i))]
  | InvalidEnumValue received options p =>
      JObj [("received", JStr received); ("code", JStr "invalid_enum_value");
            ("options", JArr (map JStr options)); ("path", path_json p);
            ("message", JStr (issue_message i))]
  | TooSmall minimum p =>
      JObj [("code", JStr "too_small"); ("minimum", JLit minimum);
            ("type", JStr "number"); ("inclusive", JLit "true");
            ("exact", JLit "false"); ("message", JStr (issue_message i));
            ("path", path_json p)]
  | TooBig maximum p =>
      JObj [("code", JStr "too_big"); ("maximum", JLit maximum);
            ("type", JStr "number"); ("inclusive", JLit "true");
            ("exact", JLit "false"); ("message", JStr (issue_message i));
            ("path", path_json p)]
  end.

(** [error.message]. *)
Definition message (issues : list issue) : string :=
  stringify EmptyString (JArr (map issue_json issues)).

End ZodError.

(* ================================================================== *)
(** ** The option schemas of the converters *)
(* ================================================================== *)

Definition opt (s : schema) : schema := ZOptional s.

Definition paper_formats : list string :=
  ["A4"; "A3"; "A2"; "A1"; "A0"; "Legal"; "Letter"; "Tabloid"].

Definition sanitizerOptions_shape : list (string * schema) :=
  [("allowedTags", opt (ZArray ZString));
   ("allowedAttributes", opt (ZRecord (ZArray ZString)));
   ("allowedSchemes", opt (ZArray ZString));
   ("allowedClasses", opt (ZRecord (ZArray ZString)))].

Definition pdf_margin_shape : list (string * schema) :=
  [("top", opt ZString); ("right", opt ZString);
   ("bottom", opt ZString); ("left", opt ZString)].

Definition docx_margins_shape : list (string * schema) :=
  [("top", opt (ZNumber [])); ("right", opt (ZNumber []));
   ("bottom", opt (ZNumber [])); ("left", opt (ZNumber []));
   ("header", opt (ZNumber [])); ("footer", opt (ZNumber []));
   ("gutter", opt (ZNumber []))].

(** [z.number().min(0.1).max(2)]. *)
Definition scale_schema : schema := ZNumber [CMin 0.1%float "0.1"; CMax 2%float "2"].

Definition HtmlToPdfOptions_shape : list (string * schema) :=
  [("format", opt (ZEnum paper_formats));
   ("margin", opt (ZObject pdf_margin_shape));
   ("printBackground", opt ZBoolean);
   ("landscape", opt ZBoolean);
   ("scale", opt scale_schema);
   ("displayHeaderFooter", opt ZBoolean);
   ("headerTemplate", opt ZString);
   ("footerTemplate", opt ZString);
   ("preferCSSPageSize", opt ZBoolean);
   ("width", opt ZString);
   ("height", opt ZString)].

Definition HtmlToPdfOptionsSchema : schema := opt (ZObject HtmlToPdfOptions_shape).

Definition HtmlToDocxOptions_shape : list (string * schema) :=
  [("orientation", opt (ZEnum ["portrait"; "landscape"]));
   ("margins", opt (ZObject docx_margins_shape));
   ("title", opt ZString);
   ("subject", opt ZString);
   ("creator", opt ZString);
   ("keywords", opt ZString);
   ("description", opt ZString)].

Definition HtmlToDocxOptionsSchema : schema := opt (ZObject HtmlToDocxOptions_shape).

Definition MarkdownToHtmlOptions_shape : list (string * schema) :=
  [("sanitize", opt ZBoolean);
   ("breaks", opt ZBoolean);
   ("gfm", opt ZBoolean);
   ("mangle", opt ZBoolean);
   ("pedantic", opt ZBoolean);
   ("sanitizerOptions", opt (ZObject sanitizerOptions_shape))].

Definition MarkdownToHtmlOptionsSchema : schema :=
  opt (ZObject MarkdownToHtmlOptions_shape).

Definition MarkdownToDocxOptions_shape : list (string * schema) :=
  [("sanitize", opt ZBoolean);
   ("breaks", opt ZBoolean);
   ("gfm", opt ZBoolean);
   ("mangle", opt ZBoolean);
   ("pedantic", opt ZBoolean);
   ("sanitizerOptions", opt (ZObject sanitizerOptions_shape));
   ("orientation", opt (ZEnum ["portrait"; "landscape"]));
   ("margins", opt (ZObject docx_margins_shape));
   ("title", opt ZString);
   ("subject", opt ZString);
   ("creator", opt ZString);
   ("keywords", opt ZString);
   ("description", opt ZString);
   ("fullDocument", opt ZBoolean);
   ("cssStyles", opt ZString)].

Definition MarkdownToDocxOptionsSchema : schema :=
  opt (ZObject MarkdownToDocxOptions_shape).

Definition documentOptions_shape : list (string * schema) :=
  [("title", opt ZString); ("cssStyles", opt ZString); ("fullDocument", opt ZBoolean)].

Definition MarkdownToPdfOptions_shape : list (string * schema) :=
  [("markdownOptions", opt (ZObject MarkdownToHtmlOptions_shape));
   ("pdfOptions", opt (ZObject HtmlToPdfOptions_shape));
   ("documentOptions", opt (ZObject documentOptions_shape))].

Definition MarkdownToPdfOptionsSchema : schema :=
  opt (ZObject MarkdownToPdfOptions_shape).

(* ================================================================== *)
(** ** External collaborators and the calls made to them *)
(* ================================================================== *)

(** A thrown value: an [Error] with its message, or anything else. *)
Inductive exn : Type :=
| JsError (message : string)
| JsThrown.

(** [error instanceof Error ? error.message : 'Unknown error occurred']. *)
Definition errorMessage (e : exn) : string :=
  match e with
  | JsError m => m
  | JsThrown => "Unknown error occurred"
  end.

Definition Buffer : Type := list byte.
Definition browser : Type := nat.
Definition page : Type := nat.

(** The argument of [marked.setOptions]. *)
Record MarkedOptions : Type :=
  { breaks : bool; gfm : bool; pedantic : bool }.

(** What the DOCX emitter hands back: a byte buffer, a blob whose bytes
    are read asynchronously, or something else. *)
Inductive DocxOutput : Type :=
| OutBuffer (bytes : Buffer)
| OutBlob (arrayBuffer : exn + Buffer)
| OutOther.

Record Response : Type :=
  { ok : bool; status : nat; statusText : string; text : exn + string }.

(** The outcome of every external call, as a function of its arguments.
    [inl e] is a call that throws (or a promise that rejects with) [e]. *)
Record World : Type :=
  { marked_parse : MarkedOptions -> string -> exn + string;
    sanitizeHtml : string -> list (string * value) -> exn + string;
    puppeteer_launch : exn + browser;
    browser_newPage : browser -> exn + page;
    page_setContent : page -> string -> exn + unit;
    page_goto : page -> string -> exn + unit;
    page_pdf : page -> list (string * value) -> exn + Buffer;
    browser_close : browser -> exn + unit;
    asBlob : string -> list (string * value) -> exn + DocxOutput;
    fs_readFile : string -> exn + string;
    fetch : string -> exn + Response }.

(** The external calls a conversion makes, in order. *)
Inductive event : Type :=
| EMarkedSetOptions (o : MarkedOptions)
| EMarkedParse (markdown : string)
| ESanitizeHtml (html : string) (options : list (string * value))
| ELaunch
| ENewPage (b : browser)
| ESetContent (p : page) (html : string)
| EGoto (p : page) (url : string)
| EPdf (p : page) (options : list (string * value))
| EClose (b : browser)
| EConsoleError
| EAsBlob (html : string) (libOptions : list (string * value))
| EArrayBuffer
| EReadFile (path : string)
| EFetch (url : string)
| EResponseText.

Definition trace : Type := list event.

(* ================================================================== *)
(** ** Control flow: exceptions, local variables, try/catch/finally *)
(* ================================================================== *)

(** A block that may throw, over local variables of type [S]. *)
Definition M (S A : Type) : Type := S -> (exn + A) * S * trace.

(** A block that completes normally. *)
Definition N (S A : Type) : Type := S -> A * S * trace.

(** A finished asynchronous call: its value and the calls it made. *)
Definition Done (A : Type) : Type := (A * trace)%type.

Definition ret {S A} (a : A) : M S A := fun s => (inr a, s, []).

Definition bind {S A B} (m : M S A) (k : A -> M S B) : M S B :=
  fun s =>
    match m s with
    | (inl e, s1, t1) => (inl e, s1, t1)
    | (inr a, s1, t1) =>
        match k a s1 with
        | (r, s2, t2) => (r, s2, t1 ++ t2)
        end
    end.

Notation "x <- m ;; k" := (bind m (fun x => k))
  (at level 61, m at next level, right associativity).
Notation "m ;;; k" := (bind m (fun _ => k))
  (at level 61, right associativity).

(** An external call: recorded, then its outcome. *)
Definition call {S A} (ev : event) (outcome : exn + A) : M S A :=
  fun s => (outcome, s, [ev]).

Definition throw {S A} (e : exn) : M S A := fun s => (inl e, s, []).

(** Assignment to the local variable. *)
Definition assign {S} (s' : S) : M S unit := fun _ => (inr tt, s', []).

(** [await f(...)] for a converter [f], which never rejects. *)
Definition await {S A} (d : Done A) : M S A := fun s => (inr (fst d), s, snd d).

(** [try { body } catch (error) { return handler(error) }]. *)
Definition try_catch {S A} (body : M S A) (handler : exn -> N S A) : N S A :=
  fun s =>
    match body s with
    | (inr a, s1, t1) => (a, s1, t1)
    | (inl e, s1, t1) =>
        match handler e s1 with
        | (a, s2, t2) => (a, s2, t1 ++ t2)
        end
    end.

Definition returning {S A} (a : A) : N S A := fun s => (a, s, []).

Definition log {S} (ev : event) : N S unit := fun s => (tt, s, [ev]).

(** [... finally { finalizer }]: the finalizer reads the local variable
    and completes normally; the outcome of the block stands. *)
Definition finally {S A} (block : N S A) (finalizer : S -> N S unit) : N S A :=
  fun s =>
    match block s with
    | (a, s1, t1) =>
        match finalizer s1 s1 with
        | (_, s2, t2) => (a, s2, t1 ++ t2)
        end
    end.

(** A function body run with its local variable initialised. *)
Definition run {S A} (init : S) (body : N S A) : Done A :=
  match body init with
  | (a, _, t) => (a, t)
  end.

(* ================================================================== *)
(** ** The result envelope *)
(* ================================================================== *)

Record ConversionResult (D Meta : Type) : Type :=
  { success : bool;
    data : option D;
    error : option string;
    metadata : option Meta }.

Arguments success {D Meta} _.
Arguments data {D Meta} _.
Arguments error {D Meta} _.
Arguments metadata {D Meta} _.

(** [{ success: false, error: msg }]. *)
Definition failure {D Meta} (msg : string) : ConversionResult D Meta :=
  {| success := false; data := None; error := Some msg; metadata := None |}.

(** [{ success: true, data: d, metadata: m }]. *)
Definition succeeded {D Meta} (d : D) (m : Meta) : ConversionResult D Meta :=
  {| success := true; data := Some d; error := None; metadata := Some m |}.

(** A validated option that the schema declares as an optional string. *)
Definition string_option (v : value) : option string :=
  match v with
  | VStr s => Some s
  | _ => None
  end.

(** [s || fallback] on an optional string. *)
Definition string_or (s : option string) (fallback : string) : string :=
  match s with
  | Some x => if String.eqb x "" then fallback else x
  | None => fallback
  end.

(** [n || fallback] on an optional number. *)
Definition number_or (n : option nat) (fallback : nat) : nat :=
  match n with
  | Some (S k) => S k
  | _ => fallback
  end.

(** A double-quoted attribute value inside a template. *)
Definition dq (s : string) : string :=
  String Json.dquote (s ++ String Json.dquote EmptyString).

Definition nl : string := Json.nl.

Open Scope string_scope.

Definition lines (l : list string) : string := Str.join nl l.

(* ================================================================== *)
(** ** Markdown to HTML *)
(* ================================================================== *)

Module MarkdownToHtmlConverter.

Record Metadata : Type :=
  { originalLength : nat; htmlLength : nat; sanitized : bool }.

Definition Result : Type := ConversionResult string Metadata.

Definition strings (l : list string) : value := VArr (map VStr l).

Definition DEFAULT_SANITIZER_OPTIONS : list (string * value) :=
  [("allowedTags",
    strings ["h1"; "h2"; "h3"; "h4"; "h5"; "h6";
             "p"; "br"; "hr";
             "strong"; "em"; "u"; "s"; "b"; "i";
             "ul"; "ol"; "li";
             "blockquote"; "pre"; "code";
             "a"; "img";
             "table"; "thead"; "tbody"; "tr"; "th"; "td";
             "div"; "span"]);
   ("allowedAttributes",
    VObj [("a", strings ["href"; "title"; "target"]);
          ("img", strings ["src"; "alt"; "title"; "width"; "height"]);
          ("blockquote", strings ["cite"]);
          ("th", strings ["align"; "colspan"; "rowspan"]);
          ("td", strings ["align"; "colspan"; "rowspan"]);
          ("div", strings ["class"; "id"]);
          ("span", strings ["class"; "id"]);
          ("pre", strings ["class"]);
          ("code", strings ["class"])]);
   ("allowedSchemes", strings ["http"; "https"; "mailto"]);
   ("allowedClasses",
    VObj [("pre", strings ["language-*"]);
          ("code", strings ["language-*"])])].

(** The parser settings derived from the validated options. *)
Definition markedOptions (opts : value) : MarkedOptions :=
  {| breaks := truthy (or_else (prop opts "breaks") (VBool false));
     gfm := is_not_false (prop opts "gfm");
     pedantic := truthy (or_else (prop opts "pedantic") (VBool false)) |}.

Definition convertMarkdownToHtml (w : World) (markdown options : value)
  : Done Result :=
  match nonempty_string markdown with
  | None =>
      (failure "Invalid markdown input: Markdown must be a non-empty string", [])
  | Some markdown =>
      run tt
        (try_catch
           (match safeParse MarkdownToHtmlOptionsSchema options with
            | ParseError issues =>
                ret (failure ("Invalid options: " ++ ZodError.message issues))
            | ParseOk validated =>
                let opts := or_else validated (VObj []) in
                let configured := markedOptions opts in
                call (EMarkedSetOptions configured) (inr tt) ;;;
                html <- call (EMarkedParse markdown)
                             (marked_parse w configured markdown) ;;
                cleaned <-
                  (if truthy (prop opts "sanitize") then
                     let sanitizerOptions :=
                       spread DEFAULT_SANITIZER_OPTIONS
                              (own_props (prop opts "sanitizerOptions")) in
                     html' <- call (ESanitizeHtml html sanitizerOptions)
                                   (sanitizeHtml w html sanitizerOptions) ;;
                     ret (html', true)
                   else ret (html, false)) ;;
                ret (succeeded (fst cleaned)
                       {| originalLength := String.length markdown;
                          htmlLength := String.length (fst cleaned);
                          sanitized := snd cleaned |})
            end)
           (fun error =>
              returning
                (failure ("Markdown conversion failed: " ++ errorMessage error))))
  end.

Definition convertMarkdownFileToHtml (w : World) (filePath : string)
  (options : value) : Done Result :=
  run tt
    (try_catch
       (markdown <- call (EReadFile filePath) (fs_readFile w filePath) ;;
        await (convertMarkdownToHtml w (VStr markdown) options))
       (fun error =>
          returning
            (failure ("Failed to read markdown file: " ++ errorMessage error)))).

Definition defaultStyles : string := "
      body {
        font-family: -apple-system, BlinkMacSystemFont, 'Segoe UI', 'Roboto', sans-serif;
        line-height: 1.6;
        color: #333;
        max-width: 800px;
        margin: 0 auto;
        padding: 20px;
      }
      
      h1, h2, h3, h4, h5, h6 {
        margin-top: 1.5em;
        margin-bottom: 0.5em;
      }
      
      pre {
        background: #f5f5f5;
        padding: 15px;
        border-radius: 5px;
        overflow-x: auto;
      }
      
      code {
        background: #f5f5f5;
        padding: 2px 4px;
        border-radius: 3px;
        font-family: 'Monaco', 'Menlo', 'Ubuntu Mono', monospace;
      }
      
      blockquote {
        border-left: 4px solid #ddd;
        margin: 0;
        padding-left: 20px;
        color: #666;
      }
      
      table {
        border-collapse: collapse;
        width: 100%;
        margin: 1em 0;
      }
      
      th, td {
        border: 1px solid #ddd;
        padding: 8px 12px;
        text-align: left;
      }
      
      th {
        background-color: #f5f5f5;
        font-weight: bold;
      }
      
      img {
        max-width: 100%;
        height: auto;
      }
      
      a {
        color: #0066cc;
        text-decoration: none;
      }
      
      a:hover {
        text-decoration: underline;
      }
    ".

(** [title] defaults to ['Document']; [cssStyles] may be absent. *)
Definition createFullHtmlDocument (htmlContent : string)
  (title cssStyles : option string) : string :=
  let title := match title with Some t => t | None => "Document" end in
  lines
    ["<!DOCTYPE html>";
     "<html lang=" ++ dq "en" ++ ">";
     "<head>";
     "  <meta charset=" ++ dq "UTF-8" ++ ">";
     "  <meta name=" ++ dq "viewport" ++ " content="
       ++ dq "width=device-width, initial-scale=1.0" ++ ">";
     "  <title>" ++ title ++ "</title>";
     "  <style>";
     "    " ++ defaultStyles;
     "    " ++ string_or cssStyles "";
     "  </style>";
     "</head>";
     "<body>";
     "  " ++ htmlContent;
     "</body>";
     "</html>"].

End MarkdownToHtmlConverter.

(* ================================================================== *)
(** ** HTML (or a URL) to PDF *)
(* ================================================================== *)

Module HtmlToPdfConverter.

Record Metadata : Type := { size : nat }.

Definition Result : Type := ConversionResult Buffer Metadata.

Definition DEFAULT_OPTIONS : list (string * value) :=
  [("format", VStr "A4");
   ("margin", VObj [("top", VStr "1cm"); ("right", VStr "1cm");
                    ("bottom", VStr "1cm"); ("left", VStr "1cm")]);
   ("printBackground", VBool true);
   ("displayHeaderFooter", VBool false);
   ("preferCSSPageSize", VBool false)].

(** The [finally] block shared by both operations: close the browser
    if one was launched, logging a failure to close. *)
Definition closeBrowser (w : World) (launched : option browser)
  : N (option browser) unit :=
  match launched with
  | Some b =>
      try_catch (call (EClose b) (browser_close w b))
                (fun closeError => log EConsoleError)
  | None => returning tt
  end.

Definition convertHtmlToPdf (w : World) (html options : value) : Done Result :=
  match nonempty_string html with
  | None => (failure "Invalid HTML input: HTML must be a non-empty string", [])
  | Some html =>
      run None
        (finally
           (try_catch
              (match safeParse HtmlToPdfOptionsSchema options with
               | ParseError issues =>
                   ret (failure ("Invalid options: " ++ ZodError.message issues))
               | ParseOk validated =>
                   let pdfOptions := spread DEFAULT_OPTIONS (own_props validated) in
                   b <- call ELaunch (puppeteer_launch w) ;;
                   assign (Some b) ;;;
                   p <- call (ENewPage b) (browser_newPage w b) ;;
                   call (ESetContent p html) (page_setContent w p html) ;;;
                   pdfBuffer <- call (EPdf p pdfOptions) (page_pdf w p pdfOptions) ;;
                   ret (succeeded pdfBuffer {| size := List.length pdfBuffer |})
               end)
              (fun error =>
                 returning
                   (failure ("PDF generation failed: " ++ errorMessage error))))
           (closeBrowser w))
  end.

Definition convertHtmlFileToPdf (w : World) (filePath : string)
  (options : value) : Done Result :=
  run tt
    (try_catch
       (html <- call (EReadFile filePath) (fs_readFile w filePath) ;;
        await (convertHtmlToPdf w (VStr html) options))
       (fun error =>
          returning (failure ("Failed to read HTML file: " ++ errorMessage error)))).

Definition convertUrlToPdf (w : World) (url options : value) : Done Result :=
  match nonempty_string url with
  | None => (failure "Invalid URL input: URL must be a non-empty string", [])
  | Some url =>
      run None
        (finally
           (try_catch
              (match safeParse HtmlToPdfOptionsSchema options with
               | ParseError issues =>
                   ret (failure ("Invalid options: " ++ ZodError.message issues))
               | ParseOk validated =>
                   let pdfOptions := spread DEFAULT_OPTIONS (own_props validated) in
                   b <- call ELaunch (puppeteer_launch w) ;;
                   assign (Some b) ;;;
                   p <- call (ENewPage b) (browser_newPage w b) ;;
                   call (EGoto p url) (page_goto w p url) ;;;
                   pdfBuffer <- call (EPdf p pdfOptions) (page_pdf w p pdfOptions) ;;
                   ret (succeeded pdfBuffer {| size := List.length pdfBuffer |})
               end)
              (fun error =>
                 returning
                   (failure ("PDF generation from URL failed: "
                               ++ errorMessage error))))
           (closeBrowser w))
  end.

End HtmlToPdfConverter.

(* ================================================================== *)
(** ** HTML (or a URL) to DOCX *)
(* ================================================================== *)

Module HtmlToDocxConverter.

Record Metadata : Type := { size : nat }.

Definition Result : Type := ConversionResult Buffer Metadata.

Definition DEFAULT_OPTIONS : list (string * value) :=
  [("orientation", VStr "portrait");
   ("margins", VObj [("top", VNum 1440); ("right", VNum 1440);
                     ("bottom", VNum 1440); ("left", VNum 1440)])].

(** [if (docxOptions.k) headContent.push(element)]: the schema admits
    only a string under [k], so a truthy value is a non-empty string. *)
Definition pushIf (docxOptions : list (string * value)) (k : string)
  (element : string -> string) : list string :=
  match nonempty_string (get_prop k docxOptions) with
  | Some text => [element text]
  | None => []
  end.

Definition headContent (docxOptions : list (string * value)) : list string :=
  List.concat
    [pushIf docxOptions "title" (fun t => "<title>" ++ t ++ "</title>");
     pushIf docxOptions "subject"
       (fun t => "<meta name=" ++ dq "subject" ++ " content=" ++ dq t ++ ">");
     pushIf docxOptions "creator"
       (fun t => "<meta name=" ++ dq "creator" ++ " content=" ++ dq t ++ ">");
     pushIf docxOptions "keywords"
       (fun t => "<meta name=" ++ dq "keywords" ++ " content=" ++ dq t ++ ">");
     pushIf docxOptions "description"
       (fun t => "<meta name=" ++ dq "description" ++ " content=" ++ dq t ++ ">")].

(** The separator of [headContent.join]: a line break and the
    indentation of the template. *)
Definition headSeparator : string := nl ++ "              ".

(** The HTML handed to the emitter: the input, with the metadata
    elements placed in a head when metadata was given. *)
Definition processedHtml (docxOptions : list (string * value)) (html : string)
  : string :=
  if truthy (get_prop "title" docxOptions)
     || truthy (get_prop "subject" docxOptions)
     || truthy (get_prop "creator" docxOptions)
  then
    let head := Str.join headSeparator (headContent docxOptions) in
    if negb (Str.includes "<html" html) && negb (Str.includes "<head" html) then
      nl ++
      lines ["            <!DOCTYPE html>";
             "            <html>";
             "            <head>";
             "              " ++ head;
             "            </head>";
             "            <body>";
             "              " ++ html;
             "            </body>";
             "            </html>";
             "          "]
    else if Str.includes "<head>" html then
      Str.replace "<head>" ("<head>" ++ headSeparator ++ head) html
    else html
  else html.

(** The two knobs passed on to the emitter. *)
Definition libOptions (docxOptions : list (string * value))
  : list (string * value) :=
  List.concat
    [if truthy (get_prop "orientation" docxOptions)
     then [("orientation", get_prop "orientation" docxOptions)] else [];
     if truthy (get_prop "margins" docxOptions)
     then [("margins", get_prop "margins" docxOptions)] else []].

Definition convertHtmlToDocx (w : World) (html options : value) : Done Result :=
  match nonempty_string html with
  | None => (failure "Invalid HTML input: HTML must be a non-empty string", [])
  | Some html =>
      run tt
        (try_catch
           (match safeParse HtmlToDocxOptionsSchema options with
            | ParseError issues =>
                ret (failure ("Invalid options: " ++ ZodError.message issues))
            | ParseOk validated =>
                let docxOptions := spread DEFAULT_OPTIONS (own_props validated) in
                let prepared := processedHtml docxOptions html in
                let emitterOptions := libOptions docxOptions in
                docxResult <- call (EAsBlob prepared emitterOptions)
                                   (asBlob w prepared emitterOptions) ;;
                docxBuffer <-
                  match docxResult with
                  | OutBuffer bytes => ret bytes
                  | OutBlob arrayBuffer => call EArrayBuffer arrayBuffer
                  | OutOther =>
                      throw (JsError "Unexpected return type from html-docx-js")
                  end ;;
                ret (succeeded docxBuffer {| size := List.length docxBuffer |})
            end)
           (fun error =>
              returning
                (failure ("DOCX generation failed: " ++ errorMessage error))))
  end.

Definition convertHtmlFileToDocx (w : World) (filePath : string)
  (options : value) : Done Result :=
  run tt
    (try_catch
       (html <- call (EReadFile filePath) (fs_readFile w filePath) ;;
        await (convertHtmlToDocx w (VStr html) options))
       (fun error =>
          returning (failure ("Failed to read HTML file: " ++ errorMessage error)))).

Definition convertUrlToDocx (w : World) (url options : value) : Done Result :=
  match nonempty_string url with
  | None => (failure "Invalid URL input: URL must be a non-empty string", [])
  | Some url =>
      run tt
        (try_catch
           (response <- call (EFetch url) (fetch w url) ;;
            if negb (ok response) then
              ret (failure ("Failed to fetch URL: " ++ Str.of_nat (status response)
                              ++ " " ++ statusText response))
            else
              html <- call EResponseText (text response) ;;
              await (convertHtmlToDocx w (VStr html) options))
           (fun error =>
              returning
                (failure ("DOCX generation from URL failed: "
                            ++ errorMessage error))))
  end.

End HtmlToDocxConverter.

(* ================================================================== *)
(** ** Pipeline composers *)
(* ================================================================== *)

(** The data of a stage result that passes [!r.success || !r.data]: a
    text must be non-empty, a buffer must be present. *)
Definition usable_text {Meta} (r : ConversionResult string Meta) : option string :=
  if success r then
    match data r with
    | Some s => if String.eqb s "" then None else Some s
    | None => None
    end
  else None.

Definition usable_buffer {Meta} (r : ConversionResult Buffer Meta) : option Buffer :=
  if success r then data r else None.

(** [${x}] for an optional string. *)
Definition interpolate (x : option string) : string :=
  match x with
  | Some s => s
  | None => "undefined"
  end.

Module MarkdownToDocxConverter.

Import MarkdownToHtmlConverter.

Record Metadata : Type :=
  { size : nat; originalLength : nat; htmlLength : nat; sanitized : bool }.

Definition Result : Type := ConversionResult Buffer Metadata.

Definition markdownOptions (opts : value) : value :=
  VObj [("sanitize", prop opts "sanitize");
        ("breaks", prop opts "breaks");
        ("gfm", prop opts "gfm");
        ("mangle", prop opts "mangle");
        ("pedantic", prop opts "pedantic");
        ("sanitizerOptions", prop opts "sanitizerOptions")].

Definition docxOptions (opts : value) : value :=
  VObj [("orientation", prop opts "orientation");
        ("margins", prop opts "margins");
        ("title", prop opts "title");
        ("subject", prop opts "subject");
        ("creator", prop opts "creator");
        ("keywords", prop opts "keywords");
        ("description", prop opts "description")].

(** The HTML handed to the DOCX stage. *)
Definition documentHtml (opts : value) (html : string) : string :=
  let title := string_or (string_option (prop opts "title")) "Document" in
  if is_not_false (prop opts "fullDocument")
  then createFullHtmlDocument html (Some title) (string_option (prop opts "cssStyles"))
  else html.

Definition convertMarkdownToDocx (w : World) (markdown options : value)
  : Done Result :=
  match nonempty_string markdown with
  | None =>
      (failure "Invalid markdown input: Markdown must be a non-empty string", [])
  | Some markdown =>
      run tt
        (try_catch
           (match safeParse MarkdownToDocxOptionsSchema options with
            | ParseError issues =>
                ret (failure ("Invalid options: " ++ ZodError.message issues))
            | ParseOk validated =>
                let opts := or_else validated (VObj []) in
                htmlResult <-
                  await (convertMarkdownToHtml w (VStr markdown) (markdownOptions opts)) ;;
                match usable_text htmlResult with
                | None =>
                    ret (failure (string_or (error htmlResult)
                                    "Failed to convert markdown to HTML"))
                | Some stageHtml =>
                    let html := documentHtml opts stageHtml in
                    docxResult <-
                      await (HtmlToDocxConverter.convertHtmlToDocx
                               w (VStr html) (docxOptions opts)) ;;
                    match usable_buffer docxResult with
                    | None =>
                        ret (failure (string_or (error docxResult)
                                        "Failed to convert HTML to DOCX"))
                    | Some bytes =>
                        ret (succeeded bytes
                               {| size := List.length bytes;
                                  originalLength :=
                                    number_or
                                      (option_map MarkdownToHtmlConverter.originalLength
                                         (metadata htmlResult))
                                      (String.length markdown);
                                  htmlLength :=
                                    number_or
                                      (option_map MarkdownToHtmlConverter.htmlLength
                                         (metadata htmlResult))
                                      (String.length html);
                                  sanitized :=
                                    match metadata htmlResult with
                                    | Some m => MarkdownToHtmlConverter.sanitized m
                                    | None => false
                                    end |})
                    end
                end
            end)
           (fun error =>
              returning
                (failure ("Markdown to DOCX conversion failed: "
                            ++ errorMessage error))))
  end.

Definition convertMarkdownFileToDocx (w : World) (filePath : string)
  (options : value) : Done Result :=
  run tt
    (try_catch
       (markdown <- call (EReadFile filePath) (fs_readFile w filePath) ;;
        await (convertMarkdownToDocx w (VStr markdown) options))
       (fun error =>
          returning
            (failure ("Failed to read markdown file: " ++ errorMessage error)))).

End MarkdownToDocxConverter.

Module MarkdownToPdfConverter.

Import MarkdownToHtmlConverter.

Record Metadata : Type :=
  { markdownLength : nat; htmlLength : nat; pdfSize : nat; sanitized : bool }.

Definition Result : Type := ConversionResult Buffer Metadata.

(** The HTML handed to the PDF stage. *)
Definition documentHtml (opts : value) (html : string) : string :=
  let documentOptions := prop opts "documentOptions" in
  if is_not_false (prop documentOptions "fullDocument")
  then createFullHtmlDocument html
         (Some (string_or (string_option (prop documentOptions "title")) "Document"))
         (string_option (prop documentOptions "cssStyles"))
  else html.

Definition convertMarkdownToPdf (w : World) (markdown options : value)
  : Done Result :=
  match nonempty_string markdown with
  | None =>
      (failure "Invalid markdown input: Markdown must be a non-empty string", [])
  | Some markdown =>
      run tt
        (try_catch
           (match safeParse MarkdownToPdfOptionsSchema options with
            | ParseError issues =>
                ret (failure ("Invalid options: " ++ ZodError.message issues))
            | ParseOk validated =>
                let opts := or_else validated (VObj []) in
                htmlResult <-
                  await (convertMarkdownToHtml w (VStr markdown)
                           (prop opts "markdownOptions")) ;;
                match usable_text htmlResult with
                | None =>
                    ret (failure ("Markdown to HTML conversion failed: "
                                    ++ interpolate (error htmlResult)))
                | Some stageHtml =>
                    let html := documentHtml opts stageHtml in
                    pdfResult <-
                      await (HtmlToPdfConverter.convertHtmlToPdf
                               w (VStr html) (prop opts "pdfOptions")) ;;
                    match usable_buffer pdfResult with
                    | None =>
                        ret (failure ("HTML to PDF conversion failed: "
                                        ++ interpolate (error pdfResult)))
                    | Some bytes =>
                        ret (succeeded bytes
                               {| markdownLength := String.length markdown;
                                  htmlLength := String.length html;
                                  pdfSize := List.length bytes;
                                  sanitized :=
                                    match metadata htmlResult with
                                    | Some m => MarkdownToHtmlConverter.sanitized m
                                    | None => false
                                    end |})
                    end
                end
            end)
           (fun error =>
              returning
                (failure ("Markdown to PDF conversion failed: "
                            ++ errorMessage error))))
  end.

Definition convertMarkdownFileToPdf (w : World) (filePath : string)
  (options : value) : Done Result :=
  run tt
    (try_catch
       (markdown <- call (EReadFile filePath) (fs_readFile w filePath) ;;
        await (convertMarkdownToPdf w (VStr markdown) options))
       (fun error =>
          returning
            (failure ("Failed to read markdown file: " ++ errorMessage error)))).

(** One entry of the batch: [{ content, title? }]. *)
Record MarkdownContent : Type :=
  { content : value; title : option string }.

Definition pageBreak : string :=
  nl ++ nl ++ "<div style=" ++ dq "page-break-after: always;" ++ "></div>" ++ nl ++ nl.

(** [if (title) combinedMarkdown += `# ${title}\n\n`]. *)
Definition heading (title : option string) : string :=
  match title with
  | Some t => if String.eqb t "" then "" else "# " ++ t ++ nl ++ nl
  | None => ""
  end.

(** The loop over the entries from index [i] on, [count] being
    [markdownContents.length]: the combined document and the total
    content length, or the message of the first invalid entry. *)
Fixpoint combineFrom (count i : nat) (rest : list MarkdownContent)
  (combinedMarkdown : string) (totalMarkdownLength : nat)
  : string + (string * nat) :=
  match rest with
  | [] => inr (combinedMarkdown, totalMarkdownLength)
  | entry :: rest' =>
      match nonempty_string (content entry) with
      | None =>
          inl ("Invalid markdown content at index " ++ Str.of_nat i
                 ++ ": content must be a non-empty string")
      | Some text =>
          let totalMarkdownLength := totalMarkdownLength + String.length text in
          let combinedMarkdown := combinedMarkdown ++ heading (title entry) in
          let combinedMarkdown := combinedMarkdown ++ text in
          let combinedMarkdown :=
            if Nat.ltb i (count - 1) then combinedMarkdown ++ pageBreak
            else combinedMarkdown in
          combineFrom count (S i) rest' combinedMarkdown totalMarkdownLength
      end
  end.

(** [result.metadata.markdownLength = totalMarkdownLength] on success. *)
Definition setMarkdownLength (result : Result) (total : nat) : Result :=
  match success result, metadata result with
  | true, Some m =>
      {| success := success result;
         data := data result;
         error := error result;
         metadata := Some {| markdownLength := total;
                             htmlLength := htmlLength m;
                             pdfSize := pdfSize m;
                             sanitized := sanitized m |} |}
  | _, _ => result
  end.

Definition convertMultipleMarkdownToPdf (w : World)
  (markdownContents : list MarkdownContent) (options : value) : Done Result :=
  if Nat.eqb (List.length markdownContents) 0 then
    (failure "Invalid input: markdownContents must be a non-empty array", [])
  else
    run tt
      (try_catch
         (match combineFrom (List.length markdownContents) 0 markdownContents "" 0 with
          | inl message => ret (failure message)
          | inr (combinedMarkdown, totalMarkdownLength) =>
              result <- await (convertMarkdownToPdf w (VStr combinedMarkdown) options) ;;
              ret (setMarkdownLength result totalMarkdownLength)
          end)
         (fun error =>
            returning
              (failure ("Multiple markdown to PDF conversion failed: "
                          ++ errorMessage error)))).

End MarkdownToPdfConverter.

(* ================================================================== *)
(** ** The command line *)
(* ================================================================== *)

Module Cli.

(** What a rejected import or file operation carries: [error.message]
    and [error.code]. *)
Record Error : Type :=
  { message : option string; code : option string }.

(** The signals the program forwards to the server script. *)
Inductive Signal : Type :=
| SIGINT
| SIGTERM.

(** What becomes of a server script once started: the signals the
    program receives, and forwards, while the script runs, and how the
    script ends, with an [error] event of the child process or with its
    [close] and its exit code (none when a signal ended it). *)
Record Child : Type :=
  { signals : list Signal; ending : Error + option nat }.

(** The host of the command: the converters' collaborators, the file
    system, the module loader and the child process of a server script
    started with the given [PORT]. *)
Record Host : Type :=
  { converters : World;
    existsSync : string -> bool;
    importModule : string -> option Error;
    readFile : string -> Error + string;
    writeFile : string -> string -> option Error;
    spawn : string -> option string -> Child }.

(** What the command does to its host, in order.  [Spawn] is the start
    of the server script with the [PORT] it adds to the environment,
    [Kill] a signal forwarded to it; [Call] is an external call made by
    a converter. *)
Inductive Event : Type :=
| Log (line : string)
| ErrorLine (line : string)
| Exists (path : string)
| Import (module : string)
| ReadFile (path : string)
| WriteFile (path : string) (content : string)
| Call (e : event)
| Spawn (script : string) (PORT : option string)
| Kill (signal : Signal).

(** How a run ends: it returns, it throws, or [process.exit] ends the
    process. *)
Inductive Outcome (A : Type) : Type :=
| Returned (a : A)
| Thrown (e : Error)
| Exited (exitCode : nat).

Arguments Returned {A} a.
Arguments Thrown {A} e.
Arguments Exited {A} exitCode.

Definition P (A : Type) : Type := (Outcome A * list Event)%type.

Definition ret {A} (a : A) : P A := (Returned a, []).

Definition bind {A B} (m : P A) (k : A -> P B) : P B :=
  match m with
  | (Returned a, t1) => let (r, t2) := k a in (r, (t1 ++ t2)%list)
  | (Thrown e, t1) => (Thrown e, t1)
  | (Exited c, t1) => (Exited c, t1)
  end.

Declare Scope cli_scope.
Delimit Scope cli_scope with cli.

Notation "x <- m ;; k" := (bind m (fun x => k))
  (at level 61, m at next level, right associativity) : cli_scope.
Notation "m ;;; k" := (bind m (fun _ => k))
  (at level 61, right associativity) : cli_scope.

#[local] Open Scope cli_scope.

Definition emit (e : Event) : P unit := (Returned tt, [e]).

Definition throw {A} (e : Error) : P A := (Thrown e, []).

(** [process.exit(code)]: nothing after it runs, no handler catches it. *)
Definition exit {A} (exitCode : nat) : P A := (Exited exitCode, []).

(** An awaited operation that may reject. *)
Definition attempt {A} (e : Event) (outcome : Error + A) : P A :=
  match outcome with
  | inl err => (Thrown err, [e])
  | inr a => (Returned a, [e])
  end.

(** [try { body } catch (error) { handler(error) }]. *)
Definition try_catch {A} (body : P A) (handler : Error -> P A) : P A :=
  match body with
  | (Thrown e, t1) => let (r, t2) := handler e in (r, (t1 ++ t2)%list)
  | done => done
  end.

(** [await f(...)] for a converter [f]: its calls, then its result. *)
Definition await {A} (d : Done A) : P A := (Returned (fst d), map Call (snd d)).

(** The options the loop of [main] collects. *)
Record Options : Type :=
  { port : option string; fullDoc : bool; title : option string }.

Definition noOptions : Options :=
  {| port := None; fullDoc := false; title := None |}.

Definition helpText : string :=
  lines
    ["";
     "Conversion MCP Server - Convert HTML/Markdown to PDF and other formats";
     "";
     "Usage:";
     "  npx conversion-mcp-server [command] [options]";
     "";
     "Commands:";
     "  stdio       Start the MCP server with stdio transport (default)";
     "  http        Start the HTTP server";
     "  convert     Convert files between formats";
     "  help        Show this help message";
     "";
     "Convert Commands:";
     "  convert md-to-html <input.md> <output.html>     Convert Markdown to HTML";
     "  convert md-to-pdf <input.md> <output.pdf>       Convert Markdown to PDF";
     "  convert html-to-pdf <input.html> <output.pdf>   Convert HTML to PDF";
     "  convert md-to-docx <input.md> <output.docx>     Convert Markdown to DOCX";
     "  convert html-to-docx <input.html> <output.docx> Convert HTML to DOCX";
     "";
     "Options:";
     "  --port, -p    Port for HTTP server (default: 3000)";
     "  --help, -h    Show help";
     "  --full-doc    Create full HTML document with CSS (for md-to-html)";
     "  --title       Set document title";
     "";
     "Examples:";
     "  # Server modes";
     "  npx conversion-mcp-server                    # Start stdio MCP server";
     "  npx conversion-mcp-server http               # Start HTTP server on port 3000";
     "  npx conversion-mcp-server http --port 8080   # Start HTTP server on port 8080";
     "";
     "  # Direct file conversion";
     "  npx conversion-mcp-server convert md-to-html readme.md readme.html";
     "  npx conversion-mcp-server convert md-to-html readme.md readme.html --full-doc --title " ++ dq "My Document";
     "  npx conversion-mcp-server convert md-to-pdf report.md report.pdf";
     "  npx conversion-mcp-server convert html-to-pdf page.html page.pdf";
     "  npx conversion-mcp-server convert md-to-docx notes.md notes.docx";
     "";
     "The stdio mode is used by MCP clients (like Claude Desktop) for direct communication.";
     "The HTTP mode provides a web server with REST endpoints and SSE transport.";
     "  "].

Definition showHelp : P unit := emit (Log helpText).

(** [process.on(signal, () => server.kill(signal))], for each signal
    received while the script runs. *)
Fixpoint forward (received : list Signal) : P unit :=
  match received with
  | [] => ret tt
  | signal :: rest => emit (Kill signal) ;;; forward rest
  end.

(** [startServer(mode, options)]: the script is started with the
    environment of the process, and [PORT] set when a port was given for
    the HTTP mode.  The process then lives as long as the script: it
    forwards the signals it receives, and ends with exit code 1 on an
    [error] event of the child (the line printed depends on the code of
    the error) or, when the child closes, with the exit code of the
    child, which is 0 when the child has none. *)
Definition startServer (h : Host) (mode : string) (options : Options) : P unit :=
  let scriptPath := if String.eqb mode "http" then "http-server.js" else "index.js" in
  let PORT :=
    if String.eqb mode "http" then
      match port options with
      | Some p => if String.eqb p "" then None else Some p
      | None => None
      end
    else None in
  let server := spawn h scriptPath PORT in
  emit (Spawn scriptPath PORT) ;;;
  forward (signals server) ;;;
  match ending server with
  | inl error =>
      (if match code error with
          | Some c => String.eqb c "ENOENT"
          | None => false
          end
       then
         emit (ErrorLine ("Error: Server files not found. Please run "
                            ++ dq "npm run build" ++ " first."))
       else
         emit (ErrorLine ("Error starting server: " ++ interpolate (message error)))) ;;;
      exit 1
  | inr exitCode =>
      exit match exitCode with
           | Some c => c
           | None => 0
           end
  end.

Inductive Converter : Type :=
| MarkdownToHtml
| MarkdownToPdf
| HtmlToPdf
| MarkdownToDocx
| HtmlToDocx.

(** The mark that opens the success line, byte for byte. *)
Definition successMark : string :=
  string_of_list_ascii (map ascii_of_nat [195; 162; 197; 147; 226; 128; 166]).

(** The flag and the message of a converter's result. *)
Definition verdict {D Meta} (d : Done (ConversionResult D Meta))
  : Done (bool * option string) :=
  ((success (fst d), error (fst d)), snd d).

(** [converter[convertFunction](content, outputFile, conversionOptions)]:
    the converters take two arguments, so the output path arrives as
    their options and the conversion options are dropped. *)
Definition convertWith (w : World) (converter : Converter) (content outputFile : string)
  : Done (bool * option string) :=
  match converter with
  | MarkdownToHtml =>
      verdict (MarkdownToHtmlConverter.convertMarkdownFileToHtml w content (VStr outputFile))
  | MarkdownToPdf =>
      verdict (MarkdownToPdfConverter.convertMarkdownToPdf w (VStr content) (VStr outputFile))
  | HtmlToPdf =>
      verdict (HtmlToPdfConverter.convertHtmlToPdf w (VStr content) (VStr outputFile))
  | MarkdownToDocx =>
      verdict (MarkdownToDocxConverter.convertMarkdownToDocx w (VStr content)
                 (VStr outputFile))
  | HtmlToDocx =>
      verdict (HtmlToDocxConverter.convertHtmlToDocx w (VStr content) (VStr outputFile))
  end.

(** The first argument of [fs.writeFile] must be data. *)
Definition invalidData : Error :=
  {| message :=
       Some ("The " ++ dq "data" ++ " argument must be of type string or an instance of "
               ++ "Buffer, TypedArray, or DataView. Received undefined");
     code := Some "ERR_INVALID_ARG_TYPE" |}.

Definition convertFile (h : Host) (conversionType inputFile outputFile : string)
  (options : Options) : P unit :=
  try_catch
    (emit (Exists inputFile) ;;;
     (if existsSync h inputFile then ret tt
      else
        emit (ErrorLine ("Error: Input file " ++ dq inputFile ++ " does not exist.")) ;;;
        exit 1) ;;;
     converter <-
       (if String.eqb conversionType "md-to-html" then
          attempt (Import "markdownToHtml.js")
            (match importModule h "markdownToHtml.js" with
             | Some e => inl e
             | None => inr MarkdownToHtml
             end)
        else if String.eqb conversionType "md-to-pdf" then
          attempt (Import "markdownToPdf.js")
            (match importModule h "markdownToPdf.js" with
             | Some e => inl e
             | None => inr MarkdownToPdf
             end)
        else if String.eqb conversionType "html-to-pdf" then
          attempt (Import "htmlToPdf.js")
            (match importModule h "htmlToPdf.js" with
             | Some e => inl e
             | None => inr HtmlToPdf
             end)
        else if String.eqb conversionType "md-to-docx" then
          attempt (Import "markdownToDocx.js")
            (match importModule h "markdownToDocx.js" with
             | Some e => inl e
             | None => inr MarkdownToDocx
             end)
        else if String.eqb conversionType "html-to-docx" then
          attempt (Import "htmlToDocx.js")
            (match importModule h "htmlToDocx.js" with
             | Some e => inl e
             | None => inr HtmlToDocx
             end)
        else
          emit (ErrorLine ("Error: Unknown conversion type " ++ dq conversionType)) ;;;
          exit 1) ;;
     emit (Log ("Converting " ++ inputFile ++ " to " ++ outputFile ++ "...")) ;;;
     (if String.eqb conversionType "md-to-html" then
        markdown <- attempt (ReadFile inputFile) (readFile h inputFile) ;;
        result <-
          await (MarkdownToHtmlConverter.convertMarkdownToHtml (converters h)
                   (VStr markdown)
                   (VObj [("gfm", VBool true); ("breaks", VBool false);
                          ("sanitize", VBool false)])) ;;
        (if success result then ret tt
         else
           emit (ErrorLine ("Conversion failed: " ++ interpolate (error result))) ;;;
           exit 1) ;;;
        let htmlOutput :=
          if fullDoc options then
            Some (MarkdownToHtmlConverter.createFullHtmlDocument
                    (interpolate (data result))
                    (Some (string_or (title options) "Converted Document")) None)
          else data result in
        match htmlOutput with
        | Some content =>
            attempt (WriteFile outputFile content)
              (match writeFile h outputFile content with
               | Some e => inl e
               | None => inr tt
               end)
        | None => throw invalidData
        end
      else
        let convert :=
          content <- attempt (ReadFile inputFile) (readFile h inputFile) ;;
          result <- await (convertWith (converters h) converter content outputFile) ;;
          if fst result then ret tt
          else
            emit (ErrorLine ("Conversion failed: " ++ interpolate (snd result))) ;;;
            exit 1 in
        if Str.starts_with "md-" conversionType then convert else convert) ;;;
     emit (Log (successMark ++ " Successfully converted to " ++ outputFile)))
    (fun error =>
       emit (ErrorLine ("Error: " ++ interpolate (message error))) ;;;
       (match code error with
        | Some c =>
            if String.eqb c "MODULE_NOT_FOUND" then
              emit (ErrorLine
                      ("Please run " ++ dq "npm run build"
                         ++ " first to compile the converters."))
            else ret tt
        | None => ret tt
        end) ;;;
       exit 1).

(** The option loop of [main], from the second argument on: [None] when
    it showed the help and returned.  The argument after [--port] or
    [--title] is taken as the value, whatever it is. *)
Fixpoint parseOptions (rest : list string) (options : Options) : option Options :=
  match rest with
  | [] => Some options
  | arg :: rest' =>
      if String.eqb arg "--port" || String.eqb arg "-p" then
        match rest' with
        | v :: rest'' =>
            parseOptions rest''
              {| port := Some v; fullDoc := fullDoc options; title := title options |}
        | [] =>
            Some {| port := None; fullDoc := fullDoc options; title := title options |}
        end
      else if String.eqb arg "--help" || String.eqb arg "-h" then None
      else if String.eqb arg "--full-doc" then
        parseOptions rest'
          {| port := port options; fullDoc := true; title := title options |}
      else if String.eqb arg "--title" then
        match rest' with
        | v :: rest'' =>
            parseOptions rest''
              {| port := port options; fullDoc := fullDoc options; title := Some v |}
        | [] =>
            Some {| port := port options; fullDoc := fullDoc options; title := None |}
        end
      else parseOptions rest' options
  end.

Definition main (h : Host) (args : list string) : P unit :=
  match args with
  | [] => startServer h "stdio" noOptions
  | command :: rest =>
      if String.eqb command "stdio" then startServer h "stdio" noOptions
      else
        match parseOptions rest noOptions with
        | None => showHelp
        | Some options =>
            if String.eqb command "http" then startServer h "http" options
            else if String.eqb command "convert" then
              match rest with
              | conversionType :: inputFile :: outputFile :: _ =>
                  try_catch
                    (convertFile h conversionType inputFile outputFile options)
                    (fun error =>
                       emit (ErrorLine
                               ("Conversion failed: " ++ interpolate (message error))) ;;;
                       exit 1)
              | _ =>
                  emit (ErrorLine
                          ("Error: Convert command requires conversion type, "
                             ++ "input file, and output file.")) ;;;
                  emit (ErrorLine "Usage: convert <type> <input> <output>") ;;;
                  emit (ErrorLine
                          ("Run " ++ dq "npx conversion-mcp-server help"
                             ++ " for more information.")) ;;;
                  exit 1
              end
            else if String.eqb command "help" || String.eqb command "--help"
                    || String.eqb command "-h" then showHelp
            else
              emit (ErrorLine ("Unknown command: " ++ command)) ;;;
              emit (ErrorLine
                      ("Run " ++ dq "npx conversion-mcp-server help"
                         ++ " for usage information.")) ;;;
              exit 1
        end
  end.

End Cli.

(* ================================================================== *)
(** ** The REST endpoints of the HTTP server *)
(* ================================================================== *)

Module Rest.

(** What a handler asks of its response object, and the external calls
    its converter makes, in order. *)
Inductive Step : Type :=
| Status (code : nat)
| Json (error : option string)
| SetHeader (name value : string)
| Send (data : Buffer)
| SendText (html : string)
| Call (e : event).

(** The message of the engine for [const { key, options } = req.body]
    on a body that is [undefined] or [null]. *)
Definition cannotDestructure (key absent : string) : string :=
  "Cannot destructure property '" ++ key ++ "' of 'req.body' as it is " ++ absent ++ ".".

(** [try { const { key, options } = req.body; ... } catch (error)
    { res.status(500).json({ error: ... }) }]: nothing after the
    destructuring throws, the converters catch what their collaborators
    throw. *)
Definition handler (body : value) (key : string) (respond : value -> value -> list Step)
  : list Step :=
  match body with
  | VUndefined => [Status 500; Json (Some (cannotDestructure key "undefined"))]
  | VNull => [Status 500; Json (Some (cannotDestructure key "null"))]
  | _ => respond (prop body key) (prop body "options")
  end.

(** The reply with the bytes of a conversion: [400] and the error of the
    result unless it succeeded with data, else the two headers and the
    bytes. *)
Definition attachment {Meta} (d : Done (ConversionResult Buffer Meta))
  (contentType filename : string) : list Step :=
  (map Call (snd d)
   ++ match usable_buffer (fst d) with
      | None => [Status 400; Json (error (fst d))]
      | Some data =>
          [SetHeader "Content-Type" contentType;
           SetHeader "Content-Disposition" ("attachment; filename=" ++ dq filename);
           Send data]
      end)%list.

Definition docxType : string :=
  "application/vnd.openxmlformats-officedocument.wordprocessingml.document".

Definition htmlToPdf (w : World) (body : value) : list Step :=
  handler body "html" (fun html options =>
    attachment (HtmlToPdfConverter.convertHtmlToPdf w html options)
      "application/pdf" "converted.pdf").

(** [`${title}`]: a string stands for itself, any other value for what
    the engine's [ToString] makes of it. *)
Definition text_of (toString : value -> string) (v : value) : string :=
  match v with
  | VStr t => t
  | other => toString other
  end.

Definition markdownToHtml (toString : value -> string) (w : World) (body : value)
  : list Step :=
  handler body "markdown" (fun markdown options =>
    let d := MarkdownToHtmlConverter.convertMarkdownToHtml w markdown options in
    (map Call (snd d)
     ++ match usable_text (fst d) with
        | None => [Status 400; Json (error (fst d))]
        | Some html =>
            let html :=
              if truthy (prop options "fullDocument") then
                MarkdownToHtmlConverter.createFullHtmlDocument html
                  (Some (text_of toString
                           (or_else (prop options "title") (VStr "Document"))))
                  None
              else html in
            [SetHeader "Content-Type" "text/html"; SendText html]
        end)%list).

Definition markdownToPdf (w : World) (body : value) : list Step :=
  handler body "markdown" (fun markdown options =>
    attachment (MarkdownToPdfConverter.convertMarkdownToPdf w markdown options)
      "application/pdf" "converted.pdf").

Definition urlToPdf (w : World) (body : value) : list Step :=
  handler body "url" (fun url options =>
    attachment (HtmlToPdfConverter.convertUrlToPdf w url options)
      "application/pdf" "webpage.pdf").

Definition htmlToDocx (w : World) (body : value) : list Step :=
  handler body "html" (fun html options =>
    attachment (HtmlToDocxConverter.convertHtmlToDocx w html options)
      docxType "converted.docx").

Definition markdownToDocx (w : World) (body : value) : list Step :=
  handler body "markdown" (fun markdown options =>
    attachment (MarkdownToDocxConverter.convertMarkdownToDocx w markdown options)
      docxType "converted.docx").

End Rest.

(* ================================================================== *)
(** ** The tools of the MCP server *)
(* ================================================================== *)

Module Tools.

(** The host of the tool handlers: the converters' collaborators, the
    file system, and what the platform provides ([path.dirname], the
    message of its [TypeError] for an argument that is no string, and
    [ToString]). *)
Record Host : Type :=
  { converters : World;
    dirname : string -> string;
    invalidPath : value -> string;
    toString : value -> string;
    access : string -> bool;
    writeFile : string -> Buffer -> option exn;
    writeText : string -> string -> option exn }.

Inductive Step : Type :=
| Access (path : string)
| WriteFile (path : string) (data : Buffer)
| WriteText (path : string) (html : string)
| Call (e : event)
| ConsoleError (message : string).

(** The result of a tool call: the texts of its content and [isError]. *)
Record Response : Type :=
  { content : list string; isError : bool }.

Definition done (text : string) : Response :=
  {| content := [text]; isError := false |}.

Definition failed (text : string) : Response :=
  {| content := [text]; isError := true |}.

(** A block of a handler goes on with a value, returns the response of
    the call, or throws. *)
Inductive Outcome (A : Type) : Type :=
| Next (a : A)
| Return (r : Response)
| Throw (e : exn).

Arguments Next {A} a.
Arguments Return {A} r.
Arguments Throw {A} e.

Definition T (A : Type) : Type := (Outcome A * list Step)%type.

Definition next {A} (a : A) : T A := (Next a, []).

Definition bind {A B} (m : T A) (k : A -> T B) : T B :=
  match m with
  | (Next a, t1) => let (r, t2) := k a in (r, (t1 ++ t2)%list)
  | (Return r, t1) => (Return r, t1)
  | (Throw e, t1) => (Throw e, t1)
  end.

Declare Scope tool_scope.
Delimit Scope tool_scope with tool.

Notation "x <- m ;; k" := (bind m (fun x => k))
  (at level 61, m at next level, right associativity) : tool_scope.
Notation "m ;;; k" := (bind m (fun _ => k))
  (at level 61, right associativity) : tool_scope.

#[local] Open Scope tool_scope.

Definition emit (s : Step) : T unit := (Next tt, [s]).

Definition respond {A} (r : Response) : T A := (Return r, []).

Definition throw {A} (e : exn) : T A := (Throw e, []).

(** An awaited file operation that may reject. *)
Definition attempt (s : Step) (outcome : option exn) : T unit :=
  match outcome with
  | Some e => (Throw e, [s])
  | None => (Next tt, [s])
  end.

Definition await {A} (d : Done A) : T A := (Next (fst d), map Call (snd d)).

(** The messages of the engine for reading from a value that is
    [undefined] or [null]. *)
Definition cannotDestructure (key absent : string) : string :=
  "Cannot destructure property '" ++ key ++ "' of 'args' as it is " ++ absent ++ ".".

Definition cannotRead (key : string) : string :=
  "Cannot read properties of null (reading '" ++ key ++ "')".

(** [const { key, output_path, options = {} } = args]. *)
Definition destructure (args : value) (key : string) : T unit :=
  match args with
  | VUndefined => throw (JsError (cannotDestructure key "undefined"))
  | VNull => throw (JsError (cannotDestructure key "null"))
  | _ => next tt
  end.

Definition optionsOf (args : value) : value :=
  match prop args "options" with
  | VUndefined => VObj []
  | given => given
  end.

(** The first read of a property of [options]. *)
Definition reading (options : value) (key : string) : T unit :=
  match options with
  | VNull => throw (JsError (cannotRead key))
  | _ => next tt
  end.

(** [`${v}`]. *)
Definition text_of (h : Host) (v : value) : string :=
  match v with
  | VStr t => t
  | other => toString h other
  end.

(** The check of the output directory: [path.dirname] throws on what is
    no string; a directory that cannot be accessed ends the call. *)
Definition outputDirectory (h : Host) (output_path : value) : T string :=
  match output_path with
  | VStr path =>
      let outputDir := dirname h path in
      emit (Access outputDir) ;;;
      if access h outputDir then next path
      else respond (failed ("Directory does not exist: " ++ outputDir))
  | other => throw (JsError (invalidPath h other))
  end.

(** [Math.round(length / 1024)], in decimal. *)
Definition kilobytes (length : nat) : string :=
  Str.of_nat (Nat.div (length + 512) 1024).

Definition sanitizedNote {Meta} (sanitized : Meta -> bool)
  (r : ConversionResult Buffer Meta) (note : string) : string :=
  match metadata r with
  | Some m => if sanitized m then note else ""
  | None => ""
  end.

Definition html_to_pdf (h : Host) (args : value) : T Response :=
  destructure args "html" ;;;
  let html := prop args "html" in
  let options := optionsOf args in
  output_path <- outputDirectory h (prop args "output_path") ;;
  result <- await (HtmlToPdfConverter.convertHtmlToPdf (converters h) html options) ;;
  match usable_buffer result with
  | None => respond (failed (string_or (error result) "Failed to convert HTML to PDF"))
  | Some data =>
      attempt (WriteFile output_path data) (writeFile h output_path data) ;;;
      respond (done ("PDF generated successfully: " ++ output_path
                       ++ " (" ++ kilobytes (List.length data) ++ " KB)"))
  end.

Definition url_to_pdf (h : Host) (args : value) : T Response :=
  destructure args "url" ;;;
  let url := prop args "url" in
  let options := optionsOf args in
  output_path <- outputDirectory h (prop args "output_path") ;;
  result <- await (HtmlToPdfConverter.convertUrlToPdf (converters h) url options) ;;
  match usable_buffer result with
  | None => respond (failed (string_or (error result) "Failed to convert URL to PDF"))
  | Some data =>
      attempt (WriteFile output_path data) (writeFile h output_path data) ;;;
      respond (done ("PDF generated successfully from " ++ text_of h url ++ ": "
                       ++ output_path
                       ++ " (" ++ kilobytes (List.length data) ++ " KB)"))
  end.

(** The options the Markdown tools pass to the Markdown stage. *)
Definition markdownStage (options : value) : list (string * value) :=
  [("sanitize", or_else (prop options "sanitize") (VBool false));
   ("gfm", VBool (is_not_false (prop options "gfm")));
   ("breaks", or_else (prop options "breaks") (VBool false))].

Definition markdown_to_html (h : Host) (args : value) : T Response :=
  destructure args "markdown" ;;;
  let markdown := prop args "markdown" in
  let output_path := prop args "output_path" in
  let options := optionsOf args in
  reading options "sanitize" ;;;
  let conversionOptions := VObj (markdownStage options) in
  result <-
    await (MarkdownToHtmlConverter.convertMarkdownToHtml (converters h) markdown
             conversionOptions) ;;
  match usable_text result with
  | None =>
      respond (failed (string_or (error result) "Failed to convert Markdown to HTML"))
  | Some html =>
      let html :=
        if truthy (prop options "fullDocument") then
          MarkdownToHtmlConverter.createFullHtmlDocument html
            (Some (text_of h (or_else (prop options "title") (VStr "Document")))) None
        else html in
      if truthy output_path then
        output_path <- outputDirectory h output_path ;;
        attempt (WriteText output_path html) (writeText h output_path html) ;;;
        respond (done ("HTML generated successfully: " ++ output_path
                         ++ " (" ++ kilobytes (String.length html) ++ " KB)"))
      else
        respond
          {| content :=
               ["HTML conversion completed successfully. Length: "
                  ++ Str.of_nat (String.length html) ++ " characters"
                  ++ match metadata result with
                     | Some m =>
                         if MarkdownToHtmlConverter.sanitized m then " (sanitized)"
                         else ""
                     | None => ""
                     end;
                "HTML Content:" ++ nl ++ html];
             isError := false |}
  end.

Definition markdown_to_pdf (h : Host) (args : value) : T Response :=
  destructure args "markdown" ;;;
  let markdown := prop args "markdown" in
  let options := optionsOf args in
  output_path <- outputDirectory h (prop args "output_path") ;;
  reading options "sanitize" ;;;
  let conversionOptions :=
    VObj [("markdownOptions", VObj (markdownStage options));
          ("pdfOptions",
           VObj [("format", or_else (prop options "format") (VStr "A4"));
                 ("landscape", or_else (prop options "landscape") (VBool false));
                 ("printBackground", VBool (is_not_false (prop options "printBackground")));
                 ("margin",
                  or_else (prop options "margin")
                    (VObj [("top", VStr "1cm"); ("right", VStr "1cm");
                           ("bottom", VStr "1cm"); ("left", VStr "1cm")]))]);
          ("documentOptions",
           VObj [("title", or_else (prop options "title") (VStr "Document"));
                 ("fullDocument", VBool true)])] in
  result <-
    await (MarkdownToPdfConverter.convertMarkdownToPdf (converters h) markdown
             conversionOptions) ;;
  match usable_buffer result with
  | None =>
      respond (failed (string_or (error result) "Failed to convert Markdown to PDF"))
  | Some data =>
      attempt (WriteFile output_path data) (writeFile h output_path data) ;;;
      respond (done ("PDF generated successfully: " ++ output_path
                       ++ " (" ++ kilobytes (List.length data) ++ " KB)"
                       ++ sanitizedNote MarkdownToPdfConverter.sanitized result
                            " (HTML was sanitized)"))
  end.

Definition html_to_docx (h : Host) (args : value) : T Response :=
  destructure args "html" ;;;
  let html := prop args "html" in
  let options := optionsOf args in
  output_path <- outputDirectory h (prop args "output_path") ;;
  result <- await (HtmlToDocxConverter.convertHtmlToDocx (converters h) html options) ;;
  match usable_buffer result with
  | None => respond (failed (string_or (error result) "Failed to convert HTML to DOCX"))
  | Some data =>
      attempt (WriteFile output_path data) (writeFile h output_path data) ;;;
      respond (done ("DOCX generated successfully: " ++ output_path
                       ++ " (" ++ kilobytes (List.length data) ++ " KB)"))
  end.

(** The options the Markdown-to-DOCX tool passes to the composer. *)
Definition docxConversionOptions (options : value) : list (string * value) :=
  [("sanitize", or_else (prop options "sanitize") (VBool false));
   ("gfm", VBool (is_not_false (prop options "gfm")));
   ("breaks", or_else (prop options "breaks") (VBool false));
   ("fullDocument", VBool (is_not_false (prop options "fullDocument")));
   ("orientation", or_else (prop options "orientation") (VStr "portrait"));
   ("margins", prop options "margins");
   ("title", or_else (prop options "title") (VStr "Document"));
   ("subject", prop options "subject");
   ("creator", prop options "creator");
   ("keywords", prop options "keywords");
   ("description", prop options "description")].

Definition markdown_to_docx (h : Host) (args : value) : T Response :=
  destructure args "markdown" ;;;
  let markdown := prop args "markdown" in
  let options := optionsOf args in
  output_path <- outputDirectory h (prop args "output_path") ;;
  reading options "sanitize" ;;;
  let conversionOptions := VObj (docxConversionOptions options) in
  result <-
    await (MarkdownToDocxConverter.convertMarkdownToDocx (converters h) markdown
             conversionOptions) ;;
  match usable_buffer result with
  | None =>
      respond (failed (string_or (error result) "Failed to convert Markdown to DOCX"))
  | Some data =>
      attempt (WriteFile output_path data) (writeFile h output_path data) ;;;
      respond (done ("DOCX generated successfully: " ++ output_path
                       ++ " (" ++ kilobytes (List.length data) ++ " KB)"
                       ++ sanitizedNote MarkdownToDocxConverter.sanitized result
                            " (HTML was sanitized)"))
  end.

(** [error instanceof Error ? error.message : 'Unknown error']. *)
Definition errorMessage (e : exn) : string :=
  match e with
  | JsError m => m
  | JsThrown => "Unknown error"
  end.

(** [try { switch (name) { ... } } catch (error) { ... }]: what a case
    throws is logged and returned as an error response. *)
Definition guarded (body : T Response) : Response * list Step :=
  match body with
  | (Next r, t) => (r, t)
  | (Return r, t) => (r, t)
  | (Throw e, t) =>
      (failed ("Error: " ++ errorMessage e),
       (t ++ [ConsoleError (errorMessage e)])%list)
  end.

(** The handler of tool calls.  The three tools that convert a file by
    its extension ([file_to_pdf], [file_to_docx], [file_to_html]) are not
    part of this model: [None]. *)
Definition callTool (h : Host) (name : string) (args : value)
  : option (Response * list Step) :=
  if String.eqb name "html_to_pdf" then Some (guarded (html_to_pdf h args))
  else if String.eqb name "url_to_pdf" then Some (guarded (url_to_pdf h args))
  else if String.eqb name "markdown_to_html" then Some (guarded (markdown_to_html h args))
  else if String.eqb name "markdown_to_pdf" then Some (guarded (markdown_to_pdf h args))
  else if String.eqb name "file_to_pdf" then None
  else if String.eqb name "html_to_docx" then Some (guarded (html_to_docx h args))
  else if String.eqb name "markdown_to_docx" then Some (guarded (markdown_to_docx h args))
  else if String.eqb name "file_to_docx" then None
  else if String.eqb name "file_to_html" then None
  else Some (guarded (throw (JsError ("Unknown tool: " ++ name)))).

End Tools.

(* ================================================================== *)
(** ** Definitions used by the statements *)
(* ================================================================== *)

Open Scope list_scope.

(** The three loops of [parse], named. *)
Fixpoint parse_items (element : schema) (p : path) (i : nat) (xs : list value)
  : list value * list issue :=
  match xs with
  | [] => ([], [])
  | x :: xs' =>
      let (d, is1) := parse element (p ++ [PIndex i]) x in
      let (ds, is2) := parse_items element p (S i) xs' in
      (d :: ds, is1 ++ is2)
  end.

Fixpoint parse_entries (element : schema) (p : path) (fs : list (string * value))
  : list (string * value) * list issue :=
  match fs with
  | [] => ([], [])
  | (k, x) :: fs' =>
      let (d, is1) := parse element (p ++ [PKey k]) x in
      let (ds, is2) := parse_entries element p fs' in
      (if String.eqb k "__proto__" then ds else (k, d) :: ds, is1 ++ is2)
  end.

Fixpoint parse_shape (fields : list (string * value)) (p : path)
  (sh : list (string * schema)) : list (string * value) * list issue :=
  match sh with
  | [] => ([], [])
  | (k, sk) :: sh' =>
      let (d, is1) := parse sk (p ++ [PKey k]) (get_prop k fields) in
      let (ds, is2) := parse_shape fields p sh' in
      (if negb (is_undefined d) || has_prop k fields then (k, d) :: ds else ds,
       is1 ++ is2)
  end.

Definition keys {A} (l : list (string * A)) : list string := map fst l.

Fixpoint distinct (l : list string) : bool :=
  match l with
  | [] => true
  | k :: rest => negb (mem k rest) && distinct rest
  end.

(** A schema whose object shapes never repeat a key. *)
Fixpoint well_formed (s : schema) : bool :=
  match s with
  | ZString | ZNumber _ | ZBoolean | ZEnum _ => true
  | ZArray e | ZRecord e | ZOptional e => well_formed e
  | ZObject shape =>
      distinct (map fst shape)
      && (fix all (sh : list (string * schema)) : bool :=
            match sh with
            | [] => true
            | (_, sk) :: sh' => well_formed sk && all sh'
            end) shape
  end.


(** [hay] holds [needle] somewhere. *)
Definition Contains (needle hay : string) : Prop :=
  exists before after, hay = (before ++ needle ++ after)%string.

(** The envelope invariant: exactly one of data and error, by the flag. *)
Definition well_shaped {D Meta} (r : ConversionResult D Meta) : Prop :=
  if success r
  then data r <> None /\ error r = None
  else error r <> None /\ data r = None.

(** Calls to the browser engine. *)
Definition is_engine_call (e : event) : bool :=
  match e with
  | ELaunch | ENewPage _ | ESetContent _ _ | EGoto _ _ | EPdf _ _ | EClose _ => true
  | _ => false
  end.

Definition is_close (e : event) : bool :=
  match e with
  | EClose _ => true
  | _ => false
  end.

(** Calls made by the Markdown-to-HTML stage. *)
Definition is_markdown_call (e : event) : bool :=
  match e with
  | EMarkedSetOptions _ | EMarkedParse _ | ESanitizeHtml _ _ => true
  | _ => false
  end.

(** A boolean option as the caller supplied it, [fallback] when absent. *)
Definition supplied (fields : list (string * value)) (k : string) (fallback : bool)
  : bool :=
  match get_prop k fields with
  | VBool b => b
  | _ => fallback
  end.

(** A world in which every collaborator answers. *)
Definition sample_world : World :=
  {| marked_parse := fun _ markdown => inr ("<p>" ++ markdown ++ "</p>")%string;
     sanitizeHtml := fun html _ => inr html;
     puppeteer_launch := inr 1;
     browser_newPage := fun _ => inr 1;
     page_setContent := fun _ _ => inr tt;
     page_goto := fun _ _ => inr tt;
     page_pdf := fun _ _ => inr [x25; x50; x44; x46];
     browser_close := fun _ => inr tt;
     asBlob := fun _ _ => inr (OutBuffer [x50; x4b]);
     fs_readFile := fun _ => inr "# Hi"%string;
     fetch := fun _ => inr {| ok := true; status := 200; statusText := "OK";
                              text := inr "<p>x</p>"%string |} |}.

(** A world whose Markdown parser throws. *)
Definition failing_parser_world : World :=
  {| marked_parse := fun _ _ => inl (JsError "boom");
     sanitizeHtml := sanitizeHtml sample_world;
     puppeteer_launch := puppeteer_launch sample_world;
     browser_newPage := browser_newPage sample_world;
     page_setContent := page_setContent sample_world;
     page_goto := page_goto sample_world;
     page_pdf := page_pdf sample_world;
     browser_close := browser_close sample_world;
     asBlob := asBlob sample_world;
     fs_readFile := fs_readFile sample_world;
     fetch := fetch sample_world |}.

(** Modelled from the spec: the closed interval [0.1, 2.0] of the scale. *)
Definition in_scale_range (x : float) : bool :=
  PrimFloat.leb 0.1 x && PrimFloat.leb x 2.

(** The options other than [scale] are valid. *)
Definition others_valid (fields : list (string * value)) : Prop :=
  Forall (fun ks => fst ks <> "scale"%string ->
                    snd (parse (snd ks) [PKey (fst ks)] (get_prop (fst ks) fields)) = [])
         HtmlToPdfOptions_shape.

(** The engine calls of a conversion start with the launch and end with
    the close of browser [b], and nothing else is closed. *)
Definition closed_once (b : browser) (calls : trace) : bool :=
  match filter is_engine_call calls with
  | ELaunch :: rest =>
      match rev rest with
      | EClose b' :: between => Nat.eqb b' b && negb (existsb is_close between)
      | _ => false
      end
  | _ => false
  end.

(** A world whose engine fails to render. *)
Definition failing_render_world : World :=
  {| marked_parse := marked_parse sample_world;
     sanitizeHtml := sanitizeHtml sample_world;
     puppeteer_launch := inr 7;
     browser_newPage := browser_newPage sample_world;
     page_setContent := page_setContent sample_world;
     page_goto := page_goto sample_world;
     page_pdf := fun _ _ => inl (JsError "render crashed");
     browser_close := browser_close sample_world;
     asBlob := asBlob sample_world;
     fs_readFile := fs_readFile sample_world;
     fetch := fetch sample_world |}.

(** What a successful Markdown-to-HTML result reports about the
    Markdown [text] it was given. *)
Definition reports_lengths (text : string) (r : MarkdownToHtmlConverter.Result)
  : Prop :=
  success r = true ->
  exists html cleaned,
    r = succeeded html
          {| MarkdownToHtmlConverter.originalLength := String.length text;
             MarkdownToHtmlConverter.htmlLength := String.length html;
             MarkdownToHtmlConverter.sanitized := cleaned |}.

(** A failed result whose message is [prefix] followed by the message of
    what was thrown. *)
Definition fails_with {D Meta} (prefix : string) (r : ConversionResult D Meta) : Prop :=
  success r = false -> exists e, r = failure (prefix ++ errorMessage e)%string.

(** A world whose DOCX emitter throws. *)
Definition failing_emitter_world : World :=
  {| marked_parse := marked_parse sample_world;
     sanitizeHtml := sanitizeHtml sample_world;
     puppeteer_launch := puppeteer_launch sample_world;
     browser_newPage := browser_newPage sample_world;
     page_setContent := page_setContent sample_world;
     page_goto := page_goto sample_world;
     page_pdf := page_pdf sample_world;
     browser_close := browser_close sample_world;
     asBlob := fun _ _ => inl JsThrown;
     fs_readFile := fs_readFile sample_world;
     fetch := fetch sample_world |}.

(** The batch, as described: each entry is its heading (when it has a
    non-empty title) followed by its content; the document is the entries
    in order with a page break between consecutive ones.  The heading and
    the marker are written out here, not taken from the converter. *)

(** Modelled from the spec: the H1 heading line of a titled section, the
    Markdown heading [# title] closed by a blank line. *)
Definition h1_heading (title : string) : string :=
  ("# " ++ title ++ nl ++ nl)%string.

(** Modelled from the spec: the page-break marker, an empty block styled
    [page-break-after: always], set off by a blank line on either side. *)
Definition page_break_marker : string :=
  (nl ++ nl ++ "<div style=" ++ dq "page-break-after: always;" ++ "></div>"
      ++ nl ++ nl)%string.

Definition content_text (e : MarkdownToPdfConverter.MarkdownContent) : string :=
  match MarkdownToPdfConverter.content e with
  | VStr text => text
  | _ => EmptyString
  end.

(** Modelled from the spec: a section is its H1 heading line, when it has
    a title, then its content. *)
Definition rendered_entry (e : MarkdownToPdfConverter.MarkdownContent) : string :=
  match MarkdownToPdfConverter.title e with
  | Some title =>
      if String.eqb title "" then content_text e
      else (h1_heading title ++ content_text e)%string
  | None => content_text e
  end.

(** Modelled from the spec: the sections in order, the page-break marker
    between consecutive ones and none after the last. *)
Fixpoint combined_document (entries : list MarkdownToPdfConverter.MarkdownContent)
  : string :=
  match entries with
  | [] => EmptyString
  | [e] => rendered_entry e
  | e :: rest => (rendered_entry e ++ page_break_marker ++ combined_document rest)%string
  end.

Definition total_content_length (entries : list MarkdownToPdfConverter.MarkdownContent)
  : nat :=
  list_sum (map (fun e => String.length (content_text e)) entries).

(** The content of an entry is a non-empty string. *)
Definition valid_content (e : MarkdownToPdfConverter.MarkdownContent) : Prop :=
  exists text, MarkdownToPdfConverter.content e = VStr text /\ text <> EmptyString.

(** The index of the first entry whose content is empty or not a string. *)
Fixpoint first_invalid (entries : list MarkdownToPdfConverter.MarkdownContent)
  : option nat :=
  match entries with
  | [] => None
  | e :: rest =>
      match nonempty_string (MarkdownToPdfConverter.content e) with
      | None => Some 0
      | Some _ => option_map S (first_invalid rest)
      end
  end.

(** A successful result carries metadata. *)
Definition has_metadata {D Meta} (r : ConversionResult D Meta) : Prop :=
  success r = true -> metadata r <> None.

(** Every value a block returns normally satisfies [P]. *)
Definition returns {S A} (P : A -> Prop) (m : M S A) : Prop :=
  forall s a s' t, m s = (inr a, s', t) -> P a.

(** The value of a block that completes satisfies [P]. *)
Definition yields {S A} (P : A -> Prop) (n : N S A) : Prop :=
  forall s, P (fst (fst (n s))).

(** The normalized value validation returns for [v] under schema [s]. *)
Definition normalize (s : schema) (v : value) : value := fst (parse s [] v).

(** Every field of a shape is optional. *)
Definition all_optional (sh : list (string * schema)) : Prop :=
  forall k sk, In (k, sk) sh -> exists inner, sk = opt inner.

(** The calls that end a PDF conversion once a browser is open: the
    close, and the log entry when the close itself throws. *)
Definition closing (w : World) (b : browser) : trace :=
  EClose b :: match browser_close w b with
              | inl _ => [EConsoleError]
              | inr _ => []
              end.

(** A PDF conversion with valid input, step by step: [loading] is the
    call that loads the page (content or navigation) and [loaded] its
    outcome, [prefix] the failure prefix of the operation. *)
Definition pdf_steps (w : World) (prefix : string) (loading : page -> event)
  (loaded : page -> exn + unit) (pdfOptions : list (string * value))
  : Done HtmlToPdfConverter.Result :=
  let failed e : HtmlToPdfConverter.Result :=
    failure (prefix ++ errorMessage e)%string in
  match puppeteer_launch w with
  | inl e => (failed e, [ELaunch])
  | inr b =>
      match browser_newPage w b with
      | inl e => (failed e, [ELaunch; ENewPage b] ++ closing w b)
      | inr p =>
          match loaded p with
          | inl e => (failed e, [ELaunch; ENewPage b; loading p] ++ closing w b)
          | inr _ =>
              match page_pdf w p pdfOptions with
              | inl e =>
                  (failed e,
                   [ELaunch; ENewPage b; loading p; EPdf p pdfOptions] ++ closing w b)
              | inr bytes =>
                  (succeeded bytes {| HtmlToPdfConverter.size := List.length bytes |},
                   [ELaunch; ENewPage b; loading p; EPdf p pdfOptions] ++ closing w b)
              end
          end
      end
  end.

(** A DOCX emission with valid input, by what the emitter hands back. *)
Definition docx_steps (w : World) (prepared : string)
  (emitterOptions : list (string * value)) : Done HtmlToDocxConverter.Result :=
  let failed message : HtmlToDocxConverter.Result :=
    failure ("DOCX generation failed: " ++ message)%string in
  let emitted bytes : HtmlToDocxConverter.Result :=
    succeeded bytes {| HtmlToDocxConverter.size := List.length bytes |} in
  let asked := EAsBlob prepared emitterOptions in
  match asBlob w prepared emitterOptions with
  | inl e => (failed (errorMessage e), [asked])
  | inr (OutBuffer bytes) => (emitted bytes, [asked])
  | inr (OutBlob (inl e)) => (failed (errorMessage e), [asked; EArrayBuffer])
  | inr (OutBlob (inr bytes)) => (emitted bytes, [asked; EArrayBuffer])
  | inr OutOther => (failed "Unexpected return type from html-docx-js", [asked])
  end.

(** The page geometry found in the validated Markdown-to-DOCX options:
    the orientation and the margins the caller gave, nothing else. *)
Definition supplied_geometry (opts : value) : list (string * value) :=
  List.concat
    [if truthy (prop opts "orientation")
     then [("orientation", prop opts "orientation")] else [];
     if truthy (prop opts "margins")
     then [("margins", prop opts "margins")] else []].

(** A world whose Markdown parser returns the empty string. *)
Definition silent_parser_world : World :=
  {| marked_parse := fun _ _ => inr ""%string;
     sanitizeHtml := sanitizeHtml sample_world;
     puppeteer_launch := puppeteer_launch sample_world;
     browser_newPage := browser_newPage sample_world;
     page_setContent := page_setContent sample_world;
     page_goto := page_goto sample_world;
     page_pdf := page_pdf sample_world;
     browser_close := browser_close sample_world;
     asBlob := asBlob sample_world;
     fs_readFile := fs_readFile sample_world;
     fetch := fetch sample_world |}.

(** An event of the command that neither writes a file nor asks anything
    of a parser, a browser or an emitter. *)
Definition inert (e : Cli.Event) : bool :=
  match e with
  | Cli.WriteFile _ _ | Cli.Call _ => false
  | _ => true
  end.

(** The message of validation for a string where an options object is
    expected. *)
Definition not_an_object : string :=
  ZodError.message [InvalidType "object" "string" []].

(** The command ends by returning or with exit code 1. *)
Definition ends_well {A} (m : Cli.P A) : Prop :=
  match fst m with
  | Cli.Returned _ => True
  | Cli.Thrown _ => False
  | Cli.Exited c => c = 1
  end.

(** As [ends_well], but the run may also throw. *)
Definition exits_with_one {A} (m : Cli.P A) : Prop :=
  match fst m with
  | Cli.Exited c => c = 1
  | _ => True
  end.

(** A host on which everything works. *)
Definition sample_host : Cli.Host :=
  {| Cli.converters := sample_world;
     Cli.existsSync := fun _ => true;
     Cli.importModule := fun _ => None;
     Cli.readFile := fun _ => inr "# Hi"%string;
     Cli.writeFile := fun _ _ => None;
     Cli.spawn := fun _ _ =>
       {| Cli.signals := [Cli.SIGINT]; Cli.ending := inr (Some 3) |} |}.

(** The run of a server script: the start, the signals forwarded, and
    the end of the process with the script (exit code 1 and a line on an
    error of the child, the exit code of the child on its close, 0 when
    it has none). *)
Definition server_run (h : Cli.Host) (script : string) (PORT : option string)
  : Cli.P unit :=
  let child := Cli.spawn h script PORT in
  let started := Cli.Spawn script PORT :: map Cli.Kill (Cli.signals child) in
  match Cli.ending child with
  | inl error =>
      (Cli.Exited 1,
       started
       ++ [Cli.ErrorLine
             (match Cli.code error with
              | Some c =>
                  if String.eqb c "ENOENT"
                  then "Error: Server files not found. Please run "
                         ++ dq "npm run build" ++ " first."
                  else "Error starting server: " ++ interpolate (Cli.message error)
              | None => "Error starting server: " ++ interpolate (Cli.message error)
              end)%string])
  | inr (Some exitCode) => (Cli.Exited exitCode, started)
  | inr None => (Cli.Exited 0, started)
  end.

(** The parser settings the command line gets from its fixed options
    ([gfm] on, [breaks] and [sanitize] off). *)
Definition cli_configured : MarkedOptions :=
  {| breaks := false; gfm := true; pedantic := false |}.

(** What the command line writes for the HTML of the converter. *)
Definition cli_output (options : Cli.Options) (html : string) : string :=
  if Cli.fullDoc options then
    MarkdownToHtmlConverter.createFullHtmlDocument html
      (Some (string_or (Cli.title options) "Converted Document")) None
  else html.

(** Every event of a run satisfies [ok]. *)
Definition only {A} (ok : Cli.Event -> bool) (m : Cli.P A) : Prop :=
  forallb ok (snd m) = true.

Definition is_spawn (e : Cli.Event) : bool :=
  match e with
  | Cli.Spawn _ _ => true
  | _ => false
  end.

(** An event on the file system, the module loader or a converter. *)
Definition touches_files (e : Cli.Event) : bool :=
  match e with
  | Cli.Exists _ | Cli.Import _ | Cli.ReadFile _ | Cli.WriteFile _ _ | Cli.Call _ => true
  | _ => false
  end.

(** None of the arguments is a flag that takes the next one as its value. *)
Definition no_value_flag (rest : list string) : Prop :=
  forall a, In a rest ->
    a <> "--port"%string /\ a <> "-p"%string /\ a <> "--title"%string.

(** A request without a body. *)
Definition absent (body : value) : bool :=
  match body with
  | VUndefined | VNull => true
  | _ => false
  end.

(** The answer of a file endpoint to the result [d] of its converter:
    the converter's calls, then the content type, the attachment header
    and the converter's bytes when it succeeded, and 400 with the
    converter's message when it failed. *)
Definition answers_with_file {Meta} (d : Done (ConversionResult Buffer Meta))
  (contentType filename : string) (reply : list Rest.Step) : Prop :=
  (success (fst d) = true ->
   exists bytes,
     data (fst d) = Some bytes
     /\ reply
        = (map Rest.Call (snd d)
           ++ [Rest.SetHeader "Content-Type" contentType;
               Rest.SetHeader "Content-Disposition"
                 ("attachment; filename=" ++ dq filename)%string;
               Rest.Send bytes])%list)
  /\ (success (fst d) = false ->
      exists msg,
        error (fst d) = Some msg
        /\ reply
           = (map Rest.Call (snd d) ++ [Rest.Status 400; Rest.Json (Some msg)])%list).

(** The answer to a request without a body: 500 with the message of the
    engine for the field read first. *)
Definition answers_missing_body (key : string) (body : value) (reply : list Rest.Step)
  : Prop :=
  (body = VUndefined ->
   reply = [Rest.Status 500; Rest.Json (Some (Rest.cannotDestructure key "undefined"))])
  /\ (body = VNull ->
      reply = [Rest.Status 500; Rest.Json (Some (Rest.cannotDestructure key "null"))]).

(** The answer to a body whose field is no non-empty string: 400 with
    the message, and nothing else. *)
Definition rejects_input (message : string) (reply : list Rest.Step) : Prop :=
  reply = [Rest.Status 400; Rest.Json (Some message)].

(** The tools that save a converted file. *)
Definition file_tools : list string :=
  ["html_to_pdf"; "url_to_pdf"; "markdown_to_pdf"; "html_to_docx";
   "markdown_to_docx"]%string.

(** How the part of a file tool after the directory check ends: it
    throws before converting, the conversion fails, the write is
    rejected, or the file is written. *)
Definition tail_outcome (h : Tools.Host) (path : string) (m : Tools.T Tools.Response)
  : Prop :=
  (exists e, m = (Tools.Throw e, []))
  \/ (exists calls msg,
         m = (Tools.Return (Tools.failed msg), map Tools.Call calls))
  \/ (exists calls data e,
         Tools.writeFile h path data = Some e
         /\ m = (Tools.Throw e,
                 (map Tools.Call calls ++ [Tools.WriteFile path data])%list))
  \/ (exists calls data text,
         Tools.writeFile h path data = None
         /\ m = (Tools.Return (Tools.done text),
                 (map Tools.Call calls ++ [Tools.WriteFile path data])%list)).

(** How a call of a file tool ends. *)
Definition tool_outcome (h : Tools.Host) (args : value)
  (run : Tools.Response * list Tools.Step) : Prop :=
  (exists msg,
      (forall path, prop args "output_path" <> VStr path)
      /\ run = (Tools.failed ("Error: " ++ msg)%string, [Tools.ConsoleError msg]))
  \/ exists path,
       prop args "output_path" = VStr path
       /\ let dir := Tools.dirname h path in
          (Tools.access h dir = false
           /\ run = (Tools.failed ("Directory does not exist: " ++ dir)%string,
                     [Tools.Access dir]))
          \/ (Tools.access h dir = true
              /\ ((exists msg,
                      run = (Tools.failed ("Error: " ++ msg)%string,
                             [Tools.Access dir; Tools.ConsoleError msg]))
                  \/ (exists calls msg,
                         run = (Tools.failed msg,
                                Tools.Access dir :: map Tools.Call calls))
                  \/ (exists calls data e,
                         Tools.writeFile h path data = Some e
                         /\ run
                            = (Tools.failed ("Error: " ++ Tools.errorMessage e)%string,
                               Tools.Access dir
                               :: (map Tools.Call calls
                                   ++ [Tools.WriteFile path data;
                                       Tools.ConsoleError (Tools.errorMessage e)])%list))
                  \/ (exists calls data text,
                         Tools.writeFile h path data = None
                         /\ run
                            = (Tools.done text,
                               Tools.Access dir
                               :: (map Tools.Call calls
                                   ++ [Tools.WriteFile path data])%list)))).

(** A host of the tools on which everything works. *)
Definition sample_tool_host : Tools.Host :=
  {| Tools.converters := sample_world;
     Tools.dirname := fun _ => "/tmp"%string;
     Tools.invalidPath := fun _ => "The path argument must be of type string"%string;
     Tools.toString := fun _ => "[object Object]"%string;
     Tools.access := fun _ => true;
     Tools.writeFile := fun _ _ => None;
     Tools.writeText := fun _ _ => None |}.

(** The first lines of every full document, up to the opening of its
    head. *)
Definition document_opening : string :=
  "<!DOCTYPE html>" ++ nl ++ "<html lang=" ++ dq "en" ++ ">" ++ nl ++ "<head>".

(* ================================================================== *)
(** ** Schema validation: structure of the object parser *)
(* ================================================================== *)

Lemma parse_array_eq (e : schema) (p : path) (xs : list value) :
  parse (ZArray e) p (VArr xs) =
  (let (ds, iss) := parse_items e p 0 xs in (VArr ds, iss)).
Proof.
  cbn [parse]. generalize 0.
  induction xs as [|x xs IH]; intro i; cbn; [reflexivity|].
  destruct (parse e (p ++ [PIndex i]) x) as [d is1].
  specialize (IH (S i)).
  match goal with
  | |- context [parse_items e p (S i) xs] =>
      destruct (parse_items e p (S i) xs) as [ds is2]
  end.
  match type of IH with
  | (let (_, _) := ?t in _) = _ => destruct t as [ds' is2']
  end.
  inversion IH; subst. reflexivity.
Qed.

Lemma parse_record_eq (e : schema) (p : path) (fs : list (string * value)) :
  parse (ZRecord e) p (VObj fs) =
  (let (ds, iss) := parse_entries e p fs in (VObj ds, iss)).
Proof.
  cbn [parse].
  induction fs as [|[k x] fs IH]; cbn; [reflexivity|].
  destruct (parse e (p ++ [PKey k]) x) as [d is1].
  destruct (parse_entries e p fs) as [ds is2].
  match type of IH with
  | (let (_, _) := ?t in _) = _ => destruct t as [ds' is2']
  end.
  inversion IH; subst. reflexivity.
Qed.

Lemma parse_object_eq (sh : list (string * schema)) (p : path)
  (fields : list (string * value)) :
  parse (ZObject sh) p (VObj fields) =
  (let (ds, iss) := parse_shape fields p sh in (VObj ds, iss)).
Proof.
  cbn [parse].
  induction sh as [|[k sk] sh IH]; cbn; [reflexivity|].
  destruct (parse sk (p ++ [PKey k]) (get_prop k fields)) as [d is1].
  destruct (parse_shape fields p sh) as [ds is2].
  match type of IH with
  | (let (_, _) := ?t in _) = _ => destruct t as [ds' is2']
  end.
  inversion IH; subst. reflexivity.
Qed.

(** [safeParse] of an optional object schema on an object. *)
Lemma safeParse_object (sh : list (string * schema)) (fields : list (string * value)) :
  safeParse (opt (ZObject sh)) (VObj fields) =
  match parse_shape fields [] sh with
  | (ds, []) => ParseOk (VObj ds)
  | (_, iss) => ParseError iss
  end.
Proof.
  unfold safeParse.
  change (parse (opt (ZObject sh)) [] (VObj fields))
    with (parse (ZObject sh) [] (VObj fields)).
  rewrite parse_object_eq.
  destruct (parse_shape fields [] sh) as [ds [|i iss]]; reflexivity.
Qed.

Lemma safeParse_undefined (sh : list (string * schema)) :
  safeParse (opt (ZObject sh)) VUndefined = ParseOk VUndefined.
Proof. reflexivity. Qed.

(** The issues of an object are those of its declared fields, in order. *)
Lemma parse_shape_issues (fields : list (string * value)) (p : path)
  (sh : list (string * schema)) :
  snd (parse_shape fields p sh) =
  flat_map (fun ks => snd (parse (snd ks) (p ++ [PKey (fst ks)])
                             (get_prop (fst ks) fields))) sh.
Proof.
  induction sh as [|[k sk] sh IH]; cbn; [reflexivity|].
  destruct (parse sk (p ++ [PKey k]) (get_prop k fields)) as [d is1].
  destruct (parse_shape fields p sh) as [ds is2].
  cbn in *. now rewrite IH.
Qed.


Lemma mem_In (x : string) (l : list string) : mem x l = true <-> In x l.
Proof.
  unfold mem. rewrite existsb_exists. split.
  - intros [y [Hy E]]. apply String.eqb_eq in E. now subst.
  - intros H. exists x. split; [assumption|apply String.eqb_refl].
Qed.


(** The normalized object holds declared keys only. *)
Lemma parse_shape_keys (fields : list (string * value)) (p : path)
  (sh : list (string * schema)) (k : string) :
  In k (keys (fst (parse_shape fields p sh))) -> In k (keys sh).
Proof.
  induction sh as [|[k' sk] sh IH]; cbn; [tauto|].
  destruct (parse sk (p ++ [PKey k']) (get_prop k' fields)) as [d is1].
  destruct (parse_shape fields p sh) as [ds is2]. cbn in *.
  destruct (negb (is_undefined d) || has_prop k' fields); cbn; intuition.
Qed.

Lemma has_prop_In (k : string) (fields : list (string * value)) :
  has_prop k fields = true <-> In k (keys fields).
Proof.
  induction fields as [|[k' v] fields IH]; cbn; [intuition discriminate|].
  rewrite orb_true_iff, IH, String.eqb_eq. intuition.
Qed.

Lemma get_prop_absent (k : string) (l : list (string * value)) :
  ~ In k (keys l) -> get_prop k l = VUndefined /\ has_prop k l = false.
Proof.
  induction l as [|[k' v] l IH]; cbn; intros H; [now split|].
  destruct (String.eqb k k') eqn:E.
  - apply String.eqb_eq in E. subst. tauto.
  - apply IH. tauto.
Qed.

Lemma distinct_cons (k : string) (l : list string) :
  distinct (k :: l) = true <-> ~ In k l /\ distinct l = true.
Proof.
  cbn. rewrite andb_true_iff, negb_true_iff. split.
  - intros [Hm Hd]. split; [|assumption].
    intros Hin. apply mem_In in Hin. congruence.
  - intros [Hn Hd]. split; [|assumption].
    destruct (mem k l) eqn:Hm; [|reflexivity].
    apply mem_In in Hm. tauto.
Qed.

(** What the normalized object holds under a declared key: the parsed
    field. *)
Lemma parse_shape_get (fields : list (string * value)) (p : path)
  (sh : list (string * schema)) (k : string) (sk : schema) :
  distinct (keys sh) = true ->
  In (k, sk) sh ->
  let d := fst (parse sk (p ++ [PKey k]) (get_prop k fields)) in
  get_prop k (fst (parse_shape fields p sh)) = d
  /\ has_prop k (fst (parse_shape fields p sh))
     = negb (is_undefined d) || has_prop k fields.
Proof.
  induction sh as [|[k' sk'] sh IH]; cbn [In]; [tauto|].
  intros Hd Hin. cbn in Hd. fold (keys sh) in Hd.
  apply distinct_cons in Hd. destruct Hd as [Hnotin Hd].
  cbn [parse_shape].
  destruct (parse sk' (p ++ [PKey k']) (get_prop k' fields)) as [d' is1] eqn:Ep.
  pose proof (parse_shape_keys fields p sh) as Hkeys.
  destruct (parse_shape fields p sh) as [ds is2] eqn:Es. cbn [fst] in *.
  destruct Hin as [Heq | Hin].
  - inversion Heq; subst k' sk'. rewrite Ep. cbn [fst].
    destruct (negb (is_undefined d') || has_prop k fields) eqn:Hincl.
    + cbn. rewrite String.eqb_refl. cbn. now split.
    + apply orb_false_iff in Hincl. destruct Hincl as [Hu Hh].
      assert (Hno : ~ In k (keys ds)) by (intros H; apply Hnotin, Hkeys, H).
      destruct (get_prop_absent k ds Hno) as [Hg Hp].
      rewrite Hg, Hp.
      destruct d'; cbn in Hu; try discriminate. cbn. rewrite ?Hh. now split.
  - assert (Hne : String.eqb k k' = false).
    { apply String.eqb_neq. intros ->. apply Hnotin.
      change k' with (fst (k', sk)). now apply in_map. }
    specialize (IH Hd Hin). cbn zeta in IH.
    destruct (negb (is_undefined d') || has_prop k' fields); cbn; rewrite ?Hne; apply IH.
Qed.

(** An object is valid exactly when each declared field is. *)
Lemma parse_shape_valid (fields : list (string * value)) (p : path)
  (sh : list (string * schema)) :
  snd (parse_shape fields p sh) = [] <->
  Forall (fun ks => snd (parse (snd ks) (p ++ [PKey (fst ks)])
                           (get_prop (fst ks) fields)) = []) sh.
Proof.
  rewrite parse_shape_issues.
  induction sh as [|[k sk] sh IH]; cbn.
  - split; [constructor|reflexivity].
  - split.
    + intros H. apply app_eq_nil in H. destruct H as [H1 H2].
      constructor; [assumption|now apply IH].
    + intros H. inversion H; subst. cbn in *.
      match goal with E : snd _ = [] |- _ => rewrite E end.
      now apply IH.
Qed.

(** Induction over schemas, through object shapes. *)
Lemma schema_induction (P : schema -> Prop) :
  P ZString ->
  (forall checks, P (ZNumber checks)) ->
  P ZBoolean ->
  (forall values, P (ZEnum values)) ->
  (forall e, P e -> P (ZArray e)) ->
  (forall e, P e -> P (ZRecord e)) ->
  (forall shape, Forall (fun ks => P (snd ks)) shape -> P (ZObject shape)) ->
  (forall e, P e -> P (ZOptional e)) ->
  forall s, P s.
Proof.
  intros HS HN HB HE HA HR HO HOpt.
  fix IH 1. intros [ | checks | | values | e | e | shape | e ].
  - exact HS.
  - apply HN.
  - exact HB.
  - apply HE.
  - apply HA, IH.
  - apply HR, IH.
  - apply HO. induction shape as [|[k sk] shape IHs]; constructor.
    + apply IH.
    + exact IHs.
  - apply HOpt, IH.
Qed.

(* ================================================================== *)
(** ** Schema validation: a normalized value validates again *)
(* ================================================================== *)

Lemma run_checks_path (checks : list check) (x : float) (p p' : path) :
  run_checks checks x p = [] -> run_checks checks x p' = [].
Proof.
  induction checks as [|[b t | b t] checks IH]; cbn; [reflexivity| |];
    intros H; apply app_eq_nil in H; destruct H as [H1 H2];
    rewrite (IH H2), app_nil_r.
  - destruct (PrimFloat.ltb x b); [discriminate|reflexivity].
  - destruct (PrimFloat.ltb b x); [discriminate|reflexivity].
Qed.

Lemma well_formed_object (shape : list (string * schema)) :
  well_formed (ZObject shape) = true ->
  distinct (keys shape) = true
  /\ Forall (fun ks => well_formed (snd ks) = true) shape.
Proof.
  cbn [well_formed]. rewrite andb_true_iff. intros [Hd Hall].
  split; [exact Hd|]. clear Hd.
  induction shape as [|[k sk] shape IH]; constructor;
    apply andb_true_iff in Hall; destruct Hall as [Hk Hrest].
  - exact Hk.
  - apply IH, Hrest.
Qed.

Section Revalidation.

Variable element : schema.
Hypothesis element_again :
  forall p v, snd (parse element p v) = [] ->
              forall p', parse element p' (fst (parse element p v))
                         = (fst (parse element p v), []).

Lemma parse_items_again (p p' : path) (xs : list value) :
  forall i j,
    snd (parse_items element p i xs) = [] ->
    parse_items element p' j (fst (parse_items element p i xs))
    = (fst (parse_items element p i xs), []).
Proof.
  induction xs as [|x xs IH]; intros i j; cbn; [reflexivity|].
  pose proof (element_again (p ++ [PIndex i]) x) as Hx.
  destruct (parse element (p ++ [PIndex i]) x) as [d is1].
  specialize (IH (S i) (S j)).
  destruct (parse_items element p (S i) xs) as [ds is2].
  cbn in *. intros H. apply app_eq_nil in H. destruct H as [H1 H2].
  rewrite (Hx H1 (p' ++ [PIndex j])), (IH H2). reflexivity.
Qed.

Lemma parse_entries_again (p p' : path) (fs : list (string * value)) :
  snd (parse_entries element p fs) = [] ->
  parse_entries element p' (fst (parse_entries element p fs))
  = (fst (parse_entries element p fs), []).
Proof.
  induction fs as [|[k x] fs IH]; cbn; [reflexivity|].
  pose proof (element_again (p ++ [PKey k]) x) as Hx.
  destruct (parse element (p ++ [PKey k]) x) as [d is1].
  destruct (parse_entries element p fs) as [ds is2].
  cbn in *. intros H. apply app_eq_nil in H. destruct H as [H1 H2].
  specialize (IH H2).
  destruct (String.eqb k "__proto__") eqn:E; [exact IH|].
  cbn. rewrite (Hx H1 (p' ++ [PKey k])), IH, E. reflexivity.
Qed.

End Revalidation.

Lemma parse_shape_again (fields : list (string * value)) (p p' : path)
  (sh : list (string * schema)) :
  distinct (keys sh) = true ->
  Forall (fun ks => forall q v, snd (parse (snd ks) q v) = [] ->
                    forall q', parse (snd ks) q' (fst (parse (snd ks) q v))
                               = (fst (parse (snd ks) q v), [])) sh ->
  snd (parse_shape fields p sh) = [] ->
  forall sh', incl sh' sh ->
    parse_shape (fst (parse_shape fields p sh)) p' sh'
    = (fst (parse_shape fields p sh'), []).
Proof.
  intros Hd Hfields Hvalid sh'.
  induction sh' as [|[k sk] sh' IH]; intros Hincl; cbn; [reflexivity|].
  assert (Hin : In (k, sk) sh) by (apply Hincl; now left).
  destruct (parse_shape_get fields p sh k sk Hd Hin) as [Hg Hh].
  rewrite Hg, Hh.
  rewrite Forall_forall in Hfields. specialize (Hfields (k, sk) Hin). cbn in Hfields.
  apply parse_shape_valid in Hvalid. rewrite Forall_forall in Hvalid.
  specialize (Hvalid (k, sk) Hin). cbn in Hvalid.
  rewrite (Hfields _ _ Hvalid (p' ++ [PKey k])).
  rewrite IH by (intros x Hx; apply Hincl; now right).
  destruct (parse sk (p ++ [PKey k]) (get_prop k fields)) as [d is1].
  destruct (parse_shape fields p sh') as [ds' is2']. cbn.
  rewrite orb_assoc, orb_diag. reflexivity.
Qed.

(** Validation is idempotent: the normalized value of a valid input is
    valid and normalizes to itself. *)
Lemma parse_again (s : schema) :
  well_formed s = true ->
  forall p v, snd (parse s p v) = [] ->
              forall p', parse s p' (fst (parse s p v)) = (fst (parse s p v), []).
Proof.
  induction s as [ | checks | | values | e IH | e IH | shape IH | e IH ]
    using schema_induction; intros Hwf p v Hv p'.
  - destruct v; cbn in *; try discriminate; reflexivity.
  - destruct v; cbn in *; try discriminate.
    destruct (PrimFloat.is_nan x) eqn:En; cbn in *; [discriminate|].
    rewrite En. now rewrite (run_checks_path _ _ _ p' Hv).
  - destruct v; cbn in *; try discriminate; reflexivity.
  - destruct v; cbn in *; try discriminate.
    destruct (mem s values) eqn:Em; cbn in *; [|discriminate].
    now rewrite Em.
  - destruct v; try (cbn in Hv; discriminate).
    rewrite parse_array_eq in *.
    pose proof (parse_items_again e (IH Hwf) p p' items 0 0) as Hagain.
    destruct (parse_items e p 0 items) as [ds iss]. cbn [fst snd] in *.
    rewrite parse_array_eq, (Hagain Hv). reflexivity.
  - destruct v; try (cbn in Hv; discriminate).
    rewrite parse_record_eq in *.
    pose proof (parse_entries_again e (IH Hwf) p p' fields) as Hagain.
    destruct (parse_entries e p fields) as [ds iss]. cbn [fst snd] in *.
    rewrite parse_record_eq, (Hagain Hv). reflexivity.
  - destruct v; try (cbn in Hv; discriminate).
    apply well_formed_object in Hwf. destruct Hwf as [Hd Hall].
    rewrite parse_object_eq in *.
    assert (Hfields : Forall (fun ks => forall q v, snd (parse (snd ks) q v) = [] ->
                      forall q', parse (snd ks) q' (fst (parse (snd ks) q v))
                                 = (fst (parse (snd ks) q v), [])) shape).
    { rewrite Forall_forall in *. intros ks Hks. apply IH; [exact Hks|].
      now apply Hall. }
    assert (Hiss : snd (parse_shape fields p shape) = []).
    { destruct (parse_shape fields p shape); exact Hv. }
    pose proof (parse_shape_again fields p p' shape Hd Hfields Hiss shape
                  (incl_refl _)) as Hagain.
    destruct (parse_shape fields p shape) as [ds iss]. cbn [fst snd] in *.
    rewrite parse_object_eq, Hagain. reflexivity.
  - destruct v; cbn [parse] in *; try reflexivity;
      rewrite (IH Hwf _ _ Hv p');
      match goal with
      | |- context [fst ?t] => destruct (fst t); reflexivity
      end.
Qed.

(** A validated value passes [safeParse] of the same schema unchanged. *)
Lemma safeParse_again (s : schema) (v d : value) :
  well_formed s = true ->
  safeParse s v = ParseOk d ->
  safeParse s d = ParseOk d.
Proof.
  unfold safeParse. intros Hwf H.
  pose proof (parse_again s Hwf [] v) as Hagain.
  destruct (parse s [] v) as [d' [|i iss]]; [|discriminate].
  inversion H; subst d'. cbn in Hagain.
  now rewrite (Hagain eq_refl []).
Qed.

(** The validated options of an object schema, field by field. *)
Lemma safeParse_object_ok (sh : list (string * schema))
  (fields : list (string * value)) (d : value) :
  distinct (keys sh) = true ->
  safeParse (opt (ZObject sh)) (VObj fields) = ParseOk d ->
  exists out,
    d = VObj out
    /\ forall k sk, In (k, sk) sh ->
         snd (parse sk [PKey k] (get_prop k fields)) = []
         /\ get_prop k out = fst (parse sk [PKey k] (get_prop k fields)).
Proof.
  intros Hd. rewrite safeParse_object.
  pose proof (parse_shape_valid fields [] sh) as Hvalid.
  pose proof (fun k sk => parse_shape_get fields [] sh k sk Hd) as Hget.
  destruct (parse_shape fields [] sh) as [ds [|i iss]]; [|discriminate].
  intros H. inversion H; subst d. exists ds. split; [reflexivity|].
  intros k sk Hin. split.
  - destruct Hvalid as [Hvalid _]. specialize (Hvalid eq_refl).
    rewrite Forall_forall in Hvalid. exact (Hvalid (k, sk) Hin).
  - exact (proj1 (Hget k sk Hin)).
Qed.

(* ================================================================== *)
(** ** Unknown option fields *)
(* ================================================================== *)




(* ================================================================== *)
(** ** The bounds of [scale] *)
(* ================================================================== *)

Lemma scale_field_declared : In ("scale"%string, opt scale_schema) HtmlToPdfOptions_shape.
Proof. cbn. tauto. Qed.

(** Comparison of floating-point numbers: the order is total away from
    NaN. *)
Lemma SFcompare_antisym (x y : spec_float) :
  SFcompare y x = option_map CompOpp (SFcompare x y).
Proof.
  destruct x as [sx|sx| |sx mx ex], y as [sy|sy| |sy my ey]; cbn;
    try (destruct sx); try (destruct sy); try reflexivity.
  all: rewrite (BinInt.Z.compare_antisym ex ey); destruct (BinInt.Z.compare ex ey); cbn;
    try reflexivity.
  all: rewrite (BinPos.Pos.compare_cont_antisym mx my Eq); reflexivity.
Qed.

Lemma SFcompare_refl (x : spec_float) :
  x <> S754_nan -> SFcompare x x = Some Eq.
Proof.
  destruct x as [s|s| |s m e]; cbn; try (destruct s); try reflexivity;
    try (intros H; now contradiction H); intros _.
  all: rewrite BinInt.Z.compare_refl, BinPos.Pos.compare_cont_refl; reflexivity.
Qed.

Lemma SFcompare_nan (x y : spec_float) :
  SFcompare x y = None <-> x = S754_nan \/ y = S754_nan.
Proof.
  destruct x as [sx|sx| |sx mx ex], y as [sy|sy| |sy my ey]; cbn;
    split; intros H; try discriminate H; auto;
    try (destruct H as [H|H]; discriminate H).
Qed.

(** [a <= x] holds exactly when both are numbers and [x < a] does not. *)
Lemma leb_ltb (a x : float) :
  PrimFloat.leb a x = true
  <-> PrimFloat.is_nan a = false /\ PrimFloat.is_nan x = false
      /\ PrimFloat.ltb x a = false.
Proof.
  unfold PrimFloat.is_nan.
  rewrite leb_spec, ltb_spec, !eqb_spec.
  unfold SFleb, SFltb, SFeqb.
  rewrite (SFcompare_antisym (Prim2SF x) (Prim2SF a)).
  destruct (SFcompare (Prim2SF x) (Prim2SF a)) as [c|] eqn:E.
  - assert (Ha : Prim2SF a <> S754_nan).
    { intros H. assert (SFcompare (Prim2SF x) (Prim2SF a) = None)
        by (apply SFcompare_nan; now right). congruence. }
    assert (Hx : Prim2SF x <> S754_nan).
    { intros H. assert (SFcompare (Prim2SF x) (Prim2SF a) = None)
        by (apply SFcompare_nan; now left). congruence. }
    rewrite (SFcompare_refl _ Ha), (SFcompare_refl _ Hx).
    destruct c; cbn; intuition congruence.
  - cbn. split; [discriminate|]. intros [Ha [Hx _]].
    apply SFcompare_nan in E. destruct E as [E|E]; rewrite E in *; discriminate.
Qed.

(** The scale is in the interval exactly when it is a number that is
    neither below 0.1 nor above 2. *)
Lemma in_scale_range_spec (x : float) :
  in_scale_range x = true
  <-> PrimFloat.is_nan x = false /\ PrimFloat.ltb x 0.1 = false
      /\ PrimFloat.ltb 2 x = false.
Proof.
  unfold in_scale_range. rewrite andb_true_iff, !leb_ltb.
  assert (H1 : PrimFloat.is_nan 0.1 = false) by reflexivity.
  assert (H2 : PrimFloat.is_nan 2 = false) by reflexivity.
  tauto.
Qed.

(** Validation of a number under the schema of [scale]. *)
Lemma parse_scale (p : path) (x : float) :
  parse (opt scale_schema) p (VNum x)
  = if PrimFloat.is_nan x then (VUndefined, [InvalidType "number" "nan" p])
    else (VNum x,
          (if PrimFloat.ltb x 0.1 then [TooSmall "0.1" p] else [])
          ++ (if PrimFloat.ltb 2 x then [TooBig "2" p] else [])).
Proof.
  cbn. destruct (PrimFloat.is_nan x); [reflexivity|]. now rewrite app_nil_r.
Qed.

Lemma scale_accepted (p : path) (x : float) :
  in_scale_range x = true -> parse (opt scale_schema) p (VNum x) = (VNum x, []).
Proof.
  intros H. apply in_scale_range_spec in H. destruct H as [Hnan [Hlow Hhigh]].
  now rewrite parse_scale, Hnan, Hlow, Hhigh.
Qed.

Lemma scale_rejected (p : path) (x : float) :
  in_scale_range x = false ->
  exists i, In i (snd (parse (opt scale_schema) p (VNum x))) /\ issue_path i = p.
Proof.
  intros H. rewrite parse_scale.
  destruct (PrimFloat.is_nan x) eqn:Hnan; [eexists; split; [now left|reflexivity]|].
  destruct (PrimFloat.ltb x 0.1) eqn:Hlow; [eexists; split; [now left|reflexivity]|].
  destruct (PrimFloat.ltb 2 x) eqn:Hhigh; [eexists; split; [now left|reflexivity]|].
  assert (in_scale_range x = true) by (apply in_scale_range_spec; auto).
  congruence.
Qed.

(** C7: the interval of [scale] is closed at both ends.  An HTML-to-PDF
    options object whose scale is 2.1 fails validation, with a too-big
    issue at [scale], whatever its other fields; with scale 2.0 or 0.1
    (and its other options valid) it validates and keeps the scale.  For
    every number given as scale, with the other options valid,
    validation succeeds exactly when 0.1 <= scale <= 2.0; outside the
    interval (and for NaN) it fails with an issue at [scale], whatever
    the other fields. *)
Theorem scale_bounds_inclusive (fields : list (string * value)) :
  (get_prop "scale" fields = VNum 2.1%float ->
   exists issues,
     safeParse HtmlToPdfOptionsSchema (VObj fields) = ParseError issues
     /\ In (TooBig "2" [PKey "scale"]) issues)
  /\ (forall x, x = 2%float \/ x = 0.1%float ->
        get_prop "scale" fields = VNum x ->
        others_valid fields ->
        exists out,
          safeParse HtmlToPdfOptionsSchema (VObj fields) = ParseOk (VObj out)
          /\ get_prop "scale" out = VNum x)
  /\ (forall x,
        get_prop "scale" fields = VNum x ->
        others_valid fields ->
        ((exists out,
             safeParse HtmlToPdfOptionsSchema (VObj fields) = ParseOk (VObj out)
             /\ get_prop "scale" out = VNum x)
         <-> in_scale_range x = true))
  /\ (forall x,
        get_prop "scale" fields = VNum x ->
        in_scale_range x = false ->
        exists issues i,
          safeParse HtmlToPdfOptionsSchema (VObj fields) = ParseError issues
          /\ In i issues /\ issue_path i = [PKey "scale"]).
Proof.
  assert (Hrejected : forall x,
    get_prop "scale" fields = VNum x ->
    in_scale_range x = false ->
    exists issues i,
      safeParse HtmlToPdfOptionsSchema (VObj fields) = ParseError issues
      /\ In i issues /\ issue_path i = [PKey "scale"]).
  { intros x Hscale Hout.
    unfold HtmlToPdfOptionsSchema. rewrite safeParse_object.
    destruct (scale_rejected [PKey "scale"] x Hout) as [i [Hi Hpath]].
    assert (Hin : In i (snd (parse_shape fields [] HtmlToPdfOptions_shape))).
    { rewrite parse_shape_issues. apply in_flat_map.
      exists ("scale"%string, opt scale_schema). split; [apply scale_field_declared|].
      cbn [fst snd app]. now rewrite Hscale. }
    destruct (parse_shape fields [] HtmlToPdfOptions_shape) as [ds [|i0 iss]];
      [destruct Hin|].
    exists (i0 :: iss), i. auto. }
  assert (Haccepted : forall x,
    get_prop "scale" fields = VNum x ->
    others_valid fields ->
    in_scale_range x = true ->
    exists out,
      safeParse HtmlToPdfOptionsSchema (VObj fields) = ParseOk (VObj out)
      /\ get_prop "scale" out = VNum x).
  { intros x Hscale Hothers Hin.
    unfold HtmlToPdfOptionsSchema. rewrite safeParse_object.
    assert (Hvalid : snd (parse_shape fields [] HtmlToPdfOptions_shape) = []).
    { apply parse_shape_valid. unfold others_valid in Hothers.
      rewrite Forall_forall in *. intros [k sk] Hk. cbn [fst snd app].
      destruct (String.eqb k "scale") eqn:E.
      - apply String.eqb_eq in E. subst k.
        assert (sk = opt scale_schema) as ->.
        { cbn in Hk. repeat (destruct Hk as [Hk|Hk];
            [inversion Hk; subst; try reflexivity; discriminate|]).
          destruct Hk. }
        now rewrite Hscale, (scale_accepted _ x Hin).
      - apply String.eqb_neq in E. exact (Hothers (k, sk) Hk E). }
    pose proof (parse_shape_get fields [] HtmlToPdfOptions_shape "scale"
                  (opt scale_schema) eq_refl scale_field_declared) as [Hget _].
    destruct (parse_shape fields [] HtmlToPdfOptions_shape) as [ds iss].
    cbn [fst snd] in *. subst iss. exists ds. split; [reflexivity|].
    rewrite Hget. cbn [app]. now rewrite Hscale, (scale_accepted _ x Hin). }
  split; [|split; [|split]].
  - intros Hscale.
    unfold HtmlToPdfOptionsSchema. rewrite safeParse_object.
    assert (Hin : In (TooBig "2" [PKey "scale"])
                     (snd (parse_shape fields [] HtmlToPdfOptions_shape))).
    { rewrite parse_shape_issues. apply in_flat_map.
      exists ("scale"%string, opt scale_schema). split; [apply scale_field_declared|].
      cbn [fst snd app]. rewrite Hscale. vm_compute. now left. }
    destruct (parse_shape fields [] HtmlToPdfOptions_shape) as [ds [|i iss]];
      [destruct Hin|].
    eexists. split; [reflexivity|exact Hin].
  - intros x Hx Hscale Hothers. apply (Haccepted x Hscale Hothers).
    destruct Hx as [-> | ->]; reflexivity.
  - intros x Hscale Hothers. split; [|apply (Haccepted x Hscale Hothers)].
    intros [out [Hok _]].
    destruct (in_scale_range x) eqn:E; [reflexivity|].
    destruct (Hrejected x Hscale E) as [issues [i [Hfail _]]]. congruence.
  - exact Hrejected.
Qed.

Lemma scale_bounds_inclusive_witness :
  (exists issues,
      safeParse HtmlToPdfOptionsSchema
        (VObj [("format", VStr "A4"); ("scale", VNum 2.1%float)]) = ParseError issues
      /\ In (TooBig "2" [PKey "scale"]) issues)
  /\ (exists out,
         safeParse HtmlToPdfOptionsSchema
           (VObj [("format", VStr "A4"); ("scale", VNum 2%float)]) = ParseOk (VObj out)
         /\ get_prop "scale" out = VNum 2%float)
  /\ (exists out,
         safeParse HtmlToPdfOptionsSchema
           (VObj [("scale", VNum 0.1%float)]) = ParseOk (VObj out)
         /\ get_prop "scale" out = VNum 0.1%float)
  /\ (exists out,
         safeParse HtmlToPdfOptionsSchema
           (VObj [("scale", VNum 1.5%float)]) = ParseOk (VObj out)
         /\ get_prop "scale" out = VNum 1.5%float)
  /\ (exists issues i,
         safeParse HtmlToPdfOptionsSchema
           (VObj [("scale", VNum 0.05%float)]) = ParseError issues
         /\ In i issues /\ issue_path i = [PKey "scale"]).
Proof.
  split; [|split; [|split; [|split]]].
  - apply (proj1 (scale_bounds_inclusive
                    [("format", VStr "A4"); ("scale", VNum 2.1%float)])).
    reflexivity.
  - apply (proj1 (proj2 (scale_bounds_inclusive
                           [("format", VStr "A4"); ("scale", VNum 2%float)])) 2%float).
    + now left.
    + reflexivity.
    + unfold others_valid, HtmlToPdfOptions_shape.
      repeat constructor.
  - apply (proj1 (proj2 (scale_bounds_inclusive [("scale", VNum 0.1%float)])) 0.1%float).
    + now right.
    + reflexivity.
    + unfold others_valid, HtmlToPdfOptions_shape.
      repeat constructor.
  - apply (proj1 (proj2 (proj2 (scale_bounds_inclusive [("scale", VNum 1.5%float)])))
             1.5%float).
    + reflexivity.
    + unfold others_valid, HtmlToPdfOptions_shape.
      repeat constructor.
    + reflexivity.
  - apply (proj2 (proj2 (proj2 (scale_bounds_inclusive [("scale", VNum 0.05%float)])))
             0.05%float); reflexivity.
Defined.

(* ================================================================== *)
(** ** Strings: concatenation and containment *)
(* ================================================================== *)

Lemma sapp_assoc (a b c : string) : ((a ++ b) ++ c = a ++ (b ++ c))%string.
Proof. induction a as [|x a IH]; cbn; [reflexivity|now rewrite IH]. Qed.

Lemma sapp_nil_r (a : string) : (a ++ "" = a)%string.
Proof. induction a as [|x a IH]; cbn; [reflexivity|now rewrite IH]. Qed.

Lemma slength_app (a b : string) :
  String.length (a ++ b) = String.length a + String.length b.
Proof. induction a as [|x a IH]; cbn; [reflexivity|now rewrite IH]. Qed.

Lemma starts_with_app (n rest : string) : Str.starts_with n (n ++ rest) = true.
Proof.
  induction n as [|x n IH]; cbn; [reflexivity|].
  now rewrite Ascii.eqb_refl, IH.
Qed.

Lemma Contains_refl (n : string) : Contains n n.
Proof. exists ""%string, ""%string. cbn. now rewrite sapp_nil_r. Qed.

Lemma Contains_app_l (n a b : string) : Contains n a -> Contains n (a ++ b).
Proof.
  intros [x [y ->]]. exists x, (y ++ b)%string.
  now rewrite !sapp_assoc.
Qed.

Lemma Contains_app_r (n a b : string) : Contains n b -> Contains n (a ++ b).
Proof.
  intros [x [y ->]]. exists (a ++ x)%string, y.
  now rewrite !sapp_assoc.
Qed.

Lemma Contains_cons (n : string) (c : ascii) (a : string) :
  Contains n a -> Contains n (String c a).
Proof. apply (Contains_app_r n (String c "") a). Qed.

Lemma Contains_join (n sep x : string) (parts : list string) :
  In x parts -> Contains n x -> Contains n (Str.join sep parts).
Proof.
  induction parts as [|y parts IH]; cbn [In]; [tauto|].
  intros Hin Hx. destruct parts as [|z parts].
  - destruct Hin as [->|[]]. exact Hx.
  - change (Str.join sep (y :: z :: parts))
      with (y ++ sep ++ Str.join sep (z :: parts))%string.
    destruct Hin as [->|Hin].
    + now apply Contains_app_l.
    + apply Contains_app_r, Contains_app_r, IH; assumption.
Qed.

(** Containment is what [includes] computes. *)
Lemma includes_Contains (n hay : string) :
  Str.includes n hay = true <-> Contains n hay.
Proof.
  split.
  - induction hay as [|c hay IH]; cbn.
    + destruct n; cbn; [|discriminate].
      intros _. apply Contains_refl.
    + intros H. apply orb_true_iff in H. destruct H as [H|H].
      * clear IH. exists ""%string. cbn.
        revert n H. generalize (String c hay) as h.
        intros h n. revert h.
        induction n as [|x n IHn]; intros h H.
        -- exists h. reflexivity.
        -- destruct h as [|y h]; [discriminate|]. cbn in H.
           apply andb_true_iff in H. destruct H as [Hxy H].
           apply Ascii.eqb_eq in Hxy. subst y.
           destruct (IHn h H) as [after ->]. exists after. reflexivity.
      * now apply Contains_cons, IH.
  - intros [before [after ->]].
    induction before as [|c before IH].
    + pose proof (starts_with_app n after) as Hs.
      cbn [String.append]. destruct (n ++ after)%string; cbn [Str.includes];
        now rewrite Hs.
    + cbn [String.append Str.includes]. rewrite IH. apply orb_true_r.
Qed.

(* ================================================================== *)
(** ** The text of a validation error names the fields *)
(* ================================================================== *)

Lemma stringify_array (indent : string) (x : Json.json) (xs : list Json.json) :
  Json.stringify indent (Json.JArr (x :: xs))
  = ("[" ++ Json.nl ++ (indent ++ "  ")
       ++ Str.join ("," ++ Json.nl ++ (indent ++ "  "))
            (map (Json.stringify (indent ++ "  ")) (x :: xs))
       ++ Json.nl ++ indent ++ "]")%string.
Proof. reflexivity. Qed.

Lemma stringify_object (indent : string) (m : string * Json.json)
  (ms : list (string * Json.json)) :
  Json.stringify indent (Json.JObj (m :: ms))
  = ("{" ++ Json.nl ++ (indent ++ "  ")
       ++ Str.join ("," ++ Json.nl ++ (indent ++ "  "))
            (map (fun m => Json.quote (fst m) ++ ": "
                             ++ Json.stringify (indent ++ "  ") (snd m))
                 (m :: ms))
       ++ Json.nl ++ indent ++ "}")%string.
Proof. reflexivity. Qed.

Lemma Contains_array (n indent : string) (j : Json.json) (items : list Json.json) :
  In j items ->
  Contains n (Json.stringify (indent ++ "  ") j) ->
  Contains n (Json.stringify indent (Json.JArr items)).
Proof.
  intros Hin Hj. destruct items as [|x xs]; [destruct Hin|].
  rewrite stringify_array.
  do 3 apply Contains_app_r. apply Contains_app_l.
  apply Contains_join with (x := Json.stringify (indent ++ "  ") j); [|exact Hj].
  now apply in_map.
Qed.

Lemma Contains_member (n indent k : string) (j : Json.json)
  (members : list (string * Json.json)) :
  In (k, j) members ->
  Contains n (Json.stringify (indent ++ "  ") j) ->
  Contains n (Json.stringify indent (Json.JObj members)).
Proof.
  intros Hin Hj. destruct members as [|m ms]; [destruct Hin|].
  rewrite stringify_object.
  do 3 apply Contains_app_r. apply Contains_app_l.
  apply Contains_join
    with (x := (Json.quote k ++ ": " ++ Json.stringify (indent ++ "  ") j)%string).
  - apply (in_map (fun m => (Json.quote (fst m) ++ ": "
                               ++ Json.stringify (indent ++ "  ") (snd m))%string)
             _ _ Hin).
  - now do 2 apply Contains_app_r.
Qed.

Lemma path_member (i : issue) :
  In ("path"%string, ZodError.path_json (issue_path i))
     (match ZodError.issue_json i with
      | Json.JObj members => members
      | _ => []
      end).
Proof. destruct i; cbn; tauto. Qed.

(** Every key on the path of an issue appears, quoted, in the message. *)
Lemma message_names_path (issues : list issue) (i : issue) (k : string) :
  In i issues ->
  In (PKey k) (issue_path i) ->
  Contains (Json.quote k) (ZodError.message issues).
Proof.
  intros Hi Hk. unfold ZodError.message.
  apply Contains_array with (j := ZodError.issue_json i); [now apply in_map|].
  pose proof (path_member i) as Hm.
  assert (Hobj : exists members, ZodError.issue_json i = Json.JObj members)
    by (destruct i; eexists; reflexivity).
  destruct Hobj as [members E]. rewrite E in *.
  apply Contains_member with (k := "path"%string)
                             (j := ZodError.path_json (issue_path i)); [exact Hm|].
  unfold ZodError.path_json.
  apply Contains_array with (j := Json.JStr k).
  - apply (in_map (fun e => match e with
                            | PKey k => Json.JStr k
                            | PIndex i => Json.JLit (Str.of_nat i)
                            end) _ _ Hk).
  - apply Contains_refl.
Qed.

(* ================================================================== *)
(** ** Invalid options stop a PDF conversion before the engine *)
(* ================================================================== *)

Lemma safeParse_error_nonempty (s : schema) (v : value) (issues : list issue) :
  safeParse s v = ParseError issues -> issues <> [].
Proof.
  unfold safeParse. destruct (parse s [] v) as [d [|i iss]]; intros H;
    inversion H; subst; discriminate.
Qed.

Lemma format_declared :
  In ("format"%string, opt (ZEnum paper_formats)) HtmlToPdfOptions_shape.
Proof. cbn. tauto. Qed.

(** C6: an HTML-to-PDF call whose options fail validation returns
    [success = false] without data, its error is the validation message,
    which names (quoted) every field on the path of every issue, and no
    external call (so no engine launch) is made.  In particular a format
    outside the paper formats is such a failure, with an issue at
    [format]. *)
Theorem invalid_options_launch_nothing (w : World) (html : value) (text : string) :
  nonempty_string html = Some text ->
  (forall options issues,
      safeParse HtmlToPdfOptionsSchema options = ParseError issues ->
      HtmlToPdfConverter.convertHtmlToPdf w html options
      = (failure ("Invalid options: " ++ ZodError.message issues)%string, [])
      /\ issues <> []
      /\ forall i k, In i issues -> In (PKey k) (issue_path i) ->
           Str.includes (Json.quote k)
             ("Invalid options: " ++ ZodError.message issues) = true)
  /\ (forall fields f,
         get_prop "format" fields = VStr f ->
         mem f paper_formats = false ->
         exists issues,
           safeParse HtmlToPdfOptionsSchema (VObj fields) = ParseError issues
           /\ In (InvalidEnumValue f paper_formats [PKey "format"]) issues).
Proof.
  intros Hhtml. split.
  - intros options issues Hparse. split; [|split].
    + unfold HtmlToPdfConverter.convertHtmlToPdf. rewrite Hhtml, Hparse. reflexivity.
    + exact (safeParse_error_nonempty _ _ _ Hparse).
    + intros i k Hi Hk. apply includes_Contains, Contains_app_r.
      exact (message_names_path issues i k Hi Hk).
  - intros fields f Hformat Hout.
    unfold HtmlToPdfOptionsSchema. rewrite safeParse_object.
    assert (Hin : In (InvalidEnumValue f paper_formats [PKey "format"])
                     (snd (parse_shape fields [] HtmlToPdfOptions_shape))).
    { rewrite parse_shape_issues. apply in_flat_map.
      exists ("format"%string, opt (ZEnum paper_formats)).
      split; [apply format_declared|].
      cbn [fst snd app]. rewrite Hformat. cbn [opt parse]. rewrite Hout. now left. }
    destruct (parse_shape fields [] HtmlToPdfOptions_shape) as [ds [|i iss]];
      [destruct Hin|].
    eexists. split; [reflexivity|exact Hin].
Qed.

Lemma invalid_options_launch_nothing_witness :
  exists message,
    HtmlToPdfConverter.convertHtmlToPdf sample_world (VStr "<h1>X</h1>")
      (VObj [("format", VStr "A6")])
    = (failure message, [])
    /\ Str.includes (Json.quote "format") message = true.
Proof.
  destruct (invalid_options_launch_nothing sample_world (VStr "<h1>X</h1>")
              "<h1>X</h1>" eq_refl) as [Hany Hformat].
  destruct (Hformat [("format", VStr "A6")] "A6"%string eq_refl eq_refl)
    as [issues [Hparse Hin]].
  destruct (Hany _ _ Hparse) as [Hcall [_ Hnames]].
  eexists. split; [exact Hcall|].
  apply (Hnames _ "format"%string Hin). now left.
Defined.

(* ================================================================== *)
(** ** Validated fields *)
(* ================================================================== *)

(** An optional boolean that validated is the boolean supplied, or absent. *)
Lemma validated_boolean (sh : list (string * schema)) (fields out : list (string * value))
  (k : string) :
  distinct (keys sh) = true ->
  In (k, opt ZBoolean) sh ->
  safeParse (opt (ZObject sh)) (VObj fields) = ParseOk (VObj out) ->
  get_prop k out = get_prop k fields
  /\ (get_prop k fields = VUndefined \/ exists b, get_prop k fields = VBool b).
Proof.
  intros Hd Hin Hparse.
  destruct (safeParse_object_ok sh fields _ Hd Hparse) as [out' [E Hall]].
  inversion E; subst out'. destruct (Hall _ _ Hin) as [Hvalid Hget].
  rewrite Hget. clear Hget Hall.
  destruct (get_prop k fields); cbn in *; try discriminate; split; eauto.
Qed.

(** An optional string that validated is the string supplied, or absent. *)
Lemma validated_string (sh : list (string * schema)) (fields out : list (string * value))
  (k : string) :
  distinct (keys sh) = true ->
  In (k, opt ZString) sh ->
  safeParse (opt (ZObject sh)) (VObj fields) = ParseOk (VObj out) ->
  get_prop k out = get_prop k fields
  /\ (get_prop k fields = VUndefined \/ exists t, get_prop k fields = VStr t).
Proof.
  intros Hd Hin Hparse.
  destruct (safeParse_object_ok sh fields _ Hd Hparse) as [out' [E Hall]].
  inversion E; subst out'. destruct (Hall _ _ Hin) as [Hvalid Hget].
  rewrite Hget. clear Hget Hall.
  destruct (get_prop k fields); cbn in *; try discriminate; split; eauto.
Qed.

Lemma safeParse_object_shape (sh : list (string * schema))
  (fields : list (string * value)) (d : value) :
  safeParse (opt (ZObject sh)) (VObj fields) = ParseOk d ->
  exists out, d = VObj out.
Proof.
  rewrite safeParse_object.
  destruct (parse_shape fields [] sh) as [ds [|i iss]]; [|discriminate].
  intros H. inversion H. now exists ds.
Qed.

(* ================================================================== *)
(** ** The parser configuration of Markdown to HTML *)
(* ================================================================== *)

Lemma markedOptions_supplied (fields out : list (string * value)) :
  safeParse MarkdownToHtmlOptionsSchema (VObj fields) = ParseOk (VObj out) ->
  MarkdownToHtmlConverter.markedOptions (VObj out)
  = {| breaks := supplied fields "breaks" false;
       gfm := supplied fields "gfm" true;
       pedantic := supplied fields "pedantic" false |}.
Proof.
  intros Hparse. unfold MarkdownToHtmlOptionsSchema in Hparse.
  assert (Hb := validated_boolean MarkdownToHtmlOptions_shape fields out "breaks" eq_refl
                  ltac:(cbn; tauto) Hparse).
  assert (Hg := validated_boolean MarkdownToHtmlOptions_shape fields out "gfm" eq_refl
                  ltac:(cbn; tauto) Hparse).
  assert (Hp := validated_boolean MarkdownToHtmlOptions_shape fields out "pedantic" eq_refl
                  ltac:(cbn; tauto) Hparse).
  unfold MarkdownToHtmlConverter.markedOptions, supplied, prop.
  destruct Hb as [-> Hb], Hg as [-> Hg], Hp as [-> Hp].
  destruct Hb as [-> | [b ->]], Hg as [-> | [g ->]], Hp as [-> | [q ->]];
    try destruct b; try destruct g; try destruct q; reflexivity.
Qed.

(** C8: with Markdown-to-HTML options that validate, the parser is set up
    with each of [breaks], [gfm], [pedantic] as the caller supplied it,
    and with [breaks = false], [gfm = true], [pedantic = false] for those
    absent (all three when the options are absent altogether); the
    Markdown is then parsed under that configuration. *)
Theorem marked_configuration (w : World) (markdown : string) :
  markdown <> ""%string ->
  (forall fields validated,
      safeParse MarkdownToHtmlOptionsSchema (VObj fields) = ParseOk validated ->
      let configured :=
        {| breaks := supplied fields "breaks" false;
           gfm := supplied fields "gfm" true;
           pedantic := supplied fields "pedantic" false |} in
      exists rest,
        snd (MarkdownToHtmlConverter.convertMarkdownToHtml w (VStr markdown) (VObj fields))
        = EMarkedSetOptions configured :: EMarkedParse markdown :: rest)
  /\ (forall fields,
         get_prop "breaks" fields = VUndefined ->
         get_prop "gfm" fields = VUndefined ->
         get_prop "pedantic" fields = VUndefined ->
         supplied fields "breaks" false = false
         /\ supplied fields "gfm" true = true
         /\ supplied fields "pedantic" false = false)
  /\ (exists rest,
         snd (MarkdownToHtmlConverter.convertMarkdownToHtml w (VStr markdown) VUndefined)
         = EMarkedSetOptions {| breaks := false; gfm := true; pedantic := false |}
             :: EMarkedParse markdown :: rest).
Proof.
  intros Hne.
  assert (Hmd : nonempty_string (VStr markdown) = Some markdown).
  { cbn. destruct (String.eqb_spec markdown ""); [contradiction|reflexivity]. }
  split; [|split].
  - intros fields validated Hparse configured.
    destruct (safeParse_object_shape _ _ _ Hparse) as [out ->].
    pose proof (markedOptions_supplied fields out Hparse) as Hcfg.
    fold configured in Hcfg.
    unfold MarkdownToHtmlConverter.convertMarkdownToHtml.
    rewrite Hmd, Hparse. cbn [or_else truthy]. rewrite Hcfg.
    unfold run, try_catch, bind, call, ret, returning.
    destruct (marked_parse w configured markdown) as [e | html]; cbn.
    + eexists. reflexivity.
    + destruct (truthy (get_prop "sanitize" out)); cbn.
      * match goal with
        | |- context [sanitizeHtml w ?h ?o] => destruct (sanitizeHtml w h o)
        end; cbn; eexists; reflexivity.
      * eexists. reflexivity.
  - intros fields Hb Hg Hp. unfold supplied. now rewrite Hb, Hg, Hp.
  - unfold MarkdownToHtmlConverter.convertMarkdownToHtml.
    rewrite Hmd. cbn [safeParse]. 
    change (safeParse MarkdownToHtmlOptionsSchema VUndefined) with (ParseOk VUndefined).
    cbn [or_else truthy].
    change (MarkdownToHtmlConverter.markedOptions (VObj []))
      with {| breaks := false; gfm := true; pedantic := false |}.
    unfold run, try_catch, bind, call, ret, returning.
    destruct (marked_parse w {| breaks := false; gfm := true; pedantic := false |}
                markdown) as [e | html]; cbn; eexists; reflexivity.
Qed.

Lemma marked_configuration_witness :
  exists rest,
    snd (MarkdownToHtmlConverter.convertMarkdownToHtml sample_world (VStr "# Hi")
           (VObj [("gfm", VBool false); ("sanitize", VBool true)]))
    = EMarkedSetOptions {| breaks := false; gfm := false; pedantic := false |}
        :: EMarkedParse "# Hi" :: rest.
Proof.
  assert (Hne : "# Hi"%string <> ""%string) by discriminate.
  exact (proj1 (marked_configuration sample_world "# Hi" Hne)
           [("gfm", VBool false); ("sanitize", VBool true)] _ eq_refl).
Defined.

(* ================================================================== *)
(** ** DOCX metadata *)
(* ================================================================== *)

(** The options of the DOCX stage after validation and defaults, for an
    options object that only sets the named string fields. *)
Example docx_options_keywords_only :
  safeParse HtmlToDocxOptionsSchema (VObj [("keywords", VStr "k")])
  = ParseOk (VObj [("keywords", VStr "k")]).
Proof. reflexivity. Qed.

(** Scenario E: a title on bare HTML wraps it in a shell whose head holds
    the title element. *)
Example title_wraps_bare_html :
  HtmlToDocxConverter.processedHtml
    (spread HtmlToDocxConverter.DEFAULT_OPTIONS [("title", VStr "Report")]) "<p>x</p>"
  = (nl ++ lines ["            <!DOCTYPE html>";
                  "            <html>";
                  "            <head>";
                  "              <title>Report</title>";
                  "            </head>";
                  "            <body>";
                  "              <p>x</p>";
                  "            </body>";
                  "            </html>";
                  "          "])%string.
Proof. reflexivity. Qed.

(** With an exact [<head>] tag the metadata follows it immediately. *)
Example subject_after_head :
  HtmlToDocxConverter.processedHtml
    (spread HtmlToDocxConverter.DEFAULT_OPTIONS
       [("subject", VStr "S"); ("keywords", VStr "k")])
    "<html><head></head><body/></html>"
  = ("<html><head>" ++ HtmlToDocxConverter.headSeparator
       ++ "<meta name=" ++ dq "subject" ++ " content=" ++ dq "S" ++ ">"
       ++ HtmlToDocxConverter.headSeparator
       ++ "<meta name=" ++ dq "keywords" ++ " content=" ++ dq "k" ++ ">"
       ++ "</head><body/></html>")%string.
Proof. reflexivity. Qed.

(** Without a title, a subject or a creator the HTML is left as it is,
    whatever the keywords and the description. *)
Lemma processedHtml_unguarded (docxOptions : list (string * value)) (html : string) :
  truthy (get_prop "title" docxOptions) = false ->
  truthy (get_prop "subject" docxOptions) = false ->
  truthy (get_prop "creator" docxOptions) = false ->
  HtmlToDocxConverter.processedHtml docxOptions html = html.
Proof.
  intros Ht Hs Hc. unfold HtmlToDocxConverter.processedHtml.
  now rewrite Ht, Hs, Hc.
Qed.

(** With one of them, HTML without an [<html] or [<head] marker is wrapped
    in the shell, the metadata elements in its head. *)
Lemma processedHtml_wraps (docxOptions : list (string * value)) (html : string) :
  truthy (get_prop "title" docxOptions)
  || truthy (get_prop "subject" docxOptions)
  || truthy (get_prop "creator" docxOptions) = true ->
  Str.includes "<html" html = false ->
  Str.includes "<head" html = false ->
  HtmlToDocxConverter.processedHtml docxOptions html
  = (nl ++ lines ["            <!DOCTYPE html>";
                  "            <html>";
                  "            <head>";
                  "              "
                    ++ Str.join HtmlToDocxConverter.headSeparator
                         (HtmlToDocxConverter.headContent docxOptions);
                  "            </head>";
                  "            <body>";
                  "              " ++ html;
                  "            </body>";
                  "            </html>";
                  "          "])%string.
Proof.
  intros Hg Hhtml Hhead. unfold HtmlToDocxConverter.processedHtml.
  now rewrite Hg, Hhtml, Hhead.
Qed.

(** C1 (what the code does when only [keywords] is set): the guard on
    title, subject and creator is false, so the HTML handed to the DOCX
    emitter is the input itself, without a head and without any metadata
    element, although the body under the guard would build the keywords
    element; the same holds with only [description] set. *)
Theorem keywords_alone_inject_nothing (w : World) :
  (exists rest,
      snd (HtmlToDocxConverter.convertHtmlToDocx w (VStr "<p>x</p>")
             (VObj [("keywords", VStr "k")]))
      = EAsBlob "<p>x</p>"
          (HtmlToDocxConverter.libOptions HtmlToDocxConverter.DEFAULT_OPTIONS)
          :: rest)
  /\ (exists rest,
         snd (HtmlToDocxConverter.convertHtmlToDocx w (VStr "<p>x</p>")
                (VObj [("description", VStr "d")]))
         = EAsBlob "<p>x</p>"
             (HtmlToDocxConverter.libOptions HtmlToDocxConverter.DEFAULT_OPTIONS)
             :: rest)
  /\ Str.includes "keywords"
       (HtmlToDocxConverter.processedHtml
          (spread HtmlToDocxConverter.DEFAULT_OPTIONS [("keywords", VStr "k")])
          "<p>x</p>") = false.
Proof.
  split; [|split]; [| |reflexivity].
  - vm_compute.
    match goal with
    | |- context [match ?x with inl _ => _ | inr _ => _ end] =>
        destruct x as [e | [bytes | [e | bytes] | ]]
    end; eexists; reflexivity.
  - vm_compute.
    match goal with
    | |- context [match ?x with inl _ => _ | inr _ => _ end] =>
        destruct x as [e | [bytes | [e | bytes] | ]]
    end; eexists; reflexivity.
Qed.

(* ================================================================== *)
(** ** The browser is closed on every path *)
(* ================================================================== *)

Ltac run_blocks :=
  unfold run, finally, try_catch, bind, call, ret, returning, await, assign,
    throw, log.

(** C4: whenever an HTML-to-PDF or URL-to-PDF call launches a browser,
    its engine calls begin with the launch and end with the close of that
    browser, whichever of the page, content, navigation or render steps
    fails or none; the close is requested once, and after it nothing more
    is asked of the engine. *)
Theorem browser_closed_on_every_path (w : World) (b : browser)
  (input options : value) (calls : trace) :
  puppeteer_launch w = inr b ->
  calls = snd (HtmlToPdfConverter.convertHtmlToPdf w input options)
  \/ calls = snd (HtmlToPdfConverter.convertUrlToPdf w input options) ->
  In ELaunch calls ->
  closed_once b calls = true.
Proof.
  intros Hlaunch [-> | ->].
  - unfold HtmlToPdfConverter.convertHtmlToPdf.
    destruct (nonempty_string input) as [html|]; [|intros []].
    destruct (safeParse HtmlToPdfOptionsSchema options) as [validated|issues].
    + run_blocks. rewrite Hlaunch. unfold HtmlToPdfConverter.closeBrowser.
      run_blocks. intros _.
      destruct (browser_newPage w b) as [e|p]; cbn.
      { destruct (browser_close w b); cbn; unfold closed_once; cbn;
          now rewrite Nat.eqb_refl. }
      destruct (page_setContent w p html) as [e|[]]; cbn.
      { destruct (browser_close w b); cbn; unfold closed_once; cbn;
          now rewrite Nat.eqb_refl. }
      destruct (page_pdf w p _) as [e|bytes]; cbn;
        destruct (browser_close w b); cbn; unfold closed_once; cbn;
        now rewrite Nat.eqb_refl.
    + cbn. intros [].
  - unfold HtmlToPdfConverter.convertUrlToPdf.
    destruct (nonempty_string input) as [url|]; [|intros []].
    destruct (safeParse HtmlToPdfOptionsSchema options) as [validated|issues].
    + run_blocks. rewrite Hlaunch. unfold HtmlToPdfConverter.closeBrowser.
      run_blocks. intros _.
      destruct (browser_newPage w b) as [e|p]; cbn.
      { destruct (browser_close w b); cbn; unfold closed_once; cbn;
          now rewrite Nat.eqb_refl. }
      destruct (page_goto w p url) as [e|[]]; cbn.
      { destruct (browser_close w b); cbn; unfold closed_once; cbn;
          now rewrite Nat.eqb_refl. }
      destruct (page_pdf w p _) as [e|bytes]; cbn;
        destruct (browser_close w b); cbn; unfold closed_once; cbn;
        now rewrite Nat.eqb_refl.
    + cbn. intros [].
Qed.

Lemma browser_closed_on_every_path_witness :
  closed_once 7
    (snd (HtmlToPdfConverter.convertHtmlToPdf failing_render_world (VStr "<h1>X</h1>")
            (VObj [("format", VStr "Letter"); ("landscape", VBool true)])))
  = true
  /\ closed_once 1
       (snd (HtmlToPdfConverter.convertUrlToPdf sample_world (VStr "http://example.org")
               VUndefined))
     = true.
Proof.
  split.
  - apply (browser_closed_on_every_path failing_render_world 7 (VStr "<h1>X</h1>")
             (VObj [("format", VStr "Letter"); ("landscape", VBool true)])).
    + reflexivity.
    + left. reflexivity.
    + simpl. left. reflexivity.
  - apply (browser_closed_on_every_path sample_world 1 (VStr "http://example.org")
             VUndefined).
    + reflexivity.
    + right. reflexivity.
    + simpl. left. reflexivity.
Defined.

(* ================================================================== *)
(** ** The result envelope of every operation *)
(* ================================================================== *)

Lemma failure_shaped {D Meta} (msg : string) :
  well_shaped (failure msg : ConversionResult D Meta).
Proof. split; [discriminate|reflexivity]. Qed.

Lemma succeeded_shaped {D Meta} (d : D) (m : Meta) : well_shaped (succeeded d m).
Proof. split; [discriminate|reflexivity]. Qed.

Create HintDb envelope.
#[local] Hint Resolve failure_shaped succeeded_shaped : envelope.

Section BlockRules.

Context {S A : Type} (P : A -> Prop).

Lemma returns_ret (a : A) : P a -> returns (S := S) P (ret a).
Proof. intros Ha s a' s' t H. inversion H; subst. exact Ha. Qed.

Lemma returns_throw (e : exn) : returns (S := S) P (throw e).
Proof. intros s a s' t H. inversion H. Qed.

Lemma returns_await (d : Done A) : P (fst d) -> returns (S := S) P (await d).
Proof. intros Hd s a s' t H. inversion H; subst. exact Hd. Qed.

Lemma returns_bind {B} (m : M S B) (k : B -> M S A) :
  (forall b, returns P (k b)) -> returns P (bind m k).
Proof.
  intros Hk s a s' t. unfold bind.
  destruct (m s) as [[[e|b] s1] t1]; [intros H; inversion H|].
  destruct (k b s1) as [[r s2] t2] eqn:E. intros H. inversion H; subst.
  exact (Hk b s1 a s' t2 E).
Qed.

Lemma returns_bind_with {B} (Q : B -> Prop) (m : M S B) (k : B -> M S A) :
  returns Q m -> (forall b, Q b -> returns P (k b)) -> returns P (bind m k).
Proof.
  intros Hm Hk s a s' t. unfold bind.
  destruct (m s) as [[[e|b] s1] t1] eqn:Em; [intros H; inversion H|].
  destruct (k b s1) as [[r s2] t2] eqn:E. intros H. inversion H; subst.
  exact (Hk b (Hm s b s1 t1 Em) s1 a s' t2 E).
Qed.

Lemma yields_returning (a : A) : P a -> yields (S := S) P (returning a).
Proof. intros Ha s. exact Ha. Qed.

Lemma yields_try_catch (body : M S A) (handler : exn -> N S A) :
  returns P body -> (forall e, yields P (handler e)) ->
  yields P (try_catch body handler).
Proof.
  intros Hb Hh s. unfold try_catch.
  destruct (body s) as [[[e|a] s1] t1] eqn:E.
  - specialize (Hh e s1). destruct (handler e s1) as [[a s2] t2]. exact Hh.
  - exact (Hb s a s1 t1 E).
Qed.

Lemma yields_finally (block : N S A) (finalizer : S -> N S unit) :
  yields P block -> yields P (finally block finalizer).
Proof.
  intros Hb s. unfold finally. specialize (Hb s).
  destruct (block s) as [[a s1] t1].
  destruct (finalizer s1 s1) as [[u s2] t2]. exact Hb.
Qed.

Lemma yields_run (init : S) (body : N S A) : yields P body -> P (fst (run init body)).
Proof.
  intros Hb. unfold run. specialize (Hb init).
  destruct (body init) as [[a s1] t1]. exact Hb.
Qed.

End BlockRules.

(** Peels a function body apart along its blocks. *)
Ltac blocks :=
  repeat match goal with
    | |- yields _ (finally _ _) => apply yields_finally
    | |- yields _ (try_catch _ _) => apply yields_try_catch; [|intros ?]
    | |- yields _ (returning _) => apply yields_returning
    | |- returns _ (ret _) => apply returns_ret
    | |- returns _ (throw _) => apply returns_throw
    | |- returns _ (await _) => apply returns_await
    | |- returns _ (bind _ _) => apply returns_bind; intros ?
    | |- returns _ (match ?x with _ => _ end) => destruct x
    end.

Ltac body := apply yields_run; blocks.

Lemma convertMarkdownToHtml_shaped (w : World) (markdown options : value) :
  well_shaped (fst (MarkdownToHtmlConverter.convertMarkdownToHtml w markdown options)).
Proof.
  unfold MarkdownToHtmlConverter.convertMarkdownToHtml.
  destruct (nonempty_string markdown); [|apply failure_shaped].
  body; auto with envelope.
Qed.

Lemma convertHtmlToPdf_shaped (w : World) (html options : value) :
  well_shaped (fst (HtmlToPdfConverter.convertHtmlToPdf w html options)).
Proof.
  unfold HtmlToPdfConverter.convertHtmlToPdf.
  destruct (nonempty_string html); [|apply failure_shaped].
  body; auto with envelope.
Qed.

Lemma convertUrlToPdf_shaped (w : World) (url options : value) :
  well_shaped (fst (HtmlToPdfConverter.convertUrlToPdf w url options)).
Proof.
  unfold HtmlToPdfConverter.convertUrlToPdf.
  destruct (nonempty_string url); [|apply failure_shaped].
  body; auto with envelope.
Qed.

Lemma convertHtmlToDocx_shaped (w : World) (html options : value) :
  well_shaped (fst (HtmlToDocxConverter.convertHtmlToDocx w html options)).
Proof.
  unfold HtmlToDocxConverter.convertHtmlToDocx.
  destruct (nonempty_string html); [|apply failure_shaped].
  body; auto with envelope.
Qed.

Lemma convertMarkdownToDocx_shaped (w : World) (markdown options : value) :
  well_shaped (fst (MarkdownToDocxConverter.convertMarkdownToDocx w markdown options)).
Proof.
  unfold MarkdownToDocxConverter.convertMarkdownToDocx.
  destruct (nonempty_string markdown); [|apply failure_shaped].
  body; auto with envelope.
Qed.

Lemma convertMarkdownToPdf_shaped (w : World) (markdown options : value) :
  well_shaped (fst (MarkdownToPdfConverter.convertMarkdownToPdf w markdown options)).
Proof.
  unfold MarkdownToPdfConverter.convertMarkdownToPdf.
  destruct (nonempty_string markdown); [|apply failure_shaped].
  body; auto with envelope.
Qed.

Lemma setMarkdownLength_shaped (r : MarkdownToPdfConverter.Result) (total : nat) :
  well_shaped r -> well_shaped (MarkdownToPdfConverter.setMarkdownLength r total).
Proof.
  unfold MarkdownToPdfConverter.setMarkdownLength, well_shaped.
  destruct r as [[|] d e [m|]]; cbn; auto.
Qed.

#[local] Hint Resolve convertMarkdownToHtml_shaped convertHtmlToPdf_shaped
  convertUrlToPdf_shaped convertHtmlToDocx_shaped convertMarkdownToDocx_shaped
  convertMarkdownToPdf_shaped setMarkdownLength_shaped : envelope.

(** C9: every result returned by a converter operation has exactly one of
    data and error, as its success flag says: with [success = true] the
    data is present and the error absent, with [success = false] the
    error is present and the data absent.  This holds for all thirteen
    operations, whatever the collaborators do. *)
Theorem results_are_well_shaped (w : World) :
  (forall markdown options,
      well_shaped (fst (MarkdownToHtmlConverter.convertMarkdownToHtml w markdown options)))
  /\ (forall filePath options,
         well_shaped
           (fst (MarkdownToHtmlConverter.convertMarkdownFileToHtml w filePath options)))
  /\ (forall html options,
         well_shaped (fst (HtmlToPdfConverter.convertHtmlToPdf w html options)))
  /\ (forall filePath options,
         well_shaped (fst (HtmlToPdfConverter.convertHtmlFileToPdf w filePath options)))
  /\ (forall url options,
         well_shaped (fst (HtmlToPdfConverter.convertUrlToPdf w url options)))
  /\ (forall html options,
         well_shaped (fst (HtmlToDocxConverter.convertHtmlToDocx w html options)))
  /\ (forall filePath options,
         well_shaped (fst (HtmlToDocxConverter.convertHtmlFileToDocx w filePath options)))
  /\ (forall url options,
         well_shaped (fst (HtmlToDocxConverter.convertUrlToDocx w url options)))
  /\ (forall markdown options,
         well_shaped (fst (MarkdownToPdfConverter.convertMarkdownToPdf w markdown options)))
  /\ (forall filePath options,
         well_shaped
           (fst (MarkdownToPdfConverter.convertMarkdownFileToPdf w filePath options)))
  /\ (forall markdownContents options,
         well_shaped
           (fst (MarkdownToPdfConverter.convertMultipleMarkdownToPdf
                   w markdownContents options)))
  /\ (forall markdown options,
         well_shaped
           (fst (MarkdownToDocxConverter.convertMarkdownToDocx w markdown options)))
  /\ (forall filePath options,
         well_shaped
           (fst (MarkdownToDocxConverter.convertMarkdownFileToDocx w filePath options))).
Proof.
  repeat split; intros; auto with envelope.
  - unfold MarkdownToHtmlConverter.convertMarkdownFileToHtml.
    body; auto with envelope.
  - unfold HtmlToPdfConverter.convertHtmlFileToPdf. body; auto with envelope.
  - unfold HtmlToDocxConverter.convertHtmlFileToDocx. body; auto with envelope.
  - unfold HtmlToDocxConverter.convertUrlToDocx.
    destruct (nonempty_string url); [|apply failure_shaped].
    body; auto with envelope.
  - unfold MarkdownToPdfConverter.convertMarkdownFileToPdf. body; auto with envelope.
  - unfold MarkdownToPdfConverter.convertMultipleMarkdownToPdf.
    destruct (Nat.eqb _ 0); [apply failure_shaped|].
    apply yields_run, yields_try_catch; [|intros ?; blocks; auto with envelope].
    destruct (MarkdownToPdfConverter.combineFrom _ _ _ _ _) as [message|[combined total]];
      [blocks; auto with envelope|].
    apply returns_bind_with with (Q := well_shaped).
    + apply returns_await. auto with envelope.
    + intros result Hresult. apply returns_ret. auto with envelope.
  - unfold MarkdownToDocxConverter.convertMarkdownFileToDocx.
    body; auto with envelope.
Qed.

(* ================================================================== *)
(** ** What a successful Markdown-to-HTML stage reports *)
(* ================================================================== *)

Lemma nonempty_string_inv (v : value) (text : string) :
  nonempty_string v = Some text -> v = VStr text /\ text <> ""%string.
Proof.
  destruct v; cbn; try discriminate.
  destruct (String.eqb_spec s ""); [discriminate|].
  intros H. inversion H; subst. now split.
Qed.

Lemma nonempty_string_VStr (text : string) :
  text <> ""%string -> nonempty_string (VStr text) = Some text.
Proof.
  intros H. cbn. destruct (String.eqb_spec text ""); [contradiction|reflexivity].
Qed.

Lemma length_nonempty (text : string) : text <> ""%string -> String.length text <> 0.
Proof. destruct text; [congruence|discriminate]. Qed.

Lemma number_or_positive (n fallback : nat) : n <> 0 -> number_or (Some n) fallback = n.
Proof. destruct n; [congruence|reflexivity]. Qed.

Lemma usable_text_inv {Meta} (r : ConversionResult string Meta) (html : string) :
  usable_text r = Some html ->
  success r = true /\ data r = Some html /\ html <> ""%string.
Proof.
  unfold usable_text. destruct (success r); [|discriminate].
  destruct (data r) as [d|]; [|discriminate].
  destruct (String.eqb_spec d ""); [discriminate|].
  intros H. inversion H; subst. auto.
Qed.

Lemma usable_text_failed {Meta} (r : ConversionResult string Meta) :
  success r = false -> usable_text r = None.
Proof. unfold usable_text. now intros ->. Qed.

Lemma usable_buffer_failed {Meta} (r : ConversionResult Buffer Meta) :
  success r = false -> usable_buffer r = None.
Proof. unfold usable_buffer. now intros ->. Qed.

(** A successful stage result carries the HTML and both lengths. *)
Lemma convertMarkdownToHtml_success (w : World) (text : string) (options : value) :
  reports_lengths text
    (fst (MarkdownToHtmlConverter.convertMarkdownToHtml w (VStr text) options)).
Proof.
  unfold MarkdownToHtmlConverter.convertMarkdownToHtml.
  destruct (nonempty_string (VStr text)) as [text'|] eqn:Hmd; [|discriminate].
  apply nonempty_string_inv in Hmd. destruct Hmd as [E Hne].
  inversion E; subst text'. cbv zeta.
  apply (yields_run (reports_lengths text)); blocks;
    unfold reports_lengths; intros Hok;
    try discriminate Hok.
  all: do 2 eexists; reflexivity.
Qed.

(* ================================================================== *)
(** ** Metadata of Markdown to DOCX *)
(* ================================================================== *)

(** C3: on every successful Markdown-to-DOCX conversion the metadata
    reports the length of the input Markdown as [originalLength] and the
    length of the HTML produced by the Markdown-to-HTML stage (before any
    document wrapping) as [htmlLength]. *)
Theorem docx_metadata_lengths (w : World) (markdown options : value) :
  let r := fst (MarkdownToDocxConverter.convertMarkdownToDocx w markdown options) in
  success r = true ->
  exists text validated html m,
    markdown = VStr text
    /\ safeParse MarkdownToDocxOptionsSchema options = ParseOk validated
    /\ data (fst (MarkdownToHtmlConverter.convertMarkdownToHtml w (VStr text)
                    (MarkdownToDocxConverter.markdownOptions
                       (or_else validated (VObj [])))))
       = Some html
    /\ metadata r = Some m
    /\ MarkdownToDocxConverter.originalLength m = String.length text
    /\ MarkdownToDocxConverter.htmlLength m = String.length html.
Proof.
  unfold MarkdownToDocxConverter.convertMarkdownToDocx.
  destruct (nonempty_string markdown) as [text|] eqn:Hmd; [|discriminate].
  apply nonempty_string_inv in Hmd. destruct Hmd as [-> Hne].
  destruct (safeParse MarkdownToDocxOptionsSchema options) as [validated|issues]
    eqn:Hparse; [|discriminate].
  cbv zeta. run_blocks.
  pose proof (convertMarkdownToHtml_success w text
                (MarkdownToDocxConverter.markdownOptions (or_else validated (VObj []))))
    as Hstage.
  destruct (MarkdownToHtmlConverter.convertMarkdownToHtml w (VStr text) _)
    as [htmlResult t1] eqn:Estage.
  cbn [fst snd] in *.
  destruct (usable_text htmlResult) as [html|] eqn:Husable; [|discriminate].
  apply usable_text_inv in Husable. destruct Husable as [Hok [Hdata Hhtml]].
  destruct (Hstage Hok) as [html' [cleaned Eresult]].
  destruct (HtmlToDocxConverter.convertHtmlToDocx w _ _) as [docxResult t2].
  cbn [fst snd].
  destruct (usable_buffer docxResult) as [bytes|]; [|discriminate].
  cbn [fst success metadata succeeded]. intros _.
  exists text, validated, html. eexists.
  split; [reflexivity|]. split; [reflexivity|].
  split; [rewrite Estage; exact Hdata|].
  split; [reflexivity|].
  subst htmlResult. cbn in Hdata. inversion Hdata; subst html'. cbn. split.
  - apply number_or_positive, length_nonempty, Hne.
  - apply number_or_positive, length_nonempty, Hhtml.
Qed.

Lemma docx_metadata_lengths_witness :
  exists m,
    metadata (fst (MarkdownToDocxConverter.convertMarkdownToDocx sample_world
                     (VStr "# Hi") (VObj [("title", VStr "Report")])))
    = Some m
    /\ MarkdownToDocxConverter.originalLength m = 4
    /\ MarkdownToDocxConverter.htmlLength m = 11.
Proof.
  destruct (docx_metadata_lengths sample_world (VStr "# Hi")
              (VObj [("title", VStr "Report")]) eq_refl)
    as [text [validated [html [m [Etext [Eparse [Ehtml [Em [Hol Hhl]]]]]]]]].
  exists m. inversion Etext; subst text.
  vm_compute in Eparse. inversion Eparse; subst validated.
  vm_compute in Ehtml. inversion Ehtml; subst html.
  repeat split; assumption.
Defined.

(* ================================================================== *)
(** ** Stages inside a pipeline: options are valid, failures are thrown errors *)
(* ================================================================== *)

Lemma safeParse_optional_object_inv (sh : list (string * schema)) (v d : value) :
  safeParse (opt (ZObject sh)) v = ParseOk d ->
  v = VUndefined \/ exists fields, v = VObj fields.
Proof.
  destruct v; try (intros H; vm_compute in H; discriminate); eauto.
Qed.

(** Options rebuilt from validated options, key by key, validate against
    any schema that declares those keys with the same field schemas. *)
Lemma rebuilt_options_valid (sh sh' : list (string * schema))
  (fields out rebuilt : list (string * value)) :
  well_formed (ZObject sh) = true ->
  safeParse (opt (ZObject sh)) (VObj fields) = ParseOk (VObj out) ->
  incl sh' sh ->
  (forall k sk, In (k, sk) sh' -> get_prop k rebuilt = get_prop k out) ->
  exists d, safeParse (opt (ZObject sh')) (VObj rebuilt) = ParseOk d.
Proof.
  intros Hwf Hparse Hincl Hsame.
  apply well_formed_object in Hwf. destruct Hwf as [Hd Hall].
  destruct (safeParse_object_ok sh fields _ Hd Hparse) as [out' [E Hfields]].
  inversion E; subst out'.
  rewrite safeParse_object.
  assert (Hvalid : snd (parse_shape rebuilt [] sh') = []).
  { apply parse_shape_valid. rewrite Forall_forall. intros [k sk] Hin.
    cbn [fst snd app].
    rewrite (Hsame k sk Hin).
    destruct (Hfields k sk (Hincl _ Hin)) as [Hok Hget]. rewrite Hget.
    rewrite Forall_forall in Hall.
    rewrite (parse_again sk (Hall (k, sk) (Hincl _ Hin)) _ _ Hok [PKey k]).
    reflexivity. }
  destruct (parse_shape rebuilt [] sh') as [ds iss]. cbn in Hvalid. subst iss.
  eauto.
Qed.

Lemma docx_markdownOptions_valid (options validated : value) :
  safeParse MarkdownToDocxOptionsSchema options = ParseOk validated ->
  exists d,
    safeParse MarkdownToHtmlOptionsSchema
      (MarkdownToDocxConverter.markdownOptions (or_else validated (VObj [])))
    = ParseOk d.
Proof.
  intros Hparse.
  destruct (safeParse_optional_object_inv _ _ _ Hparse) as [-> | [fields ->]].
  - vm_compute in Hparse. inversion Hparse; subst. eexists. vm_compute. reflexivity.
  - destruct (safeParse_object_shape _ _ _ Hparse) as [out ->].
    apply (rebuilt_options_valid MarkdownToDocxOptions_shape _ fields out);
      [reflexivity|exact Hparse| |].
    + intros x Hx. cbn in Hx |- *. tauto.
    + intros k sk Hin. cbn in Hin.
      repeat (destruct Hin as [Hin|Hin]; [inversion Hin; subst; reflexivity|]).
      destruct Hin.
Qed.

Lemma docx_docxOptions_valid (options validated : value) :
  safeParse MarkdownToDocxOptionsSchema options = ParseOk validated ->
  exists d,
    safeParse HtmlToDocxOptionsSchema
      (MarkdownToDocxConverter.docxOptions (or_else validated (VObj [])))
    = ParseOk d.
Proof.
  intros Hparse.
  destruct (safeParse_optional_object_inv _ _ _ Hparse) as [-> | [fields ->]].
  - vm_compute in Hparse. inversion Hparse; subst. eexists. vm_compute. reflexivity.
  - destruct (safeParse_object_shape _ _ _ Hparse) as [out ->].
    apply (rebuilt_options_valid MarkdownToDocxOptions_shape _ fields out);
      [reflexivity|exact Hparse| |].
    + intros x Hx. cbn in Hx |- *. tauto.
    + intros k sk Hin. cbn in Hin.
      repeat (destruct Hin as [Hin|Hin]; [inversion Hin; subst; reflexivity|]).
      destruct Hin.
Qed.

(** A validated sub-object of the Markdown-to-PDF options validates against
    the schema of its stage. *)
Lemma pdf_stage_options_valid (options validated : value) (k : string)
  (sh : list (string * schema)) :
  In (k, opt (ZObject sh)) MarkdownToPdfOptions_shape ->
  safeParse MarkdownToPdfOptionsSchema options = ParseOk validated ->
  exists d, safeParse (opt (ZObject sh)) (prop (or_else validated (VObj [])) k)
            = ParseOk d.
Proof.
  intros Hin Hparse.
  assert (Hwf : well_formed (opt (ZObject sh)) = true).
  { cbn in Hin. repeat (destruct Hin as [Hin|Hin];
      [inversion Hin; subst; reflexivity|]). destruct Hin. }
  destruct (safeParse_optional_object_inv _ _ _ Hparse) as [-> | [fields ->]].
  - vm_compute in Hparse. inversion Hparse; subst. eexists. reflexivity.
  - destruct (safeParse_object_ok MarkdownToPdfOptions_shape fields _ eq_refl Hparse)
      as [out [-> Hfields]].
    destruct (Hfields _ _ Hin) as [Hok Hget].
    cbn [or_else truthy prop]. rewrite Hget. unfold safeParse.
    rewrite (parse_again _ Hwf _ _ Hok []). eauto.
Qed.

Lemma convertMarkdownToHtml_fails_with (w : World) (text : string)
  (options d : value) :
  text <> ""%string ->
  safeParse MarkdownToHtmlOptionsSchema options = ParseOk d ->
  fails_with "Markdown conversion failed: "
    (fst (MarkdownToHtmlConverter.convertMarkdownToHtml w (VStr text) options)).
Proof.
  intros Hne Hparse. unfold MarkdownToHtmlConverter.convertMarkdownToHtml.
  rewrite (nonempty_string_VStr text Hne), Hparse. cbv zeta.
  apply (yields_run (fails_with "Markdown conversion failed: ")); blocks;
    unfold fails_with; intros H; try discriminate H; eexists; reflexivity.
Qed.

Lemma convertHtmlToDocx_fails_with (w : World) (html : string) (options d : value) :
  html <> ""%string ->
  safeParse HtmlToDocxOptionsSchema options = ParseOk d ->
  fails_with "DOCX generation failed: "
    (fst (HtmlToDocxConverter.convertHtmlToDocx w (VStr html) options)).
Proof.
  intros Hne Hparse. unfold HtmlToDocxConverter.convertHtmlToDocx.
  rewrite (nonempty_string_VStr html Hne), Hparse. cbv zeta.
  apply (yields_run (fails_with "DOCX generation failed: ")); blocks;
    unfold fails_with; intros H; try discriminate H; eexists; reflexivity.
Qed.

Lemma convertHtmlToPdf_fails_with (w : World) (html : string) (options d : value) :
  html <> ""%string ->
  safeParse HtmlToPdfOptionsSchema options = ParseOk d ->
  fails_with "PDF generation failed: "
    (fst (HtmlToPdfConverter.convertHtmlToPdf w (VStr html) options)).
Proof.
  intros Hne Hparse. unfold HtmlToPdfConverter.convertHtmlToPdf.
  rewrite (nonempty_string_VStr html Hne), Hparse. cbv zeta.
  apply (yields_run (fails_with "PDF generation failed: ")); blocks;
    unfold fails_with; intros H; try discriminate H; eexists; reflexivity.
Qed.

(** The Markdown-to-HTML stage calls the parser and the sanitizer only. *)
Lemma convertMarkdownToHtml_calls (w : World) (markdown options : value) :
  forallb is_markdown_call
    (snd (MarkdownToHtmlConverter.convertMarkdownToHtml w markdown options)) = true.
Proof.
  unfold MarkdownToHtmlConverter.convertMarkdownToHtml.
  destruct (nonempty_string markdown) as [text|]; [|reflexivity].
  destruct (safeParse MarkdownToHtmlOptionsSchema options) as [validated|issues];
    [|reflexivity].
  cbv zeta. run_blocks.
  destruct (marked_parse w _ text) as [e|html]; [reflexivity|].
  destruct (truthy _); [|reflexivity].
  destruct (sanitizeHtml w html _); reflexivity.
Qed.

Lemma createFullHtmlDocument_nonempty (htmlContent : string)
  (title cssStyles : option string) :
  MarkdownToHtmlConverter.createFullHtmlDocument htmlContent title cssStyles
  <> ""%string.
Proof.
  unfold MarkdownToHtmlConverter.createFullHtmlDocument, lines.
  cbn [Str.join]. discriminate.
Qed.

Lemma docx_documentHtml_nonempty (opts : value) (html : string) :
  html <> ""%string -> MarkdownToDocxConverter.documentHtml opts html <> ""%string.
Proof.
  intros H. unfold MarkdownToDocxConverter.documentHtml.
  destruct (is_not_false _); [apply createFullHtmlDocument_nonempty|exact H].
Qed.

Lemma pdf_documentHtml_nonempty (opts : value) (html : string) :
  html <> ""%string -> MarkdownToPdfConverter.documentHtml opts html <> ""%string.
Proof.
  intros H. unfold MarkdownToPdfConverter.documentHtml.
  destruct (is_not_false _); [apply createFullHtmlDocument_nonempty|exact H].
Qed.

(* ================================================================== *)
(** ** Pipelines stop at the first failing stage *)
(* ================================================================== *)

(** C2: in both composers a failing stage ends the pipeline at once.  If
    the Markdown-to-HTML stage fails, the composer returns a failure
    without data and makes no call beyond those of that stage (parser and
    sanitizer only); if the emission stage fails, the composer returns a
    failure without data after the calls of the two stages.  The message
    begins with the name of the failed stage: the PDF composer puts
    "Markdown to HTML conversion failed: " or "HTML to PDF conversion
    failed: " before the message of the stage; the DOCX composer returns
    the message of the stage itself, which begins with "Markdown
    conversion failed: " or "DOCX generation failed: ". *)
Theorem pipeline_short_circuits (w : World) (text : string) :
  text <> ""%string ->
  (forall options validated,
      safeParse MarkdownToPdfOptionsSchema options = ParseOk validated ->
      let opts := or_else validated (VObj []) in
      let stage1 :=
        MarkdownToHtmlConverter.convertMarkdownToHtml w (VStr text)
          (prop opts "markdownOptions") in
      (success (fst stage1) = false ->
       exists e,
         error (fst stage1) = Some ("Markdown conversion failed: " ++ errorMessage e)%string
         /\ MarkdownToPdfConverter.convertMarkdownToPdf w (VStr text) options
            = (failure ("Markdown to HTML conversion failed: "
                          ++ "Markdown conversion failed: " ++ errorMessage e)%string,
               snd stage1)
         /\ forallb is_markdown_call (snd stage1) = true)
      /\ (forall stageHtml,
             usable_text (fst stage1) = Some stageHtml ->
             let stage2 :=
               HtmlToPdfConverter.convertHtmlToPdf w
                 (VStr (MarkdownToPdfConverter.documentHtml opts stageHtml))
                 (prop opts "pdfOptions") in
             success (fst stage2) = false ->
             exists e,
               error (fst stage2) = Some ("PDF generation failed: " ++ errorMessage e)%string
               /\ MarkdownToPdfConverter.convertMarkdownToPdf w (VStr text) options
                  = (failure ("HTML to PDF conversion failed: "
                                ++ "PDF generation failed: " ++ errorMessage e)%string,
                     snd stage1 ++ snd stage2)))
  /\ (forall options validated,
         safeParse MarkdownToDocxOptionsSchema options = ParseOk validated ->
         let opts := or_else validated (VObj []) in
         let stage1 :=
           MarkdownToHtmlConverter.convertMarkdownToHtml w (VStr text)
             (MarkdownToDocxConverter.markdownOptions opts) in
         (success (fst stage1) = false ->
          exists e,
            error (fst stage1)
            = Some ("Markdown conversion failed: " ++ errorMessage e)%string
            /\ MarkdownToDocxConverter.convertMarkdownToDocx w (VStr text) options
               = (failure ("Markdown conversion failed: " ++ errorMessage e)%string,
                  snd stage1)
            /\ forallb is_markdown_call (snd stage1) = true)
         /\ (forall stageHtml,
                usable_text (fst stage1) = Some stageHtml ->
                let stage2 :=
                  HtmlToDocxConverter.convertHtmlToDocx w
                    (VStr (MarkdownToDocxConverter.documentHtml opts stageHtml))
                    (MarkdownToDocxConverter.docxOptions opts) in
                success (fst stage2) = false ->
                exists e,
                  error (fst stage2)
                  = Some ("DOCX generation failed: " ++ errorMessage e)%string
                  /\ MarkdownToDocxConverter.convertMarkdownToDocx w (VStr text) options
                     = (failure ("DOCX generation failed: " ++ errorMessage e)%string,
                        snd stage1 ++ snd stage2))).
Proof.
  intros Hne. split.
  - intros options validated Hparse opts stage1.
    destruct (pdf_stage_options_valid options validated "markdownOptions"
                MarkdownToHtmlOptions_shape ltac:(cbn; tauto) Hparse) as [d1 Hd1].
    destruct (pdf_stage_options_valid options validated "pdfOptions"
                HtmlToPdfOptions_shape ltac:(cbn; tauto) Hparse) as [d2 Hd2].
    fold opts in Hd1, Hd2.
    pose proof (convertMarkdownToHtml_fails_with w text _ d1 Hne Hd1) as Hfail1.
    pose proof (convertMarkdownToHtml_calls w (VStr text) (prop opts "markdownOptions"))
      as Hcalls.
    fold stage1 in Hfail1, Hcalls.
    assert (Hcomposer :
      MarkdownToPdfConverter.convertMarkdownToPdf w (VStr text) options
      = run tt
          (try_catch
             (htmlResult <- await stage1 ;;
              match usable_text htmlResult with
              | None =>
                  ret (failure ("Markdown to HTML conversion failed: "
                                  ++ interpolate (error htmlResult))%string)
              | Some stageHtml =>
                  let html := MarkdownToPdfConverter.documentHtml opts stageHtml in
                  pdfResult <-
                    await (HtmlToPdfConverter.convertHtmlToPdf
                             w (VStr html) (prop opts "pdfOptions")) ;;
                  match usable_buffer pdfResult with
                  | None =>
                      ret (failure ("HTML to PDF conversion failed: "
                                      ++ interpolate (error pdfResult))%string)
                  | Some bytes =>
                      ret (succeeded bytes
                             {| MarkdownToPdfConverter.markdownLength := String.length text;
                                MarkdownToPdfConverter.htmlLength := String.length html;
                                MarkdownToPdfConverter.pdfSize := List.length bytes;
                                MarkdownToPdfConverter.sanitized :=
                                  match metadata htmlResult with
                                  | Some m => MarkdownToHtmlConverter.sanitized m
                                  | None => false
                                  end |})
                  end
              end)
             (fun error =>
                returning
                  (failure ("Markdown to PDF conversion failed: "
                              ++ errorMessage error)%string)))).
    { unfold MarkdownToPdfConverter.convertMarkdownToPdf.
      now rewrite (nonempty_string_VStr text Hne), Hparse. }
    rewrite Hcomposer. clear Hcomposer. run_blocks.
    destruct stage1 as [r1 t1]. cbn [fst snd] in *. split.
    + intros Hfailed. destruct (Hfail1 Hfailed) as [e ->].
      exists e. cbn. rewrite app_nil_r. auto.
    + intros stageHtml Husable Hfailed.
      rewrite Husable. cbv zeta.
      destruct (usable_text_inv _ _ Husable) as [_ [_ Hhtml]].
      pose proof (convertHtmlToPdf_fails_with w _ (prop opts "pdfOptions") d2
                    (pdf_documentHtml_nonempty opts stageHtml Hhtml) Hd2) as Hfail2.
      destruct (HtmlToPdfConverter.convertHtmlToPdf w _ _) as [r2 t2].
      cbn [fst snd] in *.
      destruct (Hfail2 Hfailed) as [e ->].
      exists e. cbn. rewrite app_nil_r. auto.
  - intros options validated Hparse opts stage1.
    destruct (docx_markdownOptions_valid options validated Hparse) as [d1 Hd1].
    destruct (docx_docxOptions_valid options validated Hparse) as [d2 Hd2].
    fold opts in Hd1, Hd2.
    pose proof (convertMarkdownToHtml_fails_with w text _ d1 Hne Hd1) as Hfail1.
    pose proof (convertMarkdownToHtml_calls w (VStr text)
                  (MarkdownToDocxConverter.markdownOptions opts)) as Hcalls.
    fold stage1 in Hfail1, Hcalls.
    unfold MarkdownToDocxConverter.convertMarkdownToDocx.
    rewrite (nonempty_string_VStr text Hne), Hparse. cbv zeta.
    fold opts. fold stage1. run_blocks.
    destruct stage1 as [r1 t1]. cbn [fst snd] in *. split.
    + intros Hfailed. destruct (Hfail1 Hfailed) as [e ->].
      exists e. cbn. rewrite app_nil_r. auto.
    + intros stageHtml Husable Hfailed.
      rewrite Husable.
      destruct (usable_text_inv _ _ Husable) as [_ [_ Hhtml]].
      pose proof (convertHtmlToDocx_fails_with w _
                    (MarkdownToDocxConverter.docxOptions opts) d2
                    (docx_documentHtml_nonempty opts stageHtml Hhtml) Hd2) as Hfail2.
      destruct (HtmlToDocxConverter.convertHtmlToDocx w _ _) as [r2 t2].
      cbn [fst snd] in *.
      destruct (Hfail2 Hfailed) as [e ->].
      exists e. cbn. rewrite app_nil_r. auto.
Qed.

Lemma pipeline_short_circuits_witness :
  (exists e,
      MarkdownToPdfConverter.convertMarkdownToPdf failing_parser_world
        (VStr "# Hi") VUndefined
      = (failure ("Markdown to HTML conversion failed: "
                    ++ "Markdown conversion failed: " ++ errorMessage e)%string,
         [EMarkedSetOptions {| breaks := false; gfm := true; pedantic := false |};
          EMarkedParse "# Hi"]))
  /\ (exists e,
         MarkdownToPdfConverter.convertMarkdownToPdf failing_render_world
           (VStr "# Hi") (VObj [("documentOptions", VObj [("fullDocument", VBool false)])])
         = (failure ("HTML to PDF conversion failed: "
                       ++ "PDF generation failed: " ++ errorMessage e)%string,
            [EMarkedSetOptions {| breaks := false; gfm := true; pedantic := false |};
             EMarkedParse "# Hi";
             ELaunch; ENewPage 7; ESetContent 1 "<p># Hi</p>";
             EPdf 1 HtmlToPdfConverter.DEFAULT_OPTIONS; EClose 7]))
  /\ (exists e,
         MarkdownToDocxConverter.convertMarkdownToDocx failing_parser_world
           (VStr "# Hi") VUndefined
         = (failure ("Markdown conversion failed: " ++ errorMessage e)%string,
            [EMarkedSetOptions {| breaks := false; gfm := true; pedantic := false |};
             EMarkedParse "# Hi"]))
  /\ (exists e,
         MarkdownToDocxConverter.convertMarkdownToDocx failing_emitter_world
           (VStr "# Hi") (VObj [("fullDocument", VBool false)])
         = (failure ("DOCX generation failed: " ++ errorMessage e)%string,
            [EMarkedSetOptions {| breaks := false; gfm := true; pedantic := false |};
             EMarkedParse "# Hi";
             EAsBlob "<p># Hi</p>" []])).
Proof.
  assert (Hne : "# Hi"%string <> ""%string) by discriminate.
  split; [|split; [|split]].
  - destruct (proj1 (pipeline_short_circuits failing_parser_world "# Hi" Hne)
                VUndefined VUndefined eq_refl) as [Hfirst _].
    destruct (Hfirst eq_refl) as [e [_ [Hcall _]]].
    exists e. exact Hcall.
  - destruct (proj1 (pipeline_short_circuits failing_render_world "# Hi" Hne)
                (VObj [("documentOptions", VObj [("fullDocument", VBool false)])])
                (VObj [("documentOptions", VObj [("fullDocument", VBool false)])])
                eq_refl) as [_ Hsecond].
    destruct (Hsecond "<p># Hi</p>"%string eq_refl eq_refl) as [e [_ Hcall]].
    exists e. exact Hcall.
  - destruct (proj2 (pipeline_short_circuits failing_parser_world "# Hi" Hne)
                VUndefined VUndefined eq_refl) as [Hfirst _].
    destruct (Hfirst eq_refl) as [e [_ [Hcall _]]].
    exists e. exact Hcall.
  - destruct (proj2 (pipeline_short_circuits failing_emitter_world "# Hi" Hne)
                (VObj [("fullDocument", VBool false)])
                (VObj [("fullDocument", VBool false)]) eq_refl) as [_ Hsecond].
    destruct (Hsecond "<p># Hi</p>"%string eq_refl eq_refl) as [e [_ Hcall]].
    exists e. exact Hcall.
Defined.

(* ================================================================== *)
(** ** The batch of Markdown documents *)
(* ================================================================== *)

Lemma valid_content_text (e : MarkdownToPdfConverter.MarkdownContent) :
  valid_content e ->
  nonempty_string (MarkdownToPdfConverter.content e) = Some (content_text e).
Proof.
  intros [text [Hc Hne]]. unfold content_text. rewrite Hc.
  now apply nonempty_string_VStr.
Qed.

Lemma combined_document_one (e : MarkdownToPdfConverter.MarkdownContent) :
  combined_document [e] = rendered_entry e.
Proof. reflexivity. Qed.

Lemma combined_document_more (e e2 : MarkdownToPdfConverter.MarkdownContent)
  (rest : list MarkdownToPdfConverter.MarkdownContent) :
  combined_document (e :: e2 :: rest)
  = (rendered_entry e ++ page_break_marker ++ combined_document (e2 :: rest))%string.
Proof. reflexivity. Qed.

(** The heading the loop writes is the H1 heading line of the title. *)
Lemma heading_rendered (e : MarkdownToPdfConverter.MarkdownContent) :
  (MarkdownToPdfConverter.heading (MarkdownToPdfConverter.title e) ++ content_text e)%string
  = rendered_entry e.
Proof.
  unfold rendered_entry, MarkdownToPdfConverter.heading, h1_heading.
  destruct (MarkdownToPdfConverter.title e) as [t|]; [|reflexivity].
  destruct (String.eqb t ""); [reflexivity|]. now rewrite !sapp_assoc.
Qed.

(** The marker the loop writes is the page-break marker. *)
Lemma pageBreak_marker : MarkdownToPdfConverter.pageBreak = page_break_marker.
Proof. reflexivity. Qed.

Lemma total_content_length_cons (e : MarkdownToPdfConverter.MarkdownContent)
  (rest : list MarkdownToPdfConverter.MarkdownContent) :
  total_content_length (e :: rest)
  = String.length (content_text e) + total_content_length rest.
Proof. reflexivity. Qed.

(** The loop builds the described document and sums the content lengths. *)
Lemma combineFrom_valid (count : nat) (rest : list MarkdownToPdfConverter.MarkdownContent) :
  forall i acc total,
    i + List.length rest = count ->
    Forall valid_content rest ->
    MarkdownToPdfConverter.combineFrom count i rest acc total
    = inr ((acc ++ combined_document rest)%string, total + total_content_length rest).
Proof.
  induction rest as [|e rest IH]; intros i acc total Hcount Hvalid.
  - cbn. now rewrite sapp_nil_r, Nat.add_0_r.
  - inversion Hvalid as [|e' rest' He Hrest]; subst e' rest'.
    cbn [MarkdownToPdfConverter.combineFrom].
    rewrite (valid_content_text e He).
    cbn [List.length] in Hcount.
    rewrite IH; [|lia|assumption].
    rewrite total_content_length_cons.
    destruct rest as [|e2 rest].
    + replace (Nat.ltb i (count - 1)) with false
        by (symmetry; apply Nat.ltb_ge; cbn in Hcount; lia).
      rewrite combined_document_one, <- heading_rendered.
      change (combined_document []) with ""%string.
      rewrite !sapp_nil_r, !sapp_assoc. do 2 f_equal. lia.
    + replace (Nat.ltb i (count - 1)) with true
        by (symmetry; apply Nat.ltb_lt; cbn in Hcount; lia).
      rewrite (combined_document_more e), <- heading_rendered, pageBreak_marker.
      rewrite !sapp_assoc. do 2 f_equal. lia.
Qed.

(** The loop stops at the first invalid entry and names its index. *)
Lemma combineFrom_invalid (count : nat) (rest : list MarkdownToPdfConverter.MarkdownContent) :
  forall i j acc total,
    first_invalid rest = Some j ->
    MarkdownToPdfConverter.combineFrom count i rest acc total
    = inl ("Invalid markdown content at index " ++ Str.of_nat (i + j)
             ++ ": content must be a non-empty string")%string.
Proof.
  induction rest as [|e rest IH]; intros i j acc total Hj; [discriminate|].
  cbn in Hj |- *.
  destruct (nonempty_string (MarkdownToPdfConverter.content e)) as [text|].
  - destruct (first_invalid rest) as [j'|]; [|discriminate].
    inversion Hj; subst j.
    rewrite (IH (S i) j' _ _ eq_refl). now rewrite Nat.add_succ_comm.
  - inversion Hj; subst j. now rewrite Nat.add_0_r.
Qed.

Lemma convertMarkdownToPdf_has_metadata (w : World) (markdown options : value) :
  has_metadata (fst (MarkdownToPdfConverter.convertMarkdownToPdf w markdown options)).
Proof.
  unfold MarkdownToPdfConverter.convertMarkdownToPdf.
  destruct (nonempty_string markdown); [|discriminate].
  apply (yields_run has_metadata); blocks; unfold has_metadata; cbn;
    intros H; discriminate.
Qed.

(** C5: for a non-empty batch whose contents are all non-empty strings,
    the document handed to the single-document pipeline is the entries in
    order, each as its H1 heading line [# title] and a blank line (when
    it has a non-empty title) followed by its content, with the
    page-break marker (an empty block styled [page-break-after: always]
    between blank lines) between consecutive entries and none after the
    last; the result is that of the pipeline, and on success its
    [markdownLength] is the sum of the content lengths.  If instead some content is empty or not a string,
    the call fails, before any external call, with a message naming the
    index of the first such entry. *)
Theorem batch_markdown_to_pdf (w : World)
  (markdownContents : list MarkdownToPdfConverter.MarkdownContent) (options : value) :
  markdownContents <> [] ->
  let batch :=
    MarkdownToPdfConverter.convertMultipleMarkdownToPdf w markdownContents options in
  (Forall valid_content markdownContents ->
   let single :=
     MarkdownToPdfConverter.convertMarkdownToPdf w
       (VStr (combined_document markdownContents)) options in
   batch = (MarkdownToPdfConverter.setMarkdownLength (fst single)
              (total_content_length markdownContents),
            snd single)
   /\ (success (fst batch) = true ->
       exists m,
         metadata (fst batch) = Some m
         /\ MarkdownToPdfConverter.markdownLength m
            = total_content_length markdownContents))
  /\ (forall i,
         first_invalid markdownContents = Some i ->
         batch = (failure ("Invalid markdown content at index " ++ Str.of_nat i
                             ++ ": content must be a non-empty string")%string,
                  [])).
Proof.
  intros Hne batch. subst batch.
  unfold MarkdownToPdfConverter.convertMultipleMarkdownToPdf.
  destruct markdownContents as [|e rest]; [contradiction|].
  change (Nat.eqb (List.length (e :: rest)) 0) with false. cbv iota. split.
  - intros Hvalid. cbv zeta.
    rewrite (combineFrom_valid (List.length (e :: rest)) (e :: rest) 0 "" 0
               eq_refl Hvalid).
    cbn [String.append Nat.add].
    pose proof (convertMarkdownToPdf_has_metadata w
                  (VStr (combined_document (e :: rest))) options) as Hmeta.
    run_blocks.
    destruct (MarkdownToPdfConverter.convertMarkdownToPdf w _ options) as [r t].
    cbn [fst snd] in *.
    rewrite !app_nil_r. split; [reflexivity|].
    unfold MarkdownToPdfConverter.setMarkdownLength, has_metadata in *.
    destruct (success r) eqn:Hs; [|intros Hs'; cbn in Hs'; congruence].
    destruct (metadata r) as [m|]; [|exfalso; now apply Hmeta].
    cbn. eauto.
  - intros i Hi.
    rewrite (combineFrom_invalid (List.length (e :: rest)) (e :: rest) 0 i "" 0 Hi).
    reflexivity.
Qed.

Lemma batch_markdown_to_pdf_witness :
  let sections :=
    [ {| MarkdownToPdfConverter.content := VStr "A";
         MarkdownToPdfConverter.title := None |};
      {| MarkdownToPdfConverter.content := VStr "B";
         MarkdownToPdfConverter.title := Some "Two"%string |} ] in
  let single :=
    MarkdownToPdfConverter.convertMarkdownToPdf sample_world
      (VStr ("A" ++ nl ++ nl ++ "<div style=" ++ dq "page-break-after: always;"
                 ++ "></div>" ++ nl ++ nl ++ "# Two" ++ nl ++ nl ++ "B")%string)
      VUndefined in
  MarkdownToPdfConverter.convertMultipleMarkdownToPdf sample_world sections VUndefined
  = (MarkdownToPdfConverter.setMarkdownLength (fst single) 2, snd single)
  /\ (exists m,
         metadata (fst (MarkdownToPdfConverter.convertMultipleMarkdownToPdf sample_world
                          sections VUndefined))
         = Some m
         /\ MarkdownToPdfConverter.markdownLength m = 2)
  /\ MarkdownToPdfConverter.convertMultipleMarkdownToPdf sample_world
       [ {| MarkdownToPdfConverter.content := VStr "A";
            MarkdownToPdfConverter.title := None |};
         {| MarkdownToPdfConverter.content := VNum 3%float;
            MarkdownToPdfConverter.title := None |} ]
       VUndefined
     = (failure "Invalid markdown content at index 1: content must be a non-empty string",
        []).
Proof.
  intros sections single.
  assert (Hne : sections <> []) by discriminate.
  assert (Hvalid : Forall valid_content sections).
  { repeat constructor.
    - exists "A"%string. split; [reflexivity|discriminate].
    - exists "B"%string. split; [reflexivity|discriminate]. }
  destruct (proj1 (batch_markdown_to_pdf sample_world sections VUndefined Hne) Hvalid)
    as [Hbatch Hlength].
  split; [exact Hbatch|]. split; [exact (Hlength eq_refl)|].
  refine (proj2 (batch_markdown_to_pdf sample_world
                   [ {| MarkdownToPdfConverter.content := VStr "A";
                        MarkdownToPdfConverter.title := None |};
                     {| MarkdownToPdfConverter.content := VNum 3%float;
                        MarkdownToPdfConverter.title := None |} ]
                   VUndefined _) 1 eq_refl).
  discriminate.
Defined.

(** Scenario C: the combined document of the two-entry batch. *)
Example combined_document_scenario :
  combined_document
    [ {| MarkdownToPdfConverter.content := VStr "A";
         MarkdownToPdfConverter.title := None |};
      {| MarkdownToPdfConverter.content := VStr "B";
         MarkdownToPdfConverter.title := Some "Two"%string |} ]
  = ("A" ++ nl ++ nl ++ "<div style=" ++ dq "page-break-after: always;" ++ "></div>"
         ++ nl ++ nl ++ "# Two" ++ nl ++ nl ++ "B")%string.
Proof. reflexivity. Qed.

Example of_nat_decimal :
  Str.of_nat 0 = "0"%string /\ Str.of_nat 7 = "7"%string
  /\ Str.of_nat 10 = "10"%string /\ Str.of_nat 1234 = "1234"%string.
Proof. repeat split; reflexivity. Qed.

(* ================================================================== *)
(** ** Object spread *)
(* ================================================================== *)

Lemma set_prop_get_same (k : string) (v : value) (a : list (string * value)) :
  get_prop k (set_prop k v a) = v /\ has_prop k (set_prop k v a) = true.
Proof.
  induction a as [|[k' v'] a [IHg IHh]]; cbn.
  - now rewrite String.eqb_refl.
  - destruct (String.eqb k k') eqn:E; cbn; rewrite E; cbn; auto.
Qed.

Lemma set_prop_get_other (k k' : string) (v : value) (a : list (string * value)) :
  k <> k' ->
  get_prop k (set_prop k' v a) = get_prop k a
  /\ has_prop k (set_prop k' v a) = has_prop k a.
Proof.
  intros Hne. apply String.eqb_neq in Hne.
  induction a as [|[k2 v2] a [IHg IHh]]; cbn.
  - now rewrite Hne.
  - destruct (String.eqb k' k2) eqn:E; cbn.
    + apply String.eqb_eq in E. subst k2. now rewrite Hne.
    + destruct (String.eqb k k2); cbn; auto.
Qed.

(** [{...a, ...b}] holds, under each key, the value of [b] when [b] has
    the key (even with the value [undefined]) and that of [a] otherwise. *)
Lemma spread_get (a b : list (string * value)) (k : string) :
  distinct (keys b) = true ->
  get_prop k (spread a b) = (if has_prop k b then get_prop k b else get_prop k a).
Proof.
  unfold spread. revert a.
  induction b as [|[k' v] b IH]; intros a Hd; [reflexivity|].
  cbn in Hd. fold (keys b) in Hd. apply distinct_cons in Hd. destruct Hd as [Hnotin Hd].
  cbn [fold_left fst snd]. rewrite (IH _ Hd). cbn [has_prop get_prop].
  destruct (String.eqb k k') eqn:E.
  - apply String.eqb_eq in E. subst k'. cbn.
    destruct (get_prop_absent k b Hnotin) as [_ Hh]. rewrite Hh.
    apply set_prop_get_same.
  - cbn. apply String.eqb_neq in E.
    destruct (has_prop k b); [reflexivity|].
    now apply set_prop_get_other.
Qed.

Lemma parse_shape_distinct (fields : list (string * value)) (p : path)
  (sh : list (string * schema)) :
  distinct (keys sh) = true ->
  distinct (keys (fst (parse_shape fields p sh))) = true.
Proof.
  induction sh as [|[k sk] sh IH]; intros Hd; [reflexivity|].
  cbn in Hd. fold (keys sh) in Hd. apply distinct_cons in Hd. destruct Hd as [Hnotin Hd].
  cbn [parse_shape].
  destruct (parse sk (p ++ [PKey k]) (get_prop k fields)) as [d is1].
  pose proof (parse_shape_keys fields p sh k) as Hkeys.
  specialize (IH Hd).
  destruct (parse_shape fields p sh) as [ds is2]. cbn [fst] in *.
  destruct (negb (is_undefined d) || has_prop k fields); [|exact IH].
  change (keys ((k, d) :: ds)) with (k :: keys ds).
  apply distinct_cons. split; [|exact IH]. intros H. apply Hnotin, Hkeys, H.
Qed.

(** The validated options of an object schema have distinct keys. *)
Lemma validated_distinct (sh : list (string * schema)) (v : value)
  (out : list (string * value)) :
  distinct (keys sh) = true ->
  safeParse (opt (ZObject sh)) v = ParseOk (VObj out) ->
  distinct (keys out) = true.
Proof.
  intros Hd Hparse.
  destruct (safeParse_optional_object_inv _ _ _ Hparse) as [-> | [fields ->]].
  - vm_compute in Hparse. discriminate.
  - rewrite safeParse_object in Hparse.
    pose proof (parse_shape_distinct fields [] sh Hd) as Hout.
    destruct (parse_shape fields [] sh) as [ds [|i iss]]; [|discriminate].
    inversion Hparse; subst. exact Hout.
Qed.

(* ================================================================== *)
(** ** Rejections before any external call *)
(* ================================================================== *)

(** X1: in every converter an input that is not a non-empty string, and
    (for the converters that validate first) options that fail
    validation, give a failure without a single external call: no file is
    read, no parser, engine or emitter is invoked. *)
Theorem rejected_before_any_call (w : World) (input options : value) :
  (nonempty_string input = None ->
   MarkdownToHtmlConverter.convertMarkdownToHtml w input options
   = (failure "Invalid markdown input: Markdown must be a non-empty string", [])
   /\ HtmlToPdfConverter.convertHtmlToPdf w input options
      = (failure "Invalid HTML input: HTML must be a non-empty string", [])
   /\ HtmlToPdfConverter.convertUrlToPdf w input options
      = (failure "Invalid URL input: URL must be a non-empty string", [])
   /\ HtmlToDocxConverter.convertHtmlToDocx w input options
      = (failure "Invalid HTML input: HTML must be a non-empty string", [])
   /\ HtmlToDocxConverter.convertUrlToDocx w input options
      = (failure "Invalid URL input: URL must be a non-empty string", [])
   /\ MarkdownToPdfConverter.convertMarkdownToPdf w input options
      = (failure "Invalid markdown input: Markdown must be a non-empty string", [])
   /\ MarkdownToDocxConverter.convertMarkdownToDocx w input options
      = (failure "Invalid markdown input: Markdown must be a non-empty string", []))
  /\ (forall text issues,
         nonempty_string input = Some text ->
         (safeParse MarkdownToHtmlOptionsSchema options = ParseError issues ->
          MarkdownToHtmlConverter.convertMarkdownToHtml w input options
          = (failure ("Invalid options: " ++ ZodError.message issues)%string, []))
         /\ (safeParse HtmlToPdfOptionsSchema options = ParseError issues ->
             HtmlToPdfConverter.convertUrlToPdf w input options
             = (failure ("Invalid options: " ++ ZodError.message issues)%string, []))
         /\ (safeParse HtmlToDocxOptionsSchema options = ParseError issues ->
             HtmlToDocxConverter.convertHtmlToDocx w input options
             = (failure ("Invalid options: " ++ ZodError.message issues)%string, []))
         /\ (safeParse MarkdownToPdfOptionsSchema options = ParseError issues ->
             MarkdownToPdfConverter.convertMarkdownToPdf w input options
             = (failure ("Invalid options: " ++ ZodError.message issues)%string, []))
         /\ (safeParse MarkdownToDocxOptionsSchema options = ParseError issues ->
             MarkdownToDocxConverter.convertMarkdownToDocx w input options
             = (failure ("Invalid options: " ++ ZodError.message issues)%string, []))).
Proof.
  split.
  - intros Hinput.
    unfold MarkdownToHtmlConverter.convertMarkdownToHtml,
      HtmlToPdfConverter.convertHtmlToPdf, HtmlToPdfConverter.convertUrlToPdf,
      HtmlToDocxConverter.convertHtmlToDocx, HtmlToDocxConverter.convertUrlToDocx,
      MarkdownToPdfConverter.convertMarkdownToPdf,
      MarkdownToDocxConverter.convertMarkdownToDocx.
    rewrite Hinput. repeat split.
  - intros text issues Hinput.
    unfold MarkdownToHtmlConverter.convertMarkdownToHtml,
      HtmlToPdfConverter.convertUrlToPdf, HtmlToDocxConverter.convertHtmlToDocx,
      MarkdownToPdfConverter.convertMarkdownToPdf,
      MarkdownToDocxConverter.convertMarkdownToDocx.
    rewrite Hinput. repeat split; intros ->; reflexivity.
Qed.

Lemma rejected_before_any_call_witness :
  MarkdownToPdfConverter.convertMarkdownToPdf sample_world (VNum 3%float) VUndefined
  = (failure "Invalid markdown input: Markdown must be a non-empty string", [])
  /\ exists message,
       MarkdownToDocxConverter.convertMarkdownToDocx sample_world (VStr "# Hi")
         (VObj [("orientation", VStr "sideways")])
       = (failure ("Invalid options: " ++ message)%string, []).
Proof.
  split.
  - apply (proj1 (rejected_before_any_call sample_world (VNum 3%float) VUndefined)
             eq_refl).
  - destruct (safeParse MarkdownToDocxOptionsSchema
                (VObj [("orientation", VStr "sideways")])) as [d|issues] eqn:E;
      [vm_compute in E; discriminate|].
    exists (ZodError.message issues).
    destruct (proj2 (rejected_before_any_call sample_world (VStr "# Hi")
                       (VObj [("orientation", VStr "sideways")]))
                "# Hi"%string issues eq_refl) as [_ [_ [_ [_ Hdocx]]]].
    exact (Hdocx E).
Defined.

(* ================================================================== *)
(** ** File variants *)
(* ================================================================== *)

(** X2: each file variant reads the file once and then behaves as the
    direct conversion of its contents, with the same result and the same
    calls after the read; when the read throws it returns its own
    "Failed to read ... file" failure and nothing else is called. *)
Theorem file_variants_read_then_convert (w : World) (filePath : string)
  (options : value) :
  (forall e,
      fs_readFile w filePath = inl e ->
      MarkdownToHtmlConverter.convertMarkdownFileToHtml w filePath options
      = (failure ("Failed to read markdown file: " ++ errorMessage e)%string,
         [EReadFile filePath])
      /\ HtmlToPdfConverter.convertHtmlFileToPdf w filePath options
         = (failure ("Failed to read HTML file: " ++ errorMessage e)%string,
            [EReadFile filePath])
      /\ HtmlToDocxConverter.convertHtmlFileToDocx w filePath options
         = (failure ("Failed to read HTML file: " ++ errorMessage e)%string,
            [EReadFile filePath])
      /\ MarkdownToPdfConverter.convertMarkdownFileToPdf w filePath options
         = (failure ("Failed to read markdown file: " ++ errorMessage e)%string,
            [EReadFile filePath])
      /\ MarkdownToDocxConverter.convertMarkdownFileToDocx w filePath options
         = (failure ("Failed to read markdown file: " ++ errorMessage e)%string,
            [EReadFile filePath]))
  /\ (forall content,
         fs_readFile w filePath = inr content ->
         MarkdownToHtmlConverter.convertMarkdownFileToHtml w filePath options
         = (fst (MarkdownToHtmlConverter.convertMarkdownToHtml w (VStr content) options),
            EReadFile filePath
              :: snd (MarkdownToHtmlConverter.convertMarkdownToHtml
                        w (VStr content) options))
         /\ HtmlToPdfConverter.convertHtmlFileToPdf w filePath options
            = (fst (HtmlToPdfConverter.convertHtmlToPdf w (VStr content) options),
               EReadFile filePath
                 :: snd (HtmlToPdfConverter.convertHtmlToPdf w (VStr content) options))
         /\ HtmlToDocxConverter.convertHtmlFileToDocx w filePath options
            = (fst (HtmlToDocxConverter.convertHtmlToDocx w (VStr content) options),
               EReadFile filePath
                 :: snd (HtmlToDocxConverter.convertHtmlToDocx w (VStr content) options))
         /\ MarkdownToPdfConverter.convertMarkdownFileToPdf w filePath options
            = (fst (MarkdownToPdfConverter.convertMarkdownToPdf w (VStr content) options),
               EReadFile filePath
                 :: snd (MarkdownToPdfConverter.convertMarkdownToPdf
                           w (VStr content) options))
         /\ MarkdownToDocxConverter.convertMarkdownFileToDocx w filePath options
            = (fst (MarkdownToDocxConverter.convertMarkdownToDocx w (VStr content) options),
               EReadFile filePath
                 :: snd (MarkdownToDocxConverter.convertMarkdownToDocx
                           w (VStr content) options))).
Proof.
  unfold MarkdownToHtmlConverter.convertMarkdownFileToHtml,
    HtmlToPdfConverter.convertHtmlFileToPdf, HtmlToDocxConverter.convertHtmlFileToDocx,
    MarkdownToPdfConverter.convertMarkdownFileToPdf,
    MarkdownToDocxConverter.convertMarkdownFileToDocx.
  run_blocks.
  split; intros x Hread; rewrite Hread; [repeat split|].
  destruct (MarkdownToHtmlConverter.convertMarkdownToHtml w (VStr x) options).
  destruct (HtmlToPdfConverter.convertHtmlToPdf w (VStr x) options).
  destruct (HtmlToDocxConverter.convertHtmlToDocx w (VStr x) options).
  destruct (MarkdownToPdfConverter.convertMarkdownToPdf w (VStr x) options).
  destruct (MarkdownToDocxConverter.convertMarkdownToDocx w (VStr x) options).
  cbn. rewrite ?app_nil_r. repeat split.
Qed.

Lemma file_variants_read_then_convert_witness :
  MarkdownToHtmlConverter.convertMarkdownFileToHtml sample_world "notes.md" VUndefined
  = (succeeded "<p># Hi</p>"
       {| MarkdownToHtmlConverter.originalLength := 4;
          MarkdownToHtmlConverter.htmlLength := 11;
          MarkdownToHtmlConverter.sanitized := false |},
     [EReadFile "notes.md";
      EMarkedSetOptions {| breaks := false; gfm := true; pedantic := false |};
      EMarkedParse "# Hi"]).
Proof.
  exact (proj1 (proj2 (file_variants_read_then_convert sample_world "notes.md" VUndefined)
                  "# Hi"%string eq_refl)).
Defined.

(* ================================================================== *)
(** ** URL to DOCX *)
(* ================================================================== *)

(** X3: URL-to-DOCX fetches first.  A fetch that throws, and a body that
    cannot be read, give "DOCX generation from URL failed"; a response
    that is not ok gives "Failed to fetch URL: <status> <statusText>"
    without reading the body; in none of these cases is the emitter
    called.  Otherwise the result is that of HTML-to-DOCX on the body (so
    the options are validated only after the fetch). *)
Theorem url_to_docx_fetches_first (w : World) (url : string) (options : value) :
  url <> ""%string ->
  let result := HtmlToDocxConverter.convertUrlToDocx w (VStr url) options in
  match fetch w url with
  | inl e =>
      result = (failure ("DOCX generation from URL failed: " ++ errorMessage e)%string,
                [EFetch url])
  | inr response =>
      if ok response then
        match text response with
        | inl e =>
            result
            = (failure ("DOCX generation from URL failed: " ++ errorMessage e)%string,
               [EFetch url; EResponseText])
        | inr html =>
            result
            = (fst (HtmlToDocxConverter.convertHtmlToDocx w (VStr html) options),
               EFetch url :: EResponseText
                 :: snd (HtmlToDocxConverter.convertHtmlToDocx w (VStr html) options))
        end
      else
        result
        = (failure ("Failed to fetch URL: " ++ Str.of_nat (status response) ++ " "
                      ++ statusText response)%string,
           [EFetch url])
  end.
Proof.
  intros Hne result. subst result.
  unfold HtmlToDocxConverter.convertUrlToDocx.
  rewrite (nonempty_string_VStr url Hne). run_blocks.
  destruct (fetch w url) as [e|response]; [reflexivity|].
  destruct (ok response); cbn [negb]; [|reflexivity].
  destruct (text response) as [e|html]; [reflexivity|].
  destruct (HtmlToDocxConverter.convertHtmlToDocx w (VStr html) options) as [r t].
  cbn. now rewrite ?app_nil_r.
Qed.

Lemma url_to_docx_fetches_first_witness :
  HtmlToDocxConverter.convertUrlToDocx sample_world (VStr "http://example.org")
    (VObj [("orientation", VStr "sideways")])
  = (fst (HtmlToDocxConverter.convertHtmlToDocx sample_world (VStr "<p>x</p>")
            (VObj [("orientation", VStr "sideways")])),
     [EFetch "http://example.org"; EResponseText]).
Proof.
  assert (Hne : "http://example.org"%string <> ""%string) by discriminate.
  exact (url_to_docx_fetches_first sample_world "http://example.org"
           (VObj [("orientation", VStr "sideways")]) Hne).
Defined.

(* ================================================================== *)
(** ** Markdown to HTML, case by case *)
(* ================================================================== *)

(** X4: with valid options, Markdown-to-HTML configures and calls the
    parser once; the sanitizer is called exactly when [sanitize] is set,
    on the parser's output and with the default policy overlaid by the
    caller's.  The result is the parser's output unsanitized, or the
    sanitizer's output flagged [sanitized], with [htmlLength] the length
    of the returned HTML; a throwing parser or sanitizer gives "Markdown
    conversion failed". *)
Theorem markdown_to_html_cases (w : World) (text : string) (options validated : value) :
  text <> ""%string ->
  safeParse MarkdownToHtmlOptionsSchema options = ParseOk validated ->
  let opts := or_else validated (VObj []) in
  let configured := MarkdownToHtmlConverter.markedOptions opts in
  let policy :=
    spread MarkdownToHtmlConverter.DEFAULT_SANITIZER_OPTIONS
      (own_props (prop opts "sanitizerOptions")) in
  let result := MarkdownToHtmlConverter.convertMarkdownToHtml w (VStr text) options in
  let parsing := [EMarkedSetOptions configured; EMarkedParse text] in
  match marked_parse w configured text with
  | inl e =>
      result = (failure ("Markdown conversion failed: " ++ errorMessage e)%string,
                parsing)
  | inr html =>
      if truthy (prop opts "sanitize") then
        match sanitizeHtml w html policy with
        | inl e =>
            result
            = (failure ("Markdown conversion failed: " ++ errorMessage e)%string,
               parsing ++ [ESanitizeHtml html policy])
        | inr cleaned =>
            result
            = (succeeded cleaned
                 {| MarkdownToHtmlConverter.originalLength := String.length text;
                    MarkdownToHtmlConverter.htmlLength := String.length cleaned;
                    MarkdownToHtmlConverter.sanitized := true |},
               parsing ++ [ESanitizeHtml html policy])
        end
      else
        result
        = (succeeded html
             {| MarkdownToHtmlConverter.originalLength := String.length text;
                MarkdownToHtmlConverter.htmlLength := String.length html;
                MarkdownToHtmlConverter.sanitized := false |},
           parsing)
  end.
Proof.
  intros Hne Hparse opts configured policy result parsing.
  subst result. unfold MarkdownToHtmlConverter.convertMarkdownToHtml.
  rewrite (nonempty_string_VStr text Hne), Hparse. cbv zeta.
  fold opts. fold configured. fold policy. run_blocks.
  destruct (marked_parse w configured text) as [e|html]; [reflexivity|].
  destruct (truthy (prop opts "sanitize")); [|reflexivity].
  destruct (sanitizeHtml w html policy) as [e|cleaned]; reflexivity.
Qed.

Lemma markdown_to_html_cases_witness :
  MarkdownToHtmlConverter.convertMarkdownToHtml sample_world (VStr "**b**")
    (VObj [("sanitize", VBool true);
           ("sanitizerOptions", VObj [("allowedTags", VArr [VStr "p"])])])
  = (succeeded "<p>**b**</p>"
       {| MarkdownToHtmlConverter.originalLength := 5;
          MarkdownToHtmlConverter.htmlLength := 12;
          MarkdownToHtmlConverter.sanitized := true |},
     [EMarkedSetOptions {| breaks := false; gfm := true; pedantic := false |};
      EMarkedParse "**b**";
      ESanitizeHtml "<p>**b**</p>"
        (set_prop "allowedTags" (VArr [VStr "p"])
           MarkdownToHtmlConverter.DEFAULT_SANITIZER_OPTIONS)]).
Proof.
  assert (Hne : "**b**"%string <> ""%string) by discriminate.
  exact (markdown_to_html_cases sample_world "**b**"
           (VObj [("sanitize", VBool true);
                  ("sanitizerOptions", VObj [("allowedTags", VArr [VStr "p"])])])
           (VObj [("sanitize", VBool true);
                  ("sanitizerOptions", VObj [("allowedTags", VArr [VStr "p"])])])
           Hne eq_refl).
Defined.

(* ================================================================== *)
(** ** Normalized values do not depend on the path *)
(* ================================================================== *)

Lemma parse_fst_path (s : schema) :
  forall p p' v, fst (parse s p v) = fst (parse s p' v).
Proof.
  induction s as [ | checks | | values | e IH | e IH | shape IH | e IH ]
    using schema_induction; intros p p' v.
  - destruct v; reflexivity.
  - destruct v; try reflexivity. cbn. destruct (PrimFloat.is_nan x); reflexivity.
  - destruct v; reflexivity.
  - destruct v; try reflexivity. cbn. destruct (mem s values); reflexivity.
  - destruct v; try reflexivity. rewrite !parse_array_eq.
    assert (H : forall i j, fst (parse_items e p i items) = fst (parse_items e p' j items)).
    { induction items as [|x xs IHx]; intros i j; [reflexivity|]. cbn.
      specialize (IH (p ++ [PIndex i]) (p' ++ [PIndex j]) x).
      specialize (IHx (S i) (S j)).
      destruct (parse e (p ++ [PIndex i]) x), (parse e (p' ++ [PIndex j]) x),
        (parse_items e p (S i) xs), (parse_items e p' (S j) xs).
      cbn in *. now subst. }
    specialize (H 0 0).
    destruct (parse_items e p 0 items), (parse_items e p' 0 items).
    cbn in *. now subst.
  - destruct v; try reflexivity. rewrite !parse_record_eq.
    assert (H : fst (parse_entries e p fields) = fst (parse_entries e p' fields)).
    { induction fields as [|[k x] fs IHf]; [reflexivity|]. cbn.
      specialize (IH (p ++ [PKey k]) (p' ++ [PKey k]) x).
      destruct (parse e (p ++ [PKey k]) x), (parse e (p' ++ [PKey k]) x),
        (parse_entries e p fs), (parse_entries e p' fs).
      cbn in *. now subst. }
    destruct (parse_entries e p fields), (parse_entries e p' fields).
    cbn in *. now subst.
  - destruct v; try reflexivity. rewrite !parse_object_eq.
    assert (H : fst (parse_shape fields p shape) = fst (parse_shape fields p' shape)).
    { induction shape as [|[k sk] sh IHs]; [reflexivity|]. cbn.
      inversion IH as [|x l Hk Hrest]; subst.
      specialize (Hk (p ++ [PKey k]) (p' ++ [PKey k]) (get_prop k fields)).
      specialize (IHs Hrest). cbn in Hk.
      destruct (parse sk (p ++ [PKey k]) (get_prop k fields)),
        (parse sk (p' ++ [PKey k]) (get_prop k fields)),
        (parse_shape fields p sh), (parse_shape fields p' sh).
      cbn in *. now subst. }
    destruct (parse_shape fields p shape), (parse_shape fields p' shape).
    cbn in *. now subst.
  - destruct v; try reflexivity; cbn [parse]; apply IH.
Qed.

(** A list of strings is its own normalized value. *)
Lemma normalize_strings (l : list string) :
  normalize (opt (ZArray ZString)) (VArr (map VStr l)) = VArr (map VStr l).
Proof.
  unfold normalize.
  change (parse (opt (ZArray ZString)) [] (VArr (map VStr l)))
    with (parse (ZArray ZString) [] (VArr (map VStr l))).
  rewrite parse_array_eq.
  assert (H : forall i, fst (parse_items ZString [] i (map VStr l)) = map VStr l).
  { induction l as [|x l IH]; intros i; [reflexivity|]. cbn.
    specialize (IH (S i)).
    destruct (parse_items ZString [] (S i) (map VStr l)). cbn in *. now subst. }
  specialize (H 0). destruct (parse_items ZString [] 0 (map VStr l)). cbn in *.
  now subst.
Qed.

(* ================================================================== *)
(** ** Options layered over defaults *)
(* ================================================================== *)

(** Spreading the normalized fields of an object over defaults gives,
    under each declared key, the caller's normalized value when the
    caller has the key, and the default otherwise. *)
Lemma layered_shape (sh : list (string * schema))
  (defaults fields : list (string * value)) (p : path) :
  distinct (keys sh) = true ->
  all_optional sh ->
  forall k sk,
    In (k, sk) sh ->
    get_prop k (spread defaults (fst (parse_shape fields p sh)))
    = if has_prop k fields then normalize sk (get_prop k fields)
      else get_prop k defaults.
Proof.
  intros Hd Hopt k sk Hin.
  rewrite (spread_get _ _ _ (parse_shape_distinct fields p sh Hd)).
  destruct (parse_shape_get fields p sh k sk Hd Hin) as [Hg Hh].
  rewrite Hg, Hh. unfold normalize.
  rewrite (parse_fst_path sk (p ++ [PKey k]) [] (get_prop k fields)).
  destruct (has_prop k fields) eqn:Hhas; [now rewrite orb_true_r|].
  assert (Habsent : get_prop k fields = VUndefined).
  { apply get_prop_absent. intros H. apply has_prop_In in H. congruence. }
  destruct (Hopt k sk Hin) as [inner ->]. rewrite Habsent. reflexivity.
Qed.

Ltac optional_fields :=
  intros ? ? Hin; cbn in Hin;
  repeat (destruct Hin as [Hin|Hin]; [inversion Hin; subst; eexists; reflexivity|]);
  destruct Hin.

Lemma sanitizerOptions_all_optional : all_optional sanitizerOptions_shape.
Proof. optional_fields. Qed.

Lemma HtmlToPdfOptions_all_optional : all_optional HtmlToPdfOptions_shape.
Proof. optional_fields. Qed.

Lemma HtmlToDocxOptions_all_optional : all_optional HtmlToDocxOptions_shape.
Proof. optional_fields. Qed.

(** X5: the sanitizer policy is the default policy overlaid key by key
    (shallowly) by the caller's [sanitizerOptions]: under each of the
    four policy keys the sanitizer receives the caller's (normalized)
    value when the caller's object has that key, and the default value
    otherwise.  So a caller's [allowedAttributes] replaces the default
    attribute table as a whole; a list of strings is passed unchanged. *)
Theorem sanitizer_policy_is_shallow (fields given : list (string * value))
  (validated : value) :
  safeParse MarkdownToHtmlOptionsSchema (VObj fields) = ParseOk validated ->
  get_prop "sanitizerOptions" fields = VObj given ->
  let policy :=
    spread MarkdownToHtmlConverter.DEFAULT_SANITIZER_OPTIONS
      (own_props (prop (or_else validated (VObj [])) "sanitizerOptions")) in
  (forall k sk,
      In (k, sk) sanitizerOptions_shape ->
      get_prop k policy
      = if has_prop k given then normalize sk (get_prop k given)
        else get_prop k MarkdownToHtmlConverter.DEFAULT_SANITIZER_OPTIONS)
  /\ (forall tags,
         get_prop "allowedTags" given = VArr (map VStr tags) ->
         get_prop "allowedTags" policy = VArr (map VStr tags)).
Proof.
  intros Hparse Hgiven policy.
  assert (Hmain : forall k sk,
      In (k, sk) sanitizerOptions_shape ->
      get_prop k policy
      = if has_prop k given then normalize sk (get_prop k given)
        else get_prop k MarkdownToHtmlConverter.DEFAULT_SANITIZER_OPTIONS).
  { subst policy. unfold MarkdownToHtmlOptionsSchema in Hparse.
    destruct (safeParse_object_ok MarkdownToHtmlOptions_shape fields _ eq_refl Hparse)
      as [out [-> Hfields]].
    destruct (Hfields "sanitizerOptions"%string (opt (ZObject sanitizerOptions_shape))
                ltac:(cbn; tauto)) as [_ Hget].
    cbn [or_else truthy prop]. rewrite Hget, Hgiven.
    change (parse (opt (ZObject sanitizerOptions_shape)) [PKey "sanitizerOptions"]
              (VObj given))
      with (parse (ZObject sanitizerOptions_shape) [PKey "sanitizerOptions"]
              (VObj given)).
    rewrite parse_object_eq.
    pose proof (layered_shape sanitizerOptions_shape
                  MarkdownToHtmlConverter.DEFAULT_SANITIZER_OPTIONS given
                  [PKey "sanitizerOptions"] eq_refl sanitizerOptions_all_optional)
      as Hlayer.
    destruct (parse_shape given [PKey "sanitizerOptions"] sanitizerOptions_shape)
      as [ds iss]. exact Hlayer. }
  split; [exact Hmain|].
  intros tags Htags.
  rewrite (Hmain "allowedTags"%string (opt (ZArray ZString)) ltac:(cbn; tauto)).
  assert (Hhas : has_prop "allowedTags" given = true).
  { destruct (has_prop "allowedTags" given) eqn:E; [reflexivity|].
    assert (Habsent : get_prop "allowedTags" given = VUndefined).
    { apply get_prop_absent. intros H. apply has_prop_In in H. congruence. }
    congruence. }
  rewrite Hhas, Htags. apply normalize_strings.
Qed.

Lemma sanitizer_policy_is_shallow_witness :
  let policy :=
    spread MarkdownToHtmlConverter.DEFAULT_SANITIZER_OPTIONS
      [("allowedAttributes", VObj [("a", VArr [VStr "href"])])] in
  get_prop "allowedAttributes" policy = VObj [("a", VArr [VStr "href"])]
  /\ get_prop "allowedSchemes" policy
     = VArr [VStr "http"; VStr "https"; VStr "mailto"].
Proof.
  pose proof (sanitizer_policy_is_shallow
                [("sanitize", VBool true);
                 ("sanitizerOptions",
                  VObj [("allowedAttributes", VObj [("a", VArr [VStr "href"])])])]
                [("allowedAttributes", VObj [("a", VArr [VStr "href"])])]
                _ eq_refl eq_refl) as [Hkeys _].
  split.
  - exact (Hkeys "allowedAttributes"%string (opt (ZRecord (ZArray ZString)))
             ltac:(simpl; tauto)).
  - exact (Hkeys "allowedSchemes"%string (opt (ZArray ZString)) ltac:(simpl; tauto)).
Defined.

(** X6: the options handed to the PDF renderer are the defaults (A4,
    1 cm margins, background on, no header or footer, no CSS page size)
    overlaid key by key by the validated options: under each declared
    key the renderer receives the caller's value when the caller's object
    has the key, the default otherwise; with no options it receives
    exactly the defaults.  A caller's [margin] therefore replaces all
    four default margins. *)
Theorem pdf_options_over_defaults :
  (forall (fields : list (string * value)) (validated : value),
      safeParse HtmlToPdfOptionsSchema (VObj fields) = ParseOk validated ->
      forall k sk,
        In (k, sk) HtmlToPdfOptions_shape ->
        get_prop k (spread HtmlToPdfConverter.DEFAULT_OPTIONS (own_props validated))
        = if has_prop k fields then normalize sk (get_prop k fields)
          else get_prop k HtmlToPdfConverter.DEFAULT_OPTIONS)
  /\ (forall validated,
         safeParse HtmlToPdfOptionsSchema VUndefined = ParseOk validated ->
         spread HtmlToPdfConverter.DEFAULT_OPTIONS (own_props validated)
         = HtmlToPdfConverter.DEFAULT_OPTIONS).
Proof.
  split.
  - intros fields validated Hparse k sk Hin.
    unfold HtmlToPdfOptionsSchema in Hparse. rewrite safeParse_object in Hparse.
    pose proof (layered_shape HtmlToPdfOptions_shape HtmlToPdfConverter.DEFAULT_OPTIONS
                  fields [] eq_refl HtmlToPdfOptions_all_optional k sk Hin) as Hlayer.
    destruct (parse_shape fields [] HtmlToPdfOptions_shape) as [ds [|i iss]];
      [|discriminate].
    inversion Hparse; subst. exact Hlayer.
  - intros validated Hparse. vm_compute in Hparse. inversion Hparse; subst.
    reflexivity.
Qed.

Lemma pdf_options_over_defaults_witness :
  let pdfOptions :=
    spread HtmlToPdfConverter.DEFAULT_OPTIONS
      [("format", VStr "Letter"); ("margin", VObj [("top", VStr "2cm")])] in
  get_prop "format" pdfOptions = VStr "Letter"
  /\ get_prop "margin" pdfOptions = VObj [("top", VStr "2cm")]
  /\ get_prop "printBackground" pdfOptions = VBool true.
Proof.
  pose proof (proj1 pdf_options_over_defaults
                [("format", VStr "Letter"); ("margin", VObj [("top", VStr "2cm")])]
                (VObj [("format", VStr "Letter");
                       ("margin", VObj [("top", VStr "2cm")])])
                eq_refl) as Hkeys.
  split; [|split].
  - exact (Hkeys "format"%string (opt (ZEnum paper_formats)) ltac:(simpl; tauto)).
  - exact (Hkeys "margin"%string (opt (ZObject pdf_margin_shape)) ltac:(simpl; tauto)).
  - exact (Hkeys "printBackground"%string (opt ZBoolean) ltac:(simpl; tauto)).
Defined.

(* ================================================================== *)
(** ** PDF rendering, step by step *)
(* ================================================================== *)

(** X7: with valid input and options, HTML-to-PDF and URL-to-PDF launch,
    open a page, load (set the content, or navigate), render and close,
    in this order, stopping at the first step that throws; the failure
    message is the operation's prefix followed by what was thrown.  They
    succeed exactly when the four steps succeed, with the rendered bytes
    as data and their number as [size]; a close that throws is logged and
    changes nothing in the result. *)
Theorem pdf_conversion_steps (w : World) (input : string) (options validated : value) :
  input <> ""%string ->
  safeParse HtmlToPdfOptionsSchema options = ParseOk validated ->
  let pdfOptions := spread HtmlToPdfConverter.DEFAULT_OPTIONS (own_props validated) in
  HtmlToPdfConverter.convertHtmlToPdf w (VStr input) options
  = pdf_steps w "PDF generation failed: " (fun p => ESetContent p input)
      (fun p => page_setContent w p input) pdfOptions
  /\ HtmlToPdfConverter.convertUrlToPdf w (VStr input) options
     = pdf_steps w "PDF generation from URL failed: " (fun p => EGoto p input)
         (fun p => page_goto w p input) pdfOptions
  /\ (forall prefix loading loaded,
         let r := fst (pdf_steps w prefix loading loaded pdfOptions) in
         success r = true <->
         exists b p bytes,
           puppeteer_launch w = inr b /\ browser_newPage w b = inr p
           /\ loaded p = inr tt /\ page_pdf w p pdfOptions = inr bytes
           /\ r = succeeded bytes {| HtmlToPdfConverter.size := List.length bytes |}).
Proof.
  intros Hne Hparse pdfOptions. split; [|split].
  - unfold HtmlToPdfConverter.convertHtmlToPdf, pdf_steps, closing.
    rewrite (nonempty_string_VStr input Hne), Hparse. cbv zeta. fold pdfOptions.
    unfold HtmlToPdfConverter.closeBrowser. run_blocks.
    destruct (puppeteer_launch w) as [e|b]; [reflexivity|].
    destruct (browser_newPage w b) as [e|p]; cbn;
      [destruct (browser_close w b); reflexivity|].
    destruct (page_setContent w p input) as [e|[]]; cbn;
      [destruct (browser_close w b); reflexivity|].
    destruct (page_pdf w p pdfOptions) as [e|bytes]; cbn;
      destruct (browser_close w b); reflexivity.
  - unfold HtmlToPdfConverter.convertUrlToPdf, pdf_steps, closing.
    rewrite (nonempty_string_VStr input Hne), Hparse. cbv zeta. fold pdfOptions.
    unfold HtmlToPdfConverter.closeBrowser. run_blocks.
    destruct (puppeteer_launch w) as [e|b]; [reflexivity|].
    destruct (browser_newPage w b) as [e|p]; cbn;
      [destruct (browser_close w b); reflexivity|].
    destruct (page_goto w p input) as [e|[]]; cbn;
      [destruct (browser_close w b); reflexivity|].
    destruct (page_pdf w p pdfOptions) as [e|bytes]; cbn;
      destruct (browser_close w b); reflexivity.
  - intros prefix loading loaded r. subst r. unfold pdf_steps.
    destruct (puppeteer_launch w) as [e|b] eqn:Hl; cbn.
    { split; [discriminate|]. intros [b [p [bytes [H _]]]]. discriminate. }
    destruct (browser_newPage w b) as [e|p] eqn:Hn; cbn.
    { split; [discriminate|]. intros [b' [p [bytes [Hb [H _]]]]].
      inversion Hb; subst. congruence. }
    destruct (loaded p) as [e|[]] eqn:Hd; cbn.
    { split; [discriminate|]. intros [b' [p' [bytes [Hb [Hp [H _]]]]]].
      inversion Hb; subst. rewrite Hn in Hp. inversion Hp; subst. congruence. }
    destruct (page_pdf w p pdfOptions) as [e|bytes] eqn:Hpdf; cbn.
    { split; [discriminate|]. intros [b' [p' [bytes [Hb [Hp [_ [H _]]]]]]].
      inversion Hb; subst. rewrite Hn in Hp. inversion Hp; subst. congruence. }
    split; [|reflexivity]. intros _. exists b, p, bytes. auto.
Qed.

Lemma pdf_conversion_steps_witness :
  HtmlToPdfConverter.convertHtmlToPdf sample_world (VStr "<h1>X</h1>")
    (VObj [("format", VStr "Letter"); ("landscape", VBool true)])
  = (succeeded [x25; x50; x44; x46] {| HtmlToPdfConverter.size := 4 |},
     [ELaunch; ENewPage 1; ESetContent 1 "<h1>X</h1>";
      EPdf 1 (set_prop "landscape" (VBool true)
                (set_prop "format" (VStr "Letter") HtmlToPdfConverter.DEFAULT_OPTIONS));
      EClose 1]).
Proof.
  assert (Hne : "<h1>X</h1>"%string <> ""%string) by discriminate.
  pose proof (proj1 (pdf_conversion_steps sample_world "<h1>X</h1>"
                       (VObj [("format", VStr "Letter"); ("landscape", VBool true)])
                       (VObj [("format", VStr "Letter"); ("landscape", VBool true)])
                       Hne eq_refl)) as H.
  rewrite H. reflexivity.
Defined.

(* ================================================================== *)
(** ** DOCX emission *)
(* ================================================================== *)

Lemma libOptions_keys (docxOptions : list (string * value)) (k : string) :
  In k (keys (HtmlToDocxConverter.libOptions docxOptions)) ->
  k = "orientation"%string \/ k = "margins"%string.
Proof.
  unfold HtmlToDocxConverter.libOptions.
  destruct (truthy (get_prop "orientation" docxOptions));
    destruct (truthy (get_prop "margins" docxOptions)); cbn; intuition.
Qed.

(** X8: with valid input and options, HTML-to-DOCX calls the emitter
    once, on the prepared HTML and with at most the orientation and the
    margins (title, subject, creator, keywords and description are never
    passed to it).  A byte buffer is returned as data with its length as
    [size]; a blob is read first; anything else, or a throw, is a
    "DOCX generation failed" failure. *)
Theorem docx_emission_steps (w : World) (html : string) (options validated : value) :
  html <> ""%string ->
  safeParse HtmlToDocxOptionsSchema options = ParseOk validated ->
  let docxOptions := spread HtmlToDocxConverter.DEFAULT_OPTIONS (own_props validated) in
  HtmlToDocxConverter.convertHtmlToDocx w (VStr html) options
  = docx_steps w (HtmlToDocxConverter.processedHtml docxOptions html)
      (HtmlToDocxConverter.libOptions docxOptions)
  /\ forall k,
       In k (keys (HtmlToDocxConverter.libOptions docxOptions)) ->
       k = "orientation"%string \/ k = "margins"%string.
Proof.
  intros Hne Hparse docxOptions. split; [|apply libOptions_keys].
  unfold HtmlToDocxConverter.convertHtmlToDocx, docx_steps.
  rewrite (nonempty_string_VStr html Hne), Hparse. cbv zeta. fold docxOptions.
  run_blocks.
  destruct (asBlob w _ _) as [e | [bytes | [e | bytes] | ]]; reflexivity.
Qed.

Lemma docx_emission_steps_witness :
  HtmlToDocxConverter.convertHtmlToDocx sample_world (VStr "<p>x</p>")
    (VObj [("orientation", VStr "landscape"); ("creator", VStr "me")])
  = (succeeded [x50; x4b] {| HtmlToDocxConverter.size := 2 |},
     [EAsBlob
        (HtmlToDocxConverter.processedHtml [("creator", VStr "me")] "<p>x</p>")
        [("orientation", VStr "landscape");
         ("margins", VObj [("top", VNum 1440); ("right", VNum 1440);
                           ("bottom", VNum 1440); ("left", VNum 1440)])]]).
Proof.
  assert (Hne : "<p>x</p>"%string <> ""%string) by discriminate.
  pose proof (proj1 (docx_emission_steps sample_world "<p>x</p>"
                       (VObj [("orientation", VStr "landscape"); ("creator", VStr "me")])
                       (VObj [("orientation", VStr "landscape"); ("creator", VStr "me")])
                       Hne eq_refl)) as H.
  rewrite H. reflexivity.
Defined.

(* ================================================================== *)
(** ** Page geometry through the Markdown-to-DOCX composer *)
(* ================================================================== *)

(** An object that lists every key of a shape, each with a value that
    validates to itself, validates to itself. *)
Lemma parse_shape_listed (rebuilt : list (string * value)) (p : path)
  (sh : list (string * schema)) :
  (forall k sk, In (k, sk) sh ->
     has_prop k rebuilt = true
     /\ parse sk (p ++ [PKey k]) (get_prop k rebuilt) = (get_prop k rebuilt, [])) ->
  parse_shape rebuilt p sh
  = (map (fun ks => (fst ks, get_prop (fst ks) rebuilt)) sh, []).
Proof.
  induction sh as [|[k sk] sh IH]; intros H; [reflexivity|].
  cbn [parse_shape map fst].
  destruct (H k sk (or_introl eq_refl)) as [Hhas Hsame].
  rewrite Hsame, Hhas, IH; [|intros k' sk' Hin; apply H; now right].
  now rewrite orb_true_r.
Qed.

(** The validated options of the composer, field by field, validate to
    themselves. *)
Lemma composer_field_again (options validated : value) (k : string) (sk : schema) :
  safeParse MarkdownToDocxOptionsSchema options = ParseOk validated ->
  In (k, sk) MarkdownToDocxOptions_shape ->
  forall p,
    parse sk p (prop (or_else validated (VObj [])) k)
    = (prop (or_else validated (VObj [])) k, []).
Proof.
  intros Hparse Hin p.
  assert (Hwf : well_formed sk = true).
  { cbn in Hin. repeat (destruct Hin as [Hin|Hin];
      [inversion Hin; subst; reflexivity|]). destruct Hin. }
  destruct (safeParse_optional_object_inv _ _ _ Hparse) as [-> | [fields ->]].
  - vm_compute in Hparse. inversion Hparse; subst. cbn [or_else truthy prop get_prop].
    cbn in Hin. repeat (destruct Hin as [Hin|Hin];
      [inversion Hin; subst; reflexivity|]). destruct Hin.
  - destruct (safeParse_object_ok MarkdownToDocxOptions_shape fields _ eq_refl Hparse)
      as [out [-> Hfields]].
    destruct (Hfields k sk Hin) as [Hok Hget].
    cbn [or_else truthy prop]. rewrite Hget.
    apply (parse_again sk Hwf _ _ Hok).
Qed.

(** X9: through the Markdown-to-DOCX composer the emitter never receives
    the default page geometry.  The composer hands the DOCX stage an
    options object that lists [orientation] and [margins] even when they
    are absent, and these explicit [undefined] values replace the
    defaults (portrait, one-inch margins) in the spread; so the emitter
    is called with exactly the orientation and margins the caller gave,
    and with no options at all when the caller gave neither, whereas a
    direct HTML-to-DOCX call without options passes both defaults. *)
Theorem composer_passes_no_default_geometry (w : World) (text stageHtml : string)
  (options validated : value) :
  text <> ""%string ->
  safeParse MarkdownToDocxOptionsSchema options = ParseOk validated ->
  let opts := or_else validated (VObj []) in
  let stage1 :=
    MarkdownToHtmlConverter.convertMarkdownToHtml w (VStr text)
      (MarkdownToDocxConverter.markdownOptions opts) in
  usable_text (fst stage1) = Some stageHtml ->
  (exists prepared,
      snd (MarkdownToDocxConverter.convertMarkdownToDocx w (VStr text) options)
      = snd stage1 ++ snd (docx_steps w prepared (supplied_geometry opts)))
  /\ (prop opts "orientation" = VUndefined -> prop opts "margins" = VUndefined ->
      supplied_geometry opts = [])
  /\ HtmlToDocxConverter.libOptions
       (spread HtmlToDocxConverter.DEFAULT_OPTIONS (own_props VUndefined))
     = [("orientation", VStr "portrait");
        ("margins", VObj [("top", VNum 1440); ("right", VNum 1440);
                          ("bottom", VNum 1440); ("left", VNum 1440)])].
Proof.
  intros Hne Hparse opts stage1 Husable.
  split; [|split; [|reflexivity]].
  - (* the options of the DOCX stage validate to themselves *)
    assert (Hstage : safeParse HtmlToDocxOptionsSchema
                       (MarkdownToDocxConverter.docxOptions opts)
                     = ParseOk (MarkdownToDocxConverter.docxOptions opts)).
    { unfold HtmlToDocxOptionsSchema, MarkdownToDocxConverter.docxOptions.
      rewrite safeParse_object, parse_shape_listed; [reflexivity|].
      intros k sk Hin. cbn in Hin.
      repeat (destruct Hin as [Hin|Hin];
        [inversion Hin; subst k sk; split; [reflexivity|];
         apply (composer_field_again options validated _ _ Hparse); cbn; tauto|]).
      destruct Hin. }
    destruct (usable_text_inv _ _ Husable) as [_ [_ Hhtml]].
    pose proof (docx_documentHtml_nonempty opts stageHtml Hhtml) as Hdoc.
    assert (Hsteps :
      HtmlToDocxConverter.convertHtmlToDocx w
        (VStr (MarkdownToDocxConverter.documentHtml opts stageHtml))
        (MarkdownToDocxConverter.docxOptions opts)
      = docx_steps w
          (HtmlToDocxConverter.processedHtml
             (spread HtmlToDocxConverter.DEFAULT_OPTIONS
                (own_props (MarkdownToDocxConverter.docxOptions opts)))
             (MarkdownToDocxConverter.documentHtml opts stageHtml))
          (HtmlToDocxConverter.libOptions
             (spread HtmlToDocxConverter.DEFAULT_OPTIONS
                (own_props (MarkdownToDocxConverter.docxOptions opts))))).
    { unfold HtmlToDocxConverter.convertHtmlToDocx, docx_steps.
      rewrite (nonempty_string_VStr _ Hdoc), Hstage. cbv zeta.
      run_blocks.
      destruct (asBlob w _ _) as [e | [bytes | [e | bytes] | ]]; reflexivity. }
    assert (Hgeometry :
      HtmlToDocxConverter.libOptions
        (spread HtmlToDocxConverter.DEFAULT_OPTIONS
           (own_props (MarkdownToDocxConverter.docxOptions opts)))
      = supplied_geometry opts).
    { unfold HtmlToDocxConverter.libOptions, supplied_geometry.
      rewrite (spread_get HtmlToDocxConverter.DEFAULT_OPTIONS
                 (own_props (MarkdownToDocxConverter.docxOptions opts))
                 "orientation" eq_refl),
              (spread_get HtmlToDocxConverter.DEFAULT_OPTIONS
                 (own_props (MarkdownToDocxConverter.docxOptions opts))
                 "margins" eq_refl).
      reflexivity. }
    rewrite Hgeometry in Hsteps.
    exists (HtmlToDocxConverter.processedHtml
              (spread HtmlToDocxConverter.DEFAULT_OPTIONS
                 (own_props (MarkdownToDocxConverter.docxOptions opts)))
              (MarkdownToDocxConverter.documentHtml opts stageHtml)).
    unfold MarkdownToDocxConverter.convertMarkdownToDocx.
    rewrite (nonempty_string_VStr text Hne), Hparse. cbv zeta.
    fold opts. fold stage1. run_blocks.
    destruct stage1 as [r1 t1]. cbn [fst snd] in *. rewrite Husable.
    rewrite Hsteps.
    destruct (docx_steps w _ (supplied_geometry opts)) as [r2 t2]. cbn [fst snd].
    destruct (usable_buffer r2); cbn; now rewrite ?app_nil_r.
  - intros Ho Hm. unfold supplied_geometry. now rewrite Ho, Hm.
Qed.

Lemma composer_passes_no_default_geometry_witness :
  exists prepared,
    snd (MarkdownToDocxConverter.convertMarkdownToDocx sample_world (VStr "# Hi")
           (VObj [("fullDocument", VBool false)]))
    = [EMarkedSetOptions {| breaks := false; gfm := true; pedantic := false |};
       EMarkedParse "# Hi"]
      ++ snd (docx_steps sample_world prepared []).
Proof.
  assert (Hne : "# Hi"%string <> ""%string) by discriminate.
  exact (proj1 (composer_passes_no_default_geometry sample_world "# Hi" "<p># Hi</p>"
                  (VObj [("fullDocument", VBool false)])
                  (VObj [("fullDocument", VBool false)]) Hne eq_refl eq_refl)).
Defined.

(* ================================================================== *)
(** ** The composers on a stage that succeeds with nothing *)
(* ================================================================== *)

Lemma succeeded_without_error {D Meta} (r : ConversionResult D Meta) :
  well_shaped r -> success r = true -> error r = None.
Proof. unfold well_shaped. intros H E. rewrite E in H. apply H. Qed.

Lemma usable_text_empty {Meta} (r : ConversionResult string Meta) :
  data r = Some ""%string -> usable_text r = None.
Proof. unfold usable_text. intros ->. now destruct (success r). Qed.

(** X10: a Markdown-to-HTML stage that succeeds with empty HTML is treated
    by both composers as a failed stage: nothing is rendered or emitted,
    and since the stage set no error message the PDF composer reports
    "Markdown to HTML conversion failed: undefined" and the DOCX composer
    its fallback "Failed to convert markdown to HTML". *)
Theorem empty_html_ends_the_pipeline (w : World) (text : string) :
  text <> ""%string ->
  (forall options validated,
      safeParse MarkdownToPdfOptionsSchema options = ParseOk validated ->
      let stage1 :=
        MarkdownToHtmlConverter.convertMarkdownToHtml w (VStr text)
          (prop (or_else validated (VObj [])) "markdownOptions") in
      success (fst stage1) = true ->
      data (fst stage1) = Some ""%string ->
      MarkdownToPdfConverter.convertMarkdownToPdf w (VStr text) options
      = (failure "Markdown to HTML conversion failed: undefined", snd stage1))
  /\ (forall options validated,
         safeParse MarkdownToDocxOptionsSchema options = ParseOk validated ->
         let stage1 :=
           MarkdownToHtmlConverter.convertMarkdownToHtml w (VStr text)
             (MarkdownToDocxConverter.markdownOptions (or_else validated (VObj []))) in
         success (fst stage1) = true ->
         data (fst stage1) = Some ""%string ->
         MarkdownToDocxConverter.convertMarkdownToDocx w (VStr text) options
         = (failure "Failed to convert markdown to HTML", snd stage1)).
Proof.
  intros Hne. split; intros options validated Hparse stage1 Hok Hdata.
  - pose proof (succeeded_without_error _
                  (convertMarkdownToHtml_shaped w (VStr text)
                     (prop (or_else validated (VObj [])) "markdownOptions")) Hok)
      as Herror.
    fold stage1 in Herror.
    unfold MarkdownToPdfConverter.convertMarkdownToPdf.
    rewrite (nonempty_string_VStr text Hne), Hparse. cbv zeta. fold stage1.
    run_blocks. destruct stage1 as [r1 t1]. cbn [fst snd] in *.
    rewrite (usable_text_empty r1 Hdata), Herror. cbn. now rewrite ?app_nil_r.
  - pose proof (succeeded_without_error _
                  (convertMarkdownToHtml_shaped w (VStr text)
                     (MarkdownToDocxConverter.markdownOptions
                        (or_else validated (VObj [])))) Hok)
      as Herror.
    fold stage1 in Herror.
    unfold MarkdownToDocxConverter.convertMarkdownToDocx.
    rewrite (nonempty_string_VStr text Hne), Hparse. cbv zeta. fold stage1.
    run_blocks. destruct stage1 as [r1 t1]. cbn [fst snd] in *.
    rewrite (usable_text_empty r1 Hdata), Herror. cbn. now rewrite ?app_nil_r.
Qed.

Lemma empty_html_ends_the_pipeline_witness :
  MarkdownToPdfConverter.convertMarkdownToPdf silent_parser_world (VStr "# Hi") VUndefined
  = (failure "Markdown to HTML conversion failed: undefined",
     [EMarkedSetOptions {| breaks := false; gfm := true; pedantic := false |};
      EMarkedParse "# Hi"])
  /\ MarkdownToDocxConverter.convertMarkdownToDocx silent_parser_world (VStr "# Hi")
       VUndefined
     = (failure "Failed to convert markdown to HTML",
        [EMarkedSetOptions {| breaks := false; gfm := true; pedantic := false |};
         EMarkedParse "# Hi"]).
Proof.
  assert (Hne : "# Hi"%string <> ""%string) by discriminate.
  destruct (empty_html_ends_the_pipeline silent_parser_world "# Hi" Hne) as [Hpdf Hdocx].
  split.
  - exact (Hpdf VUndefined VUndefined eq_refl eq_refl eq_refl).
  - exact (Hdocx VUndefined VUndefined eq_refl eq_refl eq_refl).
Defined.

(* ================================================================== *)
(** ** Success of Markdown to PDF *)
(* ================================================================== *)

(** X11: with valid input and options, Markdown-to-PDF succeeds exactly
    when the Markdown stage yields non-empty HTML and the PDF stage
    succeeds on the document built from it.  The result then carries the
    bytes of the PDF stage, and its metadata give the length of the
    Markdown text, the length of the document handed to the PDF stage
    (the full document when one is built, not the HTML fragment), the
    number of bytes, and the [sanitized] flag of the Markdown stage; the
    calls are those of the two stages, in this order. *)
Theorem markdown_to_pdf_success (w : World) (text : string)
  (options validated : value) :
  text <> ""%string ->
  safeParse MarkdownToPdfOptionsSchema options = ParseOk validated ->
  let opts := or_else validated (VObj []) in
  let stage1 :=
    MarkdownToHtmlConverter.convertMarkdownToHtml w (VStr text)
      (prop opts "markdownOptions") in
  let stage2 stageHtml :=
    HtmlToPdfConverter.convertHtmlToPdf w
      (VStr (MarkdownToPdfConverter.documentHtml opts stageHtml))
      (prop opts "pdfOptions") in
  let result := MarkdownToPdfConverter.convertMarkdownToPdf w (VStr text) options in
  (success (fst result) = true <->
   exists stageHtml,
     usable_text (fst stage1) = Some stageHtml
     /\ success (fst (stage2 stageHtml)) = true)
  /\ (forall stageHtml,
         usable_text (fst stage1) = Some stageHtml ->
         success (fst (stage2 stageHtml)) = true ->
         exists bytes cleaned,
           fst stage1
           = succeeded stageHtml
               {| MarkdownToHtmlConverter.originalLength := String.length text;
                  MarkdownToHtmlConverter.htmlLength := String.length stageHtml;
                  MarkdownToHtmlConverter.sanitized := cleaned |}
           /\ data (fst (stage2 stageHtml)) = Some bytes
           /\ result
              = (succeeded bytes
                   {| MarkdownToPdfConverter.markdownLength := String.length text;
                      MarkdownToPdfConverter.htmlLength :=
                        String.length
                          (MarkdownToPdfConverter.documentHtml opts stageHtml);
                      MarkdownToPdfConverter.pdfSize := List.length bytes;
                      MarkdownToPdfConverter.sanitized := cleaned |},
                 snd stage1 ++ snd (stage2 stageHtml))).
Proof.
  intros Hne Hparse opts stage1 stage2 result.
  assert (Hresult :
    result
    = match usable_text (fst stage1) with
      | None =>
          (failure ("Markdown to HTML conversion failed: "
                      ++ interpolate (error (fst stage1)))%string, snd stage1)
      | Some stageHtml =>
          match usable_buffer (fst (stage2 stageHtml)) with
          | None =>
              (failure ("HTML to PDF conversion failed: "
                          ++ interpolate (error (fst (stage2 stageHtml))))%string,
               snd stage1 ++ snd (stage2 stageHtml))
          | Some bytes =>
              (succeeded bytes
                 {| MarkdownToPdfConverter.markdownLength := String.length text;
                    MarkdownToPdfConverter.htmlLength :=
                      String.length
                        (MarkdownToPdfConverter.documentHtml opts stageHtml);
                    MarkdownToPdfConverter.pdfSize := List.length bytes;
                    MarkdownToPdfConverter.sanitized :=
                      match metadata (fst stage1) with
                      | Some m => MarkdownToHtmlConverter.sanitized m
                      | None => false
                      end |},
               snd stage1 ++ snd (stage2 stageHtml))
          end
      end).
  { unfold result, MarkdownToPdfConverter.convertMarkdownToPdf.
    rewrite (nonempty_string_VStr text Hne), Hparse. cbv zeta.
    fold opts. fold stage1. run_blocks.
    destruct stage1 as [r1 t1]. cbn [fst snd].
    destruct (usable_text r1) as [stageHtml|]; [|cbn; now rewrite ?app_nil_r].
    fold (stage2 stageHtml).
    destruct (stage2 stageHtml) as [r2 t2]. cbn [fst snd].
    destruct (usable_buffer r2); cbn; now rewrite ?app_nil_r. }
  assert (Hstage2 : forall stageHtml,
             success (fst (stage2 stageHtml)) = true ->
             exists bytes, data (fst (stage2 stageHtml)) = Some bytes
                           /\ usable_buffer (fst (stage2 stageHtml)) = Some bytes).
  { intros stageHtml Hok.
    pose proof (convertHtmlToPdf_shaped w
                  (VStr (MarkdownToPdfConverter.documentHtml opts stageHtml))
                  (prop opts "pdfOptions")) as Hshape.
    fold (stage2 stageHtml) in Hshape.
    unfold well_shaped in Hshape. unfold usable_buffer. rewrite Hok in *.
    destruct (data (fst (stage2 stageHtml))) as [bytes|]; [|now destruct Hshape].
    now exists bytes. }
  split; [split|].
  - rewrite Hresult. intros Hok.
    destruct (usable_text (fst stage1)) as [stageHtml|]; [|discriminate Hok].
    exists stageHtml. split; [reflexivity|].
    destruct (success (fst (stage2 stageHtml))) eqn:E; [reflexivity|].
    rewrite (usable_buffer_failed _ E) in Hok. discriminate Hok.
  - intros [stageHtml [Husable Hok]]. rewrite Hresult, Husable.
    destruct (Hstage2 stageHtml Hok) as [bytes [_ ->]]. reflexivity.
  - intros stageHtml Husable Hok.
    destruct (Hstage2 stageHtml Hok) as [bytes [Hdata Hbuffer]].
    destruct (usable_text_inv _ _ Husable) as [Hok1 [Hdata1 _]].
    destruct (convertMarkdownToHtml_success w text (prop opts "markdownOptions") Hok1)
      as [html [cleaned Hstage1]].
    fold stage1 in Hstage1.
    assert (html = stageHtml) as ->.
    { rewrite Hstage1 in Hdata1. cbn in Hdata1. congruence. }
    exists bytes, cleaned. split; [exact Hstage1|]. split; [exact Hdata|].
    rewrite Hresult, Husable, Hbuffer, Hstage1. reflexivity.
Qed.

Lemma markdown_to_pdf_success_witness :
  MarkdownToPdfConverter.convertMarkdownToPdf sample_world (VStr "# Hi")
    (VObj [("documentOptions", VObj [("fullDocument", VBool false)])])
  = (succeeded [x25; x50; x44; x46]
       {| MarkdownToPdfConverter.markdownLength := 4;
          MarkdownToPdfConverter.htmlLength := 11;
          MarkdownToPdfConverter.pdfSize := 4;
          MarkdownToPdfConverter.sanitized := false |},
     snd (MarkdownToHtmlConverter.convertMarkdownToHtml sample_world (VStr "# Hi")
            VUndefined)
     ++ snd (HtmlToPdfConverter.convertHtmlToPdf sample_world (VStr "<p># Hi</p>")
               VUndefined)).
Proof.
  assert (Hne : "# Hi"%string <> ""%string) by discriminate.
  destruct (proj2 (markdown_to_pdf_success sample_world "# Hi"
                     (VObj [("documentOptions", VObj [("fullDocument", VBool false)])])
                     (VObj [("documentOptions", VObj [("fullDocument", VBool false)])])
                     Hne eq_refl)
              "<p># Hi</p>"%string eq_refl eq_refl)
    as [bytes [cleaned [Hstage1 [Hdata Hresult]]]].
  vm_compute in Hstage1, Hdata.
  inversion Hstage1; subst cleaned. inversion Hdata; subst bytes.
  exact Hresult.
Defined.

(* ================================================================== *)
(** ** Metadata placed in an existing head *)
(* ================================================================== *)

Lemma starts_with_inv (n h : string) :
  Str.starts_with n h = true -> exists rest, h = (n ++ rest)%string.
Proof.
  revert h. induction n as [|x n IH]; intros h H.
  - now exists h.
  - destruct h as [|y h]; [discriminate|]. cbn in H.
    apply andb_true_iff in H. destruct H as [Hxy H].
    apply Ascii.eqb_eq in Hxy. subst y.
    destruct (IH h H) as [rest ->]. now exists rest.
Qed.

Lemma drop_app (n rest : string) : Str.drop (String.length n) (n ++ rest) = rest.
Proof. induction n as [|x n IH]; [now destruct rest|exact IH]. Qed.

Lemma split_first_eq (n h : string) :
  Str.split_first n h
  = if Str.starts_with n h then Some (EmptyString, Str.drop (String.length n) h)
    else match h with
         | EmptyString => None
         | String c rest =>
             match Str.split_first n rest with
             | Some (before, after) => Some (String c before, after)
             | None => None
             end
         end.
Proof. destruct h; reflexivity. Qed.

(** [split_first] finds the occurrence that starts first. *)
Lemma split_first_earliest (n before after h : string) :
  h = (before ++ n ++ after)%string ->
  (forall b a, h = (b ++ n ++ a)%string -> String.length before <= String.length b) ->
  Str.split_first n h = Some (before, after).
Proof.
  revert h. induction before as [|c before IH]; intros h -> Hfirst.
  - cbn [append]. now rewrite split_first_eq, starts_with_app, drop_app.
  - cbn [append]. rewrite split_first_eq.
    destruct (Str.starts_with n (String c (before ++ n ++ after))) eqn:E.
    + apply starts_with_inv in E. destruct E as [rest E].
      specialize (Hfirst ""%string rest E). cbn in Hfirst. lia.
    + rewrite (IH _ eq_refl); [reflexivity|].
      intros b a Hb.
      specialize (Hfirst (String c b) a). cbn in Hfirst.
      rewrite Hb in Hfirst. specialize (Hfirst eq_refl). lia.
Qed.

Lemma includes_char_app (c : ascii) (x y : string) :
  Str.includes (String c "") (x ++ y)
  = Str.includes (String c "") x || Str.includes (String c "") y.
Proof.
  induction x as [|a x IH].
  - cbn [append]. cbn. reflexivity.
  - cbn [append Str.includes Str.starts_with]. rewrite IH.
    now rewrite orb_assoc.
Qed.

(** A replacement text without a dollar sign stands for itself. *)
Lemma get_substitution_plain (matched before after template : string) :
  Str.includes "$" template = false ->
  Str.get_substitution matched before after template = template.
Proof.
  induction template as [|c rest IH]; [reflexivity|].
  cbn [Str.includes Str.starts_with]. intros H.
  apply orb_false_iff in H. destruct H as [Hc Hrest].
  rewrite andb_true_r in Hc.
  cbn [Str.get_substitution]. rewrite Ascii.eqb_sym, Hc, (IH Hrest). reflexivity.
Qed.

(** X12: when metadata is to be placed (a title, a subject or a creator
    is given) and the HTML has an [<html] or [<head] marker, the elements
    go right after the first exact [<head>] tag, one per line, the HTML
    before and after it unchanged, provided their text holds no dollar
    sign (which the replacement would interpret).  When the HTML holds no
    exact [<head>] tag (a head with attributes, or an [<html>] without
    head), it is passed on unchanged and the metadata is dropped. *)
Theorem metadata_into_existing_head (docxOptions : list (string * value))
  (html : string) :
  truthy (get_prop "title" docxOptions)
  || truthy (get_prop "subject" docxOptions)
  || truthy (get_prop "creator" docxOptions) = true ->
  Str.includes "<html" html || Str.includes "<head" html = true ->
  let head :=
    Str.join HtmlToDocxConverter.headSeparator
      (HtmlToDocxConverter.headContent docxOptions) in
  (forall before after,
      html = (before ++ "<head>" ++ after)%string ->
      (forall b a, html = (b ++ "<head>" ++ a)%string ->
                   String.length before <= String.length b) ->
      Str.includes "$" head = false ->
      HtmlToDocxConverter.processedHtml docxOptions html
      = (before ++ "<head>" ++ HtmlToDocxConverter.headSeparator ++ head ++ after)%string)
  /\ (Str.includes "<head>" html = false ->
      HtmlToDocxConverter.processedHtml docxOptions html = html).
Proof.
  intros Hguard Hmarker head.
  assert (Hbranch : negb (Str.includes "<html" html) && negb (Str.includes "<head" html)
                    = false).
  { destruct (Str.includes "<html" html); [reflexivity|].
    cbn in Hmarker. now rewrite Hmarker. }
  split.
  - intros before after Hhtml Hfirst Hplain.
    assert (Hhead : Str.includes "<head>" html = true).
    { apply includes_Contains. now exists before, after. }
    unfold HtmlToDocxConverter.processedHtml.
    rewrite Hguard. cbv zeta. rewrite Hbranch, Hhead.
    unfold Str.replace.
    rewrite (split_first_earliest "<head>" before after html Hhtml Hfirst).
    fold head.
    rewrite get_substitution_plain.
    + now rewrite !sapp_assoc.
    + change ("<head>" ++ HtmlToDocxConverter.headSeparator ++ head)%string
        with (("<head>" ++ HtmlToDocxConverter.headSeparator) ++ head)%string.
      rewrite (includes_char_app "$"), Hplain. reflexivity.
  - intros Hnone. unfold HtmlToDocxConverter.processedHtml.
    rewrite Hguard. cbv zeta. now rewrite Hbranch, Hnone.
Qed.

Lemma metadata_into_existing_head_witness :
  HtmlToDocxConverter.processedHtml [("title", VStr "T"); ("keywords", VStr "k")]
    "<html><head><head></head></html>"
  = ("<html><head>" ++ HtmlToDocxConverter.headSeparator
       ++ "<title>T</title>" ++ HtmlToDocxConverter.headSeparator
       ++ "<meta name=" ++ dq "keywords" ++ " content=" ++ dq "k" ++ ">"
       ++ "<head></head></html>")%string
  /\ HtmlToDocxConverter.processedHtml [("title", VStr "T")]
       "<html><head lang=en></head></html>"
     = "<html><head lang=en></head></html>"%string.
Proof.
  split.
  - apply (proj1 (metadata_into_existing_head
                    [("title", VStr "T"); ("keywords", VStr "k")]
                    "<html><head><head></head></html>" eq_refl eq_refl)
             "<html>"%string "<head></head></html>"%string eq_refl);
      [|reflexivity].
    intros b a Hb.
    do 6 (destruct b as [|? b]; [discriminate Hb|]).
    cbn. lia.
  - exact (proj2 (metadata_into_existing_head [("title", VStr "T")]
                    "<html><head lang=en></head></html>" eq_refl eq_refl) eq_refl).
Defined.

(* ================================================================== *)
(** ** The command line: file conversion *)
(* ================================================================== *)

(** Called with a path where the options belong, the four converters
    behind the PDF and DOCX conversion types fail without a call. *)
Lemma convertWith_rejects (w : World) (converter : Cli.Converter)
  (content outputFile : string) :
  converter <> Cli.MarkdownToHtml ->
  exists msg,
    Cli.convertWith w converter content outputFile = ((false, Some msg), [])
    /\ (content <> ""%string ->
        msg = ("Invalid options: " ++ not_an_object)%string).
Proof.
  intros Hc.
  destruct converter; [congruence| | | |];
    (destruct content as [|c rest];
     [eexists; split; [reflexivity|congruence]
     |eexists; split; [reflexivity|intros _; reflexivity]]).
Qed.

(** X13: the command-line conversions [md-to-pdf], [html-to-pdf],
    [md-to-docx] and [html-to-docx] can never succeed.  The output path
    is passed to the converter in the place of its options, so
    validation rejects it: on every host the run ends with exit code 1,
    no parser, browser or emitter is called and no file is written; when
    the input file is there and not empty, the line printed is
    "Conversion failed: Invalid options: " followed by the validation
    message for a string given as options. *)
Theorem cli_conversions_cannot_succeed (h : Cli.Host)
  (conversionType inputFile outputFile : string) (options : Cli.Options) :
  In conversionType ["md-to-pdf"; "html-to-pdf"; "md-to-docx"; "html-to-docx"]%string ->
  let run := Cli.convertFile h conversionType inputFile outputFile options in
  fst run = Cli.Exited 1
  /\ forallb inert (snd run) = true
  /\ (forall content,
         Cli.existsSync h inputFile = true ->
         (forall m, Cli.importModule h m = None) ->
         Cli.readFile h inputFile = inr content ->
         content <> ""%string ->
         In (Cli.ErrorLine ("Conversion failed: Invalid options: " ++ not_an_object)%string)
            (snd run)).
Proof.
  intros Hin run. subst run.
  assert (Hcases :
    exists converter module,
      converter <> Cli.MarkdownToHtml
      /\ Cli.convertFile h conversionType inputFile outputFile options
         = Cli.try_catch
             (Cli.bind (Cli.emit (Cli.Exists inputFile)) (fun _ =>
              Cli.bind (if Cli.existsSync h inputFile then Cli.ret tt
                        else Cli.bind
                               (Cli.emit (Cli.ErrorLine
                                  ("Error: Input file " ++ dq inputFile
                                     ++ " does not exist.")%string))
                               (fun _ => Cli.exit 1)) (fun _ =>
              Cli.bind (Cli.attempt (Cli.Import module)
                          (match Cli.importModule h module with
                           | Some e => inl e
                           | None => inr converter
                           end)) (fun converter =>
              Cli.bind (Cli.emit (Cli.Log ("Converting " ++ inputFile ++ " to "
                                             ++ outputFile ++ "...")%string)) (fun _ =>
              Cli.bind
                (Cli.bind (Cli.attempt (Cli.ReadFile inputFile)
                             (Cli.readFile h inputFile)) (fun content =>
                 Cli.bind (Cli.await (Cli.convertWith (Cli.converters h) converter
                                        content outputFile)) (fun result =>
                 if fst result then Cli.ret tt
                 else Cli.bind
                        (Cli.emit (Cli.ErrorLine
                           ("Conversion failed: " ++ interpolate (snd result))%string))
                        (fun _ => Cli.exit 1))))
                (fun _ =>
                 Cli.emit (Cli.Log (Cli.successMark ++ " Successfully converted to "
                                      ++ outputFile)%string)))))))
             (fun error =>
                Cli.bind (Cli.emit (Cli.ErrorLine
                            ("Error: " ++ interpolate (Cli.message error))%string))
                  (fun _ =>
                Cli.bind (match Cli.code error with
                          | Some c =>
                              if String.eqb c "MODULE_NOT_FOUND" then
                                Cli.emit (Cli.ErrorLine
                                  ("Please run " ++ dq "npm run build"
                                     ++ " first to compile the converters.")%string)
                              else Cli.ret tt
                          | None => Cli.ret tt
                          end) (fun _ => Cli.exit 1)))).
  { cbn [In] in Hin.
    destruct Hin as [<- | [<- | [<- | [<- | []]]]].
    - exists Cli.MarkdownToPdf, "markdownToPdf.js"%string. split; [discriminate|reflexivity].
    - exists Cli.HtmlToPdf, "htmlToPdf.js"%string. split; [discriminate|reflexivity].
    - exists Cli.MarkdownToDocx, "markdownToDocx.js"%string. split; [discriminate|reflexivity].
    - exists Cli.HtmlToDocx, "htmlToDocx.js"%string. split; [discriminate|reflexivity]. }
  destruct Hcases as [converter [module [Hconverter ->]]].
  unfold Cli.try_catch, Cli.bind, Cli.emit, Cli.attempt, Cli.await, Cli.exit, Cli.ret.
  destruct (Cli.existsSync h inputFile) eqn:Hexists.
  2: { cbn. repeat split. intros content Habsurd. discriminate Habsurd. }
  destruct (Cli.importModule h module) as [e|] eqn:Himport.
  { cbn. destruct (Cli.code e) as [c|]; [destruct (String.eqb c _)|]; cbn;
      (repeat split; intros content _ Hall; rewrite Hall in Himport; discriminate). }
  destruct (Cli.readFile h inputFile) as [e|content] eqn:Hread.
  { cbn. destruct (Cli.code e) as [c|]; [destruct (String.eqb c _)|]; cbn;
      (repeat split; intros content _ _ Habsurd; discriminate Habsurd). }
  destruct (convertWith_rejects (Cli.converters h) converter content outputFile Hconverter)
    as [msg [-> Hmsg]].
  cbn. repeat split.
  intros content' _ _ Hsame Hne. inversion Hsame; subst content'.
  rewrite (Hmsg Hne). cbn. tauto.
Qed.

Lemma cli_conversions_cannot_succeed_witness :
  let run := Cli.convertFile sample_host "md-to-pdf" "a.md" "a.pdf" Cli.noOptions in
  fst run = Cli.Exited 1
  /\ forallb inert (snd run) = true
  /\ In (Cli.ErrorLine ("Conversion failed: Invalid options: " ++ not_an_object)%string)
        (snd run).
Proof.
  destruct (cli_conversions_cannot_succeed sample_host "md-to-pdf" "a.md" "a.pdf"
              Cli.noOptions (or_introl eq_refl)) as [Hexit [Hinert Hline]].
  split; [exact Hexit|]. split; [exact Hinert|].
  apply (Hline "# Hi"%string); [reflexivity|reflexivity|reflexivity|discriminate].
Defined.

(** Markdown-to-HTML under the fixed options of the command line. *)
Lemma convert_with_cli_options (w : World) (markdown : string) :
  MarkdownToHtmlConverter.convertMarkdownToHtml w (VStr markdown)
    (VObj [("gfm", VBool true); ("breaks", VBool false); ("sanitize", VBool false)])
  = if String.eqb markdown "" then
      (failure "Invalid markdown input: Markdown must be a non-empty string", [])
    else
      match marked_parse w cli_configured markdown with
      | inl e =>
          (failure ("Markdown conversion failed: " ++ errorMessage e)%string,
           [EMarkedSetOptions cli_configured; EMarkedParse markdown])
      | inr html =>
          (succeeded html
             {| MarkdownToHtmlConverter.originalLength := String.length markdown;
                MarkdownToHtmlConverter.htmlLength := String.length html;
                MarkdownToHtmlConverter.sanitized := false |},
           [EMarkedSetOptions cli_configured; EMarkedParse markdown])
      end.
Proof.
  destruct (String.eqb_spec markdown "") as [->|Hne]; [reflexivity|].
  unfold MarkdownToHtmlConverter.convertMarkdownToHtml.
  rewrite (nonempty_string_VStr markdown Hne).
  replace (safeParse MarkdownToHtmlOptionsSchema
             (VObj [("gfm", VBool true); ("breaks", VBool false);
                    ("sanitize", VBool false)]))
    with (ParseOk (VObj [("sanitize", VBool false); ("breaks", VBool false);
                         ("gfm", VBool true)]))
    by reflexivity.
  cbv zeta. run_blocks.
  change (MarkdownToHtmlConverter.markedOptions _) with cli_configured.
  destruct (marked_parse w cli_configured markdown) as [e|html]; reflexivity.
Qed.

(** The leaves of a run that wrote nothing and ended with exit code 1. *)
Ltac cli_trace_absurd H :=
  cbn in H; repeat (destruct H as [H|H]; [discriminate H|]); destruct H.

Ltac cli_failed :=
  split; [intros ? ? Hin; cli_trace_absurd Hin|];
  split; [intros ? ? Hin; cli_trace_absurd Hin|];
  split; [split; [discriminate|intros [? [Hin _]]; cli_trace_absurd Hin]|];
  reflexivity.

(** X14: the command-line conversion [md-to-html] writes only the output
    file, only after the parser succeeded on the contents of the input
    file, and what it writes is the parser's output, unsanitized (the
    sanitizer is never called), wrapped in the full document when
    [--full-doc] is given, under the title given or "Converted
    Document".  The run returns exactly when that write succeeded;
    otherwise it ends with exit code 1. *)
Theorem cli_markdown_to_html (h : Cli.Host) (inputFile outputFile : string)
  (options : Cli.Options) :
  let run := Cli.convertFile h "md-to-html" inputFile outputFile options in
  (forall path content,
      In (Cli.WriteFile path content) (snd run) ->
      path = outputFile
      /\ exists markdown html,
           Cli.readFile h inputFile = inr markdown
           /\ marked_parse (Cli.converters h) cli_configured markdown = inr html
           /\ content = cli_output options html)
  /\ (forall html policy, ~ In (Cli.Call (ESanitizeHtml html policy)) (snd run))
  /\ (fst run = Cli.Returned tt <->
      exists content,
        In (Cli.WriteFile outputFile content) (snd run)
        /\ Cli.writeFile h outputFile content = None)
  /\ (fst run <> Cli.Returned tt -> fst run = Cli.Exited 1).
Proof.
  intros run. subst run. unfold Cli.convertFile.
  rewrite !String.eqb_refl.
  unfold Cli.try_catch, Cli.bind, Cli.emit, Cli.attempt, Cli.await, Cli.exit, Cli.ret,
    Cli.throw.
  destruct (Cli.existsSync h inputFile) eqn:Hexists; [|cbn; cli_failed].
  destruct (Cli.importModule h "markdownToHtml.js") as [e|] eqn:Himport.
  { cbn. destruct (Cli.code e) as [c|]; [destruct (String.eqb c _)|]; cbn; cli_failed. }
  destruct (Cli.readFile h inputFile) as [e|markdown] eqn:Hread.
  { cbn. destruct (Cli.code e) as [c|]; [destruct (String.eqb c _)|]; cbn; cli_failed. }
  rewrite convert_with_cli_options.
  destruct (String.eqb markdown "") eqn:Hempty; [cbn; cli_failed|].
  destruct (marked_parse (Cli.converters h) cli_configured markdown) as [e|html] eqn:Hparse;
    [cbn; cli_failed|].
  cbn [fst snd success data map List.app succeeded].
  assert (Hcontent :
    (if Cli.fullDoc options
     then Some (MarkdownToHtmlConverter.createFullHtmlDocument (interpolate (Some html))
                  (Some (string_or (Cli.title options) "Converted Document")) None)
     else Some html)
    = Some (cli_output options html)).
  { unfold cli_output. now destruct (Cli.fullDoc options). }
  rewrite Hcontent.
  assert (Hwritten : forall (path content : string) (rest : list Cli.Event),
    forallb inert rest = true ->
    In (Cli.WriteFile path content)
       (Cli.Exists inputFile :: Cli.Import "markdownToHtml.js"
        :: Cli.Log ("Converting " ++ inputFile ++ " to " ++ outputFile ++ "...")%string
        :: Cli.ReadFile inputFile :: Cli.Call (EMarkedSetOptions cli_configured)
        :: Cli.Call (EMarkedParse markdown)
        :: Cli.WriteFile outputFile (cli_output options html) :: rest) ->
    path = outputFile /\ content = cli_output options html).
  { intros path content rest Hrest H.
    cbn [In] in H. repeat (destruct H as [H|H]; [try discriminate H|]).
    - inversion H. now subst.
    - rewrite forallb_forall in Hrest. apply Hrest in H. discriminate H. }
  assert (Hclean : forall (html' : string) policy (rest : list Cli.Event),
    forallb inert rest = true ->
    ~ In (Cli.Call (ESanitizeHtml html' policy))
        (Cli.Exists inputFile :: Cli.Import "markdownToHtml.js"
         :: Cli.Log ("Converting " ++ inputFile ++ " to " ++ outputFile ++ "...")%string
         :: Cli.ReadFile inputFile :: Cli.Call (EMarkedSetOptions cli_configured)
         :: Cli.Call (EMarkedParse markdown)
         :: Cli.WriteFile outputFile (cli_output options html) :: rest)).
  { intros html' policy rest Hrest H.
    cbn [In] in H. repeat (destruct H as [H|H]; [discriminate H|]).
    rewrite forallb_forall in Hrest. apply Hrest in H. discriminate H. }
  assert (Hsource : forall path content rest,
    forallb inert rest = true ->
    In (Cli.WriteFile path content)
       (Cli.Exists inputFile :: Cli.Import "markdownToHtml.js"
        :: Cli.Log ("Converting " ++ inputFile ++ " to " ++ outputFile ++ "...")%string
        :: Cli.ReadFile inputFile :: Cli.Call (EMarkedSetOptions cli_configured)
        :: Cli.Call (EMarkedParse markdown)
        :: Cli.WriteFile outputFile (cli_output options html) :: rest) ->
    path = outputFile
    /\ exists markdown0 html0 : string,
         @inr Cli.Error string markdown = inr markdown0
         /\ marked_parse (Cli.converters h) cli_configured markdown0 = inr html0
         /\ content = cli_output options html0).
  { intros path content rest Hrest H.
    destruct (Hwritten path content rest Hrest H) as [-> ->].
    split; [reflexivity|]. exists markdown, html. auto. }
  destruct (Cli.writeFile h outputFile (cli_output options html)) as [e|] eqn:Hwrite.
  - destruct (Cli.code e) as [c|]; [destruct (String.eqb c _)|];
      cbn -[cli_output In append].
    + split; [intros path content H; eapply Hsource; [|exact H]; reflexivity|].
      split; [intros html' policy H; eapply Hclean; [|exact H]; reflexivity|].
      split; [|reflexivity]. split; [discriminate|].
      intros [content [H Hnone]].
      apply Hwritten in H; [|reflexivity]. destruct H as [_ ->]. congruence.
    + split; [intros path content H; eapply Hsource; [|exact H]; reflexivity|].
      split; [intros html' policy H; eapply Hclean; [|exact H]; reflexivity|].
      split; [|reflexivity]. split; [discriminate|].
      intros [content [H Hnone]].
      apply Hwritten in H; [|reflexivity]. destruct H as [_ ->]. congruence.
    + split; [intros path content H; eapply Hsource; [|exact H]; reflexivity|].
      split; [intros html' policy H; eapply Hclean; [|exact H]; reflexivity|].
      split; [|reflexivity]. split; [discriminate|].
      intros [content [H Hnone]].
      apply Hwritten in H; [|reflexivity]. destruct H as [_ ->]. congruence.
  - cbn -[cli_output In append].
    split; [intros path content H; eapply Hsource; [|exact H]; reflexivity|].
    split; [intros html' policy H; eapply Hclean; [|exact H]; reflexivity|].
    split; [|intros H; now contradiction H].
    split; [|reflexivity].
    intros _. exists (cli_output options html). split; [|exact Hwrite].
    do 6 right. now left.
Qed.

Lemma cli_markdown_to_html_witness :
  fst (Cli.convertFile sample_host "md-to-html" "a.md" "a.html"
         {| Cli.port := None; Cli.fullDoc := false; Cli.title := Some "T"%string |})
  = Cli.Returned tt.
Proof.
  apply (proj2 (proj1 (proj2 (proj2
           (cli_markdown_to_html sample_host "a.md" "a.html"
              {| Cli.port := None; Cli.fullDoc := false;
                 Cli.title := Some "T"%string |}))))).
  exists "<p># Hi</p>"%string. split; [|reflexivity].
  do 6 right. left. reflexivity.
Defined.

(* ================================================================== *)
(** ** The command line: dispatch *)
(* ================================================================== *)

Section CliRules.

Context {A B : Type}.

Lemma exits_bind (m : Cli.P A) (k : A -> Cli.P B) :
  exits_with_one m -> (forall a, exits_with_one (k a)) ->
  exits_with_one (Cli.bind m k).
Proof.
  unfold exits_with_one, Cli.bind. destruct m as [[a|e|c] t]; cbn; auto.
  intros _ Hk. specialize (Hk a). destruct (k a) as [r t2]. exact Hk.
Qed.

Lemma exits_attempt (e : Cli.Event) (outcome : Cli.Error + A) :
  exits_with_one (Cli.attempt e outcome).
Proof. destruct outcome; exact I. Qed.

Lemma ends_try_catch (body : Cli.P A) (handler : Cli.Error -> Cli.P A) :
  exits_with_one body -> (forall e, ends_well (handler e)) ->
  ends_well (Cli.try_catch body handler).
Proof.
  unfold exits_with_one, ends_well, Cli.try_catch.
  destruct body as [[a|e|c] t]; cbn; auto.
  intros _ Hh. specialize (Hh e). destruct (handler e) as [r t2]. exact Hh.
Qed.

Lemma only_bind (ok : Cli.Event -> bool) (m : Cli.P A) (k : A -> Cli.P B) :
  only ok m -> (forall a, only ok (k a)) -> only ok (Cli.bind m k).
Proof.
  unfold only, Cli.bind. destruct m as [[a|e|c] t]; cbn; auto.
  intros Ht Hk. specialize (Hk a). destruct (k a) as [r t2]. cbn in *.
  rewrite forallb_app, Ht, Hk. reflexivity.
Qed.

Lemma only_attempt (ok : Cli.Event -> bool) (e : Cli.Event) (outcome : Cli.Error + A) :
  ok e = true -> only ok (Cli.attempt e outcome).
Proof. unfold only. intros H. destruct outcome; cbn; now rewrite H. Qed.

Lemma only_try_catch (ok : Cli.Event -> bool) (body : Cli.P A)
  (handler : Cli.Error -> Cli.P A) :
  only ok body -> (forall e, only ok (handler e)) ->
  only ok (Cli.try_catch body handler).
Proof.
  unfold only, Cli.try_catch. destruct body as [[a|e|c] t]; cbn; auto.
  intros Ht Hh. specialize (Hh e). destruct (handler e) as [r t2]. cbn in *.
  rewrite forallb_app, Ht, Hh. reflexivity.
Qed.

Lemma only_await (ok : Cli.Event -> bool) (d : Done A) :
  (forall e, ok (Cli.Call e) = true) -> only ok (Cli.await d).
Proof.
  unfold only, Cli.await. intros H. cbn.
  induction (snd d) as [|e t IH]; cbn; [reflexivity|]. now rewrite H, IH.
Qed.

(** A run that cannot throw is not changed by a handler. *)
Lemma try_catch_ends_well (body : Cli.P A) (handler : Cli.Error -> Cli.P A) :
  ends_well body -> Cli.try_catch body handler = body.
Proof.
  unfold ends_well, Cli.try_catch. destruct body as [[a|e|c] t]; cbn; tauto.
Qed.

End CliRules.

(** The blocks of the command, one combinator at a time. *)
Ltac cli_exits :=
  repeat match goal with
    | |- exits_with_one (Cli.bind _ _) => apply exits_bind; [|intro]
    | |- exits_with_one (Cli.attempt _ _) => apply exits_attempt
    | |- exits_with_one (Cli.emit _) => exact I
    | |- exits_with_one (Cli.ret _) => exact I
    | |- exits_with_one (Cli.await _) => exact I
    | |- exits_with_one (Cli.throw _) => exact I
    | |- exits_with_one (Cli.exit 1) => reflexivity
    | |- exits_with_one (if ?b then _ else _) => destruct b
    | |- exits_with_one (match ?x with _ => _ end) => destruct x
    | |- exits_with_one _ => progress cbv zeta
    end.

Ltac cli_only :=
  repeat match goal with
    | |- only _ (Cli.bind _ _) => apply only_bind; [|intro]
    | |- only _ (Cli.attempt _ _) => apply only_attempt; reflexivity
    | |- only _ (Cli.emit _) => reflexivity
    | |- only _ (Cli.ret _) => reflexivity
    | |- only _ (Cli.await _) => apply only_await; reflexivity
    | |- only _ (Cli.throw _) => reflexivity
    | |- only _ (Cli.exit _) => reflexivity
    | |- only _ (if ?b then _ else _) => destruct b
    | |- only _ (match ?x with _ => _ end) => destruct x
    | |- only _ _ => progress cbv zeta
    end.

Lemma convertFile_ends_well (h : Cli.Host)
  (conversionType inputFile outputFile : string) (options : Cli.Options) :
  ends_well (Cli.convertFile h conversionType inputFile outputFile options).
Proof.
  unfold Cli.convertFile. apply ends_try_catch.
  - cli_exits.
  - intros e. unfold ends_well, Cli.bind, Cli.emit, Cli.exit, Cli.ret.
    destruct (Cli.code e) as [c|]; [destruct (String.eqb c _)|]; reflexivity.
Qed.

Lemma convertFile_spawns_nothing (h : Cli.Host)
  (conversionType inputFile outputFile : string) (options : Cli.Options) :
  only (fun e => negb (is_spawn e))
    (Cli.convertFile h conversionType inputFile outputFile options).
Proof.
  unfold Cli.convertFile. apply only_try_catch.
  - cli_only.
  - intros e. cli_only.
Qed.

Lemma parseOptions_help (rest : list string) (options : Cli.Options) :
  no_value_flag rest ->
  In "--help"%string rest \/ In "-h"%string rest ->
  Cli.parseOptions rest options = None.
Proof.
  revert options. induction rest as [|a rest IH]; intros options Hflags Hhelp.
  - destruct Hhelp as [[]|[]].
  - destruct (Hflags a (or_introl eq_refl)) as [Hport [Hp Htitle]].
    apply String.eqb_neq in Hport, Hp, Htitle.
    cbn [Cli.parseOptions]. rewrite Hport, Hp, Htitle. cbn [orb].
    destruct (String.eqb a "--help") eqn:E1; [reflexivity|].
    destruct (String.eqb a "-h") eqn:E2; [reflexivity|]. cbn [orb].
    assert (Hrest : In "--help"%string rest \/ In "-h"%string rest).
    { apply String.eqb_neq in E1, E2.
      destruct Hhelp as [[H|H]|[H|H]]; auto; congruence. }
    assert (Hflags' : no_value_flag rest).
    { intros b Hb. apply Hflags. now right. }
    destruct (String.eqb a "--full-doc"); now apply IH.
Qed.

Lemma forward_run (received : list Cli.Signal) :
  Cli.forward received = (Cli.Returned tt, map Cli.Kill received).
Proof.
  induction received as [|signal rest IH]; [reflexivity|].
  cbn [Cli.forward map]. unfold Cli.bind, Cli.emit. now rewrite IH.
Qed.

(** Starting a server is the run of its script to the end. *)
Lemma startServer_stdio (h : Cli.Host) (mode : string) (options : Cli.Options) :
  mode <> "http"%string ->
  Cli.startServer h mode options = server_run h "index.js" None.
Proof.
  intros Hmode. apply String.eqb_neq in Hmode.
  unfold Cli.startServer, server_run. rewrite Hmode. cbv zeta.
  unfold Cli.bind at 1. unfold Cli.emit at 1. unfold Cli.bind at 1.
  rewrite forward_run.
  destruct (Cli.ending (Cli.spawn h "index.js" None)) as [e|[c|]];
    [|now cbn; rewrite app_nil_r..].
  unfold Cli.bind, Cli.emit, Cli.exit.
  destruct (Cli.code e) as [c|]; [destruct (String.eqb c "ENOENT")|];
    cbn; now rewrite <- ?app_assoc.
Qed.

Lemma startServer_http (h : Cli.Host) (options : Cli.Options) :
  Cli.startServer h "http" options
  = server_run h "http-server.js"
      match Cli.port options with
      | Some p => if String.eqb p "" then None else Some p
      | None => None
      end.
Proof.
  unfold Cli.startServer, server_run.
  change (String.eqb "http" "http") with true. cbv iota zeta.
  set (PORT := match Cli.port options with
               | Some p => if String.eqb p "" then None else Some p
               | None => None
               end).
  unfold Cli.bind at 1. unfold Cli.emit at 1. unfold Cli.bind at 1.
  rewrite forward_run.
  destruct (Cli.ending (Cli.spawn h "http-server.js" PORT)) as [e|[c|]];
    [|now cbn; rewrite app_nil_r..].
  unfold Cli.bind, Cli.emit, Cli.exit.
  destruct (Cli.code e) as [c|]; [destruct (String.eqb c "ENOENT")|];
    cbn; now rewrite <- ?app_assoc.
Qed.

(** X15: a help flag wins over the command.  When [--help] or [-h]
    stands among the arguments after the command, and no argument before
    it is taken as the value of [--port], [-p] or [--title], the program
    prints the usage text and does nothing else, whatever the command is
    (known or not, complete or not), except [stdio], which starts the
    stdio server without looking at the other arguments. *)
Theorem help_flag_wins (h : Cli.Host) (rest : list string) :
  no_value_flag rest ->
  In "--help"%string rest \/ In "-h"%string rest ->
  (forall command,
      command <> "stdio"%string ->
      Cli.main h (command :: rest) = (Cli.Returned tt, [Cli.Log Cli.helpText]))
  /\ Cli.main h ("stdio"%string :: rest) = server_run h "index.js" None.
Proof.
  intros Hflags Hhelp. split; [|apply startServer_stdio; discriminate].
  intros command Hcommand. apply String.eqb_neq in Hcommand.
  unfold Cli.main. rewrite Hcommand, (parseOptions_help rest _ Hflags Hhelp).
  reflexivity.
Qed.

Lemma help_flag_wins_witness :
  Cli.main sample_host ["convert"; "md-to-pdf"; "--help"]%string
  = (Cli.Returned tt, [Cli.Log Cli.helpText])
  /\ Cli.main sample_host ["frobnicate"; "--help"]%string
     = (Cli.Returned tt, [Cli.Log Cli.helpText]).
Proof.
  split.
  - apply (help_flag_wins sample_host ["md-to-pdf"; "--help"]%string).
    + intros a [<-|[<-|[]]]; repeat split; discriminate.
    + left. right. now left.
    + discriminate.
  - apply (help_flag_wins sample_host ["--help"]%string).
    + intros a [<-|[]]; repeat split; discriminate.
    + left. now left.
    + discriminate.
Defined.

(** What holds of the run of a server script. *)
Lemma server_run_discipline (h : Cli.Host) (script : string) (PORT : option string) :
  let run := server_run h script PORT in
  (forall e, fst run <> Cli.Thrown e)
  /\ (forall s p, In (Cli.Spawn s p) (snd run) -> s = script /\ p = PORT)
  /\ (forall c,
         fst run = Cli.Exited c -> c <> 1 ->
         exists exitCode,
           Cli.ending (Cli.spawn h script PORT) = inr exitCode
           /\ c = match exitCode with Some c' => c' | None => 0 end)
  /\ (forall e, In e (snd run) -> touches_files e = false).
Proof.
  unfold server_run. cbv zeta.
  assert (Hkill : forall e, In e (map Cli.Kill (Cli.signals (Cli.spawn h script PORT))) ->
                            exists signal, e = Cli.Kill signal).
  { intros e He. apply in_map_iff in He. destruct He as [signal [<- _]]. now exists signal. }
  destruct (Cli.ending (Cli.spawn h script PORT)) as [e|[c|]]; cbn [fst snd].
  - split; [discriminate|]. split; [|split].
    + intros s p [H|H]; [now inversion H|].
      apply in_app_iff in H. destruct H as [H|[H|[]]]; [|discriminate H].
      apply Hkill in H. destruct H as [signal H]. discriminate H.
    + intros c H Hc. inversion H. congruence.
    + intros ev [<-|H]; [reflexivity|].
      apply in_app_iff in H. destruct H as [H|[<-|[]]]; [|reflexivity].
      apply Hkill in H. destruct H as [signal ->]. reflexivity.
  - split; [discriminate|]. split; [|split].
    + intros s p [H|H]; [now inversion H|].
      apply Hkill in H. destruct H as [signal H]. discriminate H.
    + intros c' H _. inversion H; subst. eexists; split; reflexivity.
    + intros ev [<-|H]; [reflexivity|].
      apply Hkill in H. destruct H as [signal ->]. reflexivity.
  - split; [discriminate|]. split; [|split].
    + intros s p [H|H]; [now inversion H|].
      apply Hkill in H. destruct H as [signal H]. discriminate H.
    + intros c' H _. inversion H; subst. eexists; split; reflexivity.
    + intros ev [<-|H]; [reflexivity|].
      apply Hkill in H. destruct H as [signal ->]. reflexivity.
Qed.

(** X16: whatever the arguments and the host, the program never ends
    with an uncaught error.  It ends with an exit code other than 1 only
    when it started a server script and that script closed: the code is
    then the exit code of the script, 0 when it has none.  A server
    script is started only as the first action of a run, which is then
    the run of that script to its end: [index.js] without a port, or
    [http-server.js].  The file system, the module loader and the
    converters are touched only by a [convert] command that has its
    three operands. *)
Theorem main_ends_well (h : Cli.Host) (args : list string) :
  let run := Cli.main h args in
  (forall e, fst run <> Cli.Thrown e)
  /\ (forall c,
         fst run = Cli.Exited c -> c <> 1 ->
         exists script PORT exitCode,
           run = server_run h script PORT
           /\ Cli.ending (Cli.spawn h script PORT) = inr exitCode
           /\ c = match exitCode with Some c' => c' | None => 0 end)
  /\ (forall script PORT,
         In (Cli.Spawn script PORT) (snd run) ->
         run = server_run h script PORT
         /\ (script = "index.js"%string /\ PORT = None
             \/ script = "http-server.js"%string))
  /\ (forall e,
         In e (snd run) -> touches_files e = true ->
         exists conversionType inputFile outputFile rest,
           args = "convert"%string :: conversionType :: inputFile :: outputFile :: rest).
Proof.
  intros run. subst run.
  set (good := fun run : Cli.P unit =>
    (forall e, fst run <> Cli.Thrown e)
    /\ (forall c,
           fst run = Cli.Exited c -> c <> 1 ->
           exists script PORT exitCode,
             run = server_run h script PORT
             /\ Cli.ending (Cli.spawn h script PORT) = inr exitCode
             /\ c = match exitCode with Some c' => c' | None => 0 end)
    /\ (forall script PORT,
           In (Cli.Spawn script PORT) (snd run) ->
           run = server_run h script PORT
           /\ (script = "index.js"%string /\ PORT = None
               \/ script = "http-server.js"%string))
    /\ (forall e,
           In e (snd run) -> touches_files e = true ->
           exists conversionType inputFile outputFile rest,
             args = "convert"%string :: conversionType :: inputFile :: outputFile :: rest)).
  change (good (Cli.main h args)).
  assert (Hserver : forall script PORT,
    script = "index.js"%string /\ PORT = None \/ script = "http-server.js"%string ->
    good (server_run h script PORT)).
  { intros script PORT Hscript.
    destruct (server_run_discipline h script PORT) as [H1 [H2 [H3 H4]]].
    split; [exact H1|]. split; [|split].
    - intros c Hc Hne. destruct (H3 c Hc Hne) as [exitCode [He Hcode]].
      now exists script, PORT, exitCode.
    - intros s p Hin. destruct (H2 s p Hin) as [-> ->]. now split.
    - intros e He Ht. rewrite (H4 e He) in Ht. discriminate Ht. }
  assert (Hquiet : forall (outcome : Cli.Outcome unit) (events : list Cli.Event),
    (outcome = Cli.Returned tt \/ outcome = Cli.Exited 1) ->
    (forall e, In e events -> is_spawn e = false /\ touches_files e = false) ->
    good (outcome, events)).
  { intros outcome events Houtcome Hevents. split; [|split; [|split]]; cbn [fst snd].
    - intros e. destruct Houtcome as [-> | ->]; discriminate.
    - intros c Hc Hne. destruct Houtcome as [-> | ->]; inversion Hc. congruence.
    - intros script PORT Hin. destruct (Hevents _ Hin) as [Hs _]. discriminate Hs.
    - intros e Hin Ht. destruct (Hevents _ Hin) as [_ Hf]. congruence. }
  assert (Hlines : forall lines,
    good (Cli.Exited 1, map Cli.ErrorLine lines)).
  { intros lines. apply Hquiet; [now right|].
    intros e He. apply in_map_iff in He. destruct He as [l [<- _]]. now split. }
  assert (Hhelp : good Cli.showHelp).
  { apply Hquiet; [now left|]. intros e [<-|[]]. now split. }
  unfold Cli.main.
  destruct args as [|command rest].
  { rewrite startServer_stdio by discriminate. apply Hserver. now left. }
  destruct (String.eqb command "stdio").
  { rewrite startServer_stdio by discriminate. apply Hserver. now left. }
  destruct (Cli.parseOptions rest Cli.noOptions) as [options|]; [|exact Hhelp].
  destruct (String.eqb command "http").
  { rewrite startServer_http. apply Hserver. now right. }
  destruct (String.eqb_spec command "convert") as [->|_].
  - destruct rest as [|conversionType [|inputFile [|outputFile rest]]];
      try (apply (Hlines
                    [("Error: Convert command requires conversion type, "
                        ++ "input file, and output file.")%string;
                     "Usage: convert <type> <input> <output>"%string;
                     ("Run " ++ dq "npx conversion-mcp-server help"
                        ++ " for more information.")%string])).
    rewrite try_catch_ends_well by apply convertFile_ends_well.
    pose proof (convertFile_ends_well h conversionType inputFile outputFile options)
      as Hends.
    pose proof (convertFile_spawns_nothing h conversionType inputFile outputFile options)
      as Hnone.
    unfold ends_well in Hends. unfold only in Hnone. rewrite forallb_forall in Hnone.
    destruct (Cli.convertFile h conversionType inputFile outputFile options)
      as [outcome events].
    cbn [fst snd] in *.
    split; [|split; [|split]]; cbn [fst snd].
    + intros e ->. exact Hends.
    + intros c -> Hne. congruence.
    + intros script PORT H. apply Hnone in H. discriminate H.
    + intros e _ _. now exists conversionType, inputFile, outputFile, rest.
  - destruct (String.eqb command "help" || String.eqb command "--help"
              || String.eqb command "-h"); [exact Hhelp|].
    apply (Hlines [("Unknown command: " ++ command)%string;
                   ("Run " ++ dq "npx conversion-mcp-server help"
                      ++ " for usage information.")%string]).
Qed.

Lemma main_ends_well_witness :
  Cli.main sample_host ["http"; "--port"; "8080"]%string
  = server_run sample_host "http-server.js" (Some "8080"%string)
  /\ fst (Cli.main sample_host ["http"; "--port"; "8080"]%string) = Cli.Exited 3.
Proof.
  destruct (proj1 (proj2 (proj2 (main_ends_well sample_host
                                   ["http"; "--port"; "8080"]%string)))
              "http-server.js"%string (Some "8080"%string))
    as [Hrun _].
  - now left.
  - split; [exact Hrun|reflexivity].
Defined.

(* ================================================================== *)
(** ** The REST endpoints *)
(* ================================================================== *)

Lemma attachment_answers {Meta} (d : Done (ConversionResult Buffer Meta))
  (contentType filename : string) :
  well_shaped (fst d) ->
  answers_with_file d contentType filename (Rest.attachment d contentType filename).
Proof.
  unfold well_shaped, answers_with_file, Rest.attachment, usable_buffer.
  destruct (success (fst d)); intros [H1 H2]; split; try discriminate; intros _.
  - destruct (data (fst d)) as [bytes|]; [|now contradiction H1].
    now exists bytes.
  - destruct (error (fst d)) as [msg|]; [|now contradiction H1].
    now exists msg.
Qed.

Lemma handler_present (body : value) (key : string)
  (respond : value -> value -> list Rest.Step) :
  absent body = false ->
  Rest.handler body key respond = respond (prop body key) (prop body "options").
Proof. destruct body; try discriminate; reflexivity. Qed.

Lemma handler_absent (body : value) (key : string)
  (respond : value -> value -> list Rest.Step) :
  answers_missing_body key body (Rest.handler body key respond).
Proof. split; intros ->; reflexivity. Qed.

(** X17: the five REST endpoints that answer with a file.  On a request
    with a body, each answers the result of its own converter, run on
    its field of the body and the [options] of the body: the converter's
    calls come first, then the content type, the attachment header with
    the file name and the converter's bytes when it succeeded, or 400
    with the converter's message when it failed.  A field that is no
    non-empty string is answered 400 with the "Invalid ... input"
    message and nothing is called.  A request without a body is answered
    500 with the engine's message and no converter runs; 500 is the
    answer to that only. *)
Theorem rest_file_endpoints (w : World) (body : value) :
  (absent body = false ->
   answers_with_file
     (HtmlToPdfConverter.convertHtmlToPdf w (prop body "html") (prop body "options"))
     "application/pdf" "converted.pdf" (Rest.htmlToPdf w body)
   /\ answers_with_file
        (MarkdownToPdfConverter.convertMarkdownToPdf w (prop body "markdown")
           (prop body "options"))
        "application/pdf" "converted.pdf" (Rest.markdownToPdf w body)
   /\ answers_with_file
        (HtmlToPdfConverter.convertUrlToPdf w (prop body "url") (prop body "options"))
        "application/pdf" "webpage.pdf" (Rest.urlToPdf w body)
   /\ answers_with_file
        (HtmlToDocxConverter.convertHtmlToDocx w (prop body "html") (prop body "options"))
        "application/vnd.openxmlformats-officedocument.wordprocessingml.document"
        "converted.docx" (Rest.htmlToDocx w body)
   /\ answers_with_file
        (MarkdownToDocxConverter.convertMarkdownToDocx w (prop body "markdown")
           (prop body "options"))
        "application/vnd.openxmlformats-officedocument.wordprocessingml.document"
        "converted.docx" (Rest.markdownToDocx w body))
  /\ (absent body = false ->
      (nonempty_string (prop body "html") = None ->
       rejects_input "Invalid HTML input: HTML must be a non-empty string"
         (Rest.htmlToPdf w body)
       /\ rejects_input "Invalid HTML input: HTML must be a non-empty string"
            (Rest.htmlToDocx w body))
      /\ (nonempty_string (prop body "markdown") = None ->
          rejects_input "Invalid markdown input: Markdown must be a non-empty string"
            (Rest.markdownToPdf w body)
          /\ rejects_input "Invalid markdown input: Markdown must be a non-empty string"
               (Rest.markdownToDocx w body))
      /\ (nonempty_string (prop body "url") = None ->
          rejects_input "Invalid URL input: URL must be a non-empty string"
            (Rest.urlToPdf w body)))
  /\ (answers_missing_body "html" body (Rest.htmlToPdf w body)
      /\ answers_missing_body "markdown" body (Rest.markdownToPdf w body)
      /\ answers_missing_body "url" body (Rest.urlToPdf w body)
      /\ answers_missing_body "html" body (Rest.htmlToDocx w body)
      /\ answers_missing_body "markdown" body (Rest.markdownToDocx w body)).
Proof.
  split; [|split].
  - intros Hpresent.
    unfold Rest.htmlToPdf, Rest.markdownToPdf, Rest.urlToPdf, Rest.htmlToDocx,
      Rest.markdownToDocx.
    rewrite !(handler_present body _ _ Hpresent).
    repeat split; apply attachment_answers.
    + apply convertHtmlToPdf_shaped.
    + apply convertHtmlToPdf_shaped.
    + apply convertMarkdownToPdf_shaped.
    + apply convertMarkdownToPdf_shaped.
    + apply convertUrlToPdf_shaped.
    + apply convertUrlToPdf_shaped.
    + apply convertHtmlToDocx_shaped.
    + apply convertHtmlToDocx_shaped.
    + apply convertMarkdownToDocx_shaped.
    + apply convertMarkdownToDocx_shaped.
  - intros Hpresent.
    unfold Rest.htmlToPdf, Rest.markdownToPdf, Rest.urlToPdf, Rest.htmlToDocx,
      Rest.markdownToDocx, rejects_input.
    rewrite !(handler_present body _ _ Hpresent).
    unfold Rest.attachment, HtmlToPdfConverter.convertHtmlToPdf,
      HtmlToPdfConverter.convertUrlToPdf, HtmlToDocxConverter.convertHtmlToDocx,
      MarkdownToPdfConverter.convertMarkdownToPdf,
      MarkdownToDocxConverter.convertMarkdownToDocx.
    split; [|split]; intros ->; try split; reflexivity.
  - unfold Rest.htmlToPdf, Rest.markdownToPdf, Rest.urlToPdf, Rest.htmlToDocx,
      Rest.markdownToDocx.
    repeat split; intros ->; reflexivity.
Qed.

Lemma rest_file_endpoints_witness :
  (exists bytes,
      data (fst (HtmlToPdfConverter.convertHtmlToPdf sample_world (VStr "<p>x</p>")
                   VUndefined))
      = Some bytes
      /\ Rest.htmlToPdf sample_world (VObj [("html", VStr "<p>x</p>")])
         = (map Rest.Call
              (snd (HtmlToPdfConverter.convertHtmlToPdf sample_world (VStr "<p>x</p>")
                      VUndefined))
            ++ [Rest.SetHeader "Content-Type" "application/pdf";
                Rest.SetHeader "Content-Disposition"
                  ("attachment; filename=" ++ dq "converted.pdf")%string;
                Rest.Send bytes])%list)
  /\ Rest.urlToPdf sample_world (VObj [("url", VNum 1)])
     = [Rest.Status 400;
        Rest.Json (Some "Invalid URL input: URL must be a non-empty string"%string)]
  /\ Rest.markdownToDocx sample_world VNull
     = [Rest.Status 500;
        Rest.Json (Some (Rest.cannotDestructure "markdown" "null"))].
Proof.
  split; [|split].
  - exact (proj1 (proj1 (proj1 (rest_file_endpoints sample_world
                                  (VObj [("html", VStr "<p>x</p>")])) eq_refl))
             eq_refl).
  - exact (proj2 (proj2 (proj1 (proj2 (rest_file_endpoints sample_world
                                         (VObj [("url", VNum 1)]))) eq_refl))
             eq_refl).
  - exact (proj2 (proj2 (proj2 (proj2 (proj2 (proj2 (proj2
             (rest_file_endpoints sample_world VNull))))))) eq_refl).
Defined.

(** X18: the Markdown-to-HTML endpoint.  On a request with a body it
    answers the result of the converter on the [markdown] and [options]
    of the body, after the converter's calls: non-empty HTML is sent,
    as it is or, when the [fullDocument] field of the options is truthy,
    inside the full document under the [title] field of the options or
    "Document", with the content type [text/html]; a failure is answered
    400 with the converter's message; and a success with empty HTML is
    answered 400 with no message at all, the only case of this.  A
    request without a body is answered 500 with the engine's message. *)
Theorem rest_markdown_to_html (toString : value -> string) (w : World) (body : value) :
  let options := prop body "options" in
  let d := MarkdownToHtmlConverter.convertMarkdownToHtml w (prop body "markdown") options in
  let r := Rest.markdownToHtml toString w body in
  let document html :=
    if truthy (prop options "fullDocument") then
      MarkdownToHtmlConverter.createFullHtmlDocument html
        (Some (Rest.text_of toString (or_else (prop options "title") (VStr "Document"))))
        None
    else html in
  (absent body = false ->
   (success (fst d) = true ->
    exists html,
      data (fst d) = Some html
      /\ (html <> ""%string ->
          r = (map Rest.Call (snd d)
               ++ [Rest.SetHeader "Content-Type" "text/html";
                   Rest.SendText (document html)])%list)
      /\ (html = ""%string ->
          r = (map Rest.Call (snd d) ++ [Rest.Status 400; Rest.Json None])%list))
   /\ (success (fst d) = false ->
       exists msg,
         error (fst d) = Some msg
         /\ r = (map Rest.Call (snd d) ++ [Rest.Status 400; Rest.Json (Some msg)])%list)
   /\ (In (Rest.Json None) r <-> success (fst d) = true /\ data (fst d) = Some ""%string))
  /\ answers_missing_body "markdown" body r.
Proof.
  intros options d r document. split; [|apply handler_absent].
  intros Hpresent.
  assert (Hr : r
    = (map Rest.Call (snd d)
       ++ match usable_text (fst d) with
          | None => [Rest.Status 400; Rest.Json (error (fst d))]
          | Some html =>
              [Rest.SetHeader "Content-Type" "text/html"; Rest.SendText (document html)]
          end)%list).
  { unfold r, Rest.markdownToHtml. now rewrite (handler_present body _ _ Hpresent). }
  assert (Hcall : forall x, In x (map Rest.Call (snd d)) -> exists e, x = Rest.Call e).
  { intros x Hx. apply in_map_iff in Hx. destruct Hx as [e [<- _]]. now exists e. }
  pose proof (convertMarkdownToHtml_shaped w (prop body "markdown") options) as Hshape.
  fold d in Hshape. unfold well_shaped in Hshape.
  rewrite Hr. clear Hr. unfold usable_text.
  destruct (success (fst d)); destruct Hshape as [H1 H2].
  - destruct (data (fst d)) as [html|]; [|now contradiction H1].
    split; [|split; [discriminate|]].
    + intros _. exists html. split; [reflexivity|]. split.
      * intros Hne. apply String.eqb_neq in Hne. now rewrite Hne.
      * intros ->. cbn. now rewrite H2.
    + rewrite in_app_iff. split.
      * intros [H|H]; [apply Hcall in H; destruct H as [e H]; discriminate H|].
        destruct (String.eqb_spec html ""); [now subst|].
        destruct H as [H|[H|[]]]; discriminate H.
      * intros [_ Hdata]. inversion Hdata; subst html. right. cbn.
        rewrite H2. right. now left.
  - split; [discriminate|]. split.
    + intros _. destruct (error (fst d)) as [msg|]; [|now contradiction H1].
      now exists msg.
    + rewrite in_app_iff. split; [|intros [H _]; discriminate H].
      intros [H|H]; [apply Hcall in H; destruct H as [e H]; discriminate H|].
      destruct (error (fst d)) as [msg|]; [|now contradiction H1].
      destruct H as [H|[H|[]]]; discriminate H.
Qed.

Lemma rest_markdown_to_html_witness :
  Rest.markdownToHtml (fun _ => ""%string) sample_world
    (VObj [("markdown", VStr "# Hi")])
  = (map Rest.Call
       (snd (MarkdownToHtmlConverter.convertMarkdownToHtml sample_world (VStr "# Hi")
               VUndefined))
     ++ [Rest.SetHeader "Content-Type" "text/html"; Rest.SendText "<p># Hi</p>"])%list
  /\ In (Rest.Json None)
        (Rest.markdownToHtml (fun _ => ""%string) silent_parser_world
           (VObj [("markdown", VStr "# Hi")])).
Proof.
  split.
  - destruct (proj1 (proj1 (rest_markdown_to_html (fun _ => ""%string) sample_world
                              (VObj [("markdown", VStr "# Hi")])) eq_refl) eq_refl)
      as [html [Hdata [Hsent _]]].
    inversion Hdata; subst html. apply Hsent. discriminate.
  - apply (proj2 (proj2 (proj1 (rest_markdown_to_html (fun _ => ""%string)
                                  silent_parser_world
                                  (VObj [("markdown", VStr "# Hi")])) eq_refl))).
    split; reflexivity.
Defined.

(* ================================================================== *)
(** ** The tools that save a file *)
(* ================================================================== *)

(** The end of every file tool: convert, then write unless that failed. *)
Lemma save_outcome {Meta} (h : Tools.Host) (path : string)
  (d : Done (ConversionResult Buffer Meta)) (fallback : string)
  (text : Buffer -> ConversionResult Buffer Meta -> string) :
  tail_outcome h path
    (Tools.bind (Tools.await d) (fun result =>
       match usable_buffer result with
       | None => Tools.respond (Tools.failed (string_or (error result) fallback))
       | Some data =>
           Tools.bind (Tools.attempt (Tools.WriteFile path data)
                         (Tools.writeFile h path data))
             (fun _ => Tools.respond (Tools.done (text data result)))
       end)).
Proof.
  unfold tail_outcome, Tools.bind, Tools.await, Tools.respond, Tools.attempt.
  destruct d as [r t]. cbn [fst snd].
  destruct (usable_buffer r) as [data|].
  - destruct (Tools.writeFile h path data) as [e|] eqn:Hwrite.
    + right. right. left. exists t, data, e. split; [exact Hwrite|]. reflexivity.
    + right. right. right. exists t, data, (text data r). split; [exact Hwrite|].
      cbn. now rewrite ?app_nil_r.
  - right. left. exists t, (string_or (error r) fallback). now rewrite app_nil_r.
Qed.

(** The options are read before the conversion. *)
Lemma reading_outcome (h : Tools.Host) (path : string) (options : value) (key : string)
  (m : Tools.T Tools.Response) :
  tail_outcome h path m ->
  tail_outcome h path (Tools.bind (Tools.reading options key) (fun _ => m)).
Proof.
  intros Hm. unfold Tools.reading, Tools.bind, Tools.throw, Tools.next.
  destruct options; try (destruct m as [o t]; exact Hm).
  left. eexists. reflexivity.
Qed.

(** The start of every file tool: the arguments, then the directory. *)
Lemma checked_outcome (h : Tools.Host) (args : value) (key : string)
  (k : string -> Tools.T Tools.Response) :
  (forall path, tail_outcome h path (k path)) ->
  tool_outcome h args
    (Tools.guarded
       (Tools.bind (Tools.destructure args key) (fun _ =>
        Tools.bind (Tools.outputDirectory h (prop args "output_path")) k))).
Proof.
  intros Hk.
  assert (Hthrown : forall msg,
    (forall path, prop args "output_path" <> VStr path) ->
    tool_outcome h args
      (Tools.failed ("Error: " ++ msg)%string, [Tools.ConsoleError msg])).
  { intros msg Hnone. left. now exists msg. }
  destruct args; try (apply Hthrown; discriminate).
  all: unfold Tools.destructure, Tools.outputDirectory, Tools.guarded, Tools.bind,
         Tools.next, Tools.emit, Tools.respond, Tools.throw.
  all: match goal with
       | |- context [prop ?a "output_path"] =>
           destruct (prop a "output_path") as [| | | |path| |] eqn:Hpath;
           try (apply Hthrown; congruence)
       end.
  all: right; exists path; split; [exact Hpath|]; cbv zeta.
  all: destruct (Tools.access h (Tools.dirname h path)) eqn:Haccess;
         [right; split; [reflexivity|] | left; split; [reflexivity|reflexivity]].
  all: destruct (Hk path) as [[e ->]|[[calls [msg ->]]|[[calls [data [e [Hw ->]]]]
                                |[calls [data [text [Hw ->]]]]]]]; cbn.
  all: first
    [ left; eexists; reflexivity
    | right; left; eexists; eexists; reflexivity
    | right; right; left; exists calls, data, e; split; [exact Hw|];
      now rewrite <- app_assoc
    | right; right; right; exists calls, data, text; split; [exact Hw|reflexivity] ].
Qed.

Lemma file_tool_outcome (h : Tools.Host) (name : string) (args : value)
  (run : Tools.Response * list Tools.Step) :
  In name file_tools ->
  Tools.callTool h name args = Some run ->
  tool_outcome h args run.
Proof.
  intros Hin Hrun. cbn [file_tools In] in Hin.
  destruct Hin as [<-|[<-|[<-|[<-|[<-|[]]]]]];
    cbn in Hrun; inversion Hrun; subst run; clear Hrun.
  - apply checked_outcome. intros path. apply save_outcome.
  - apply checked_outcome. intros path. apply save_outcome.
  - apply checked_outcome. intros path. apply reading_outcome, save_outcome.
  - apply checked_outcome. intros path. apply save_outcome.
  - apply checked_outcome. intros path. apply reading_outcome, save_outcome.
Qed.

Lemma write_among_calls (dir path path' : string) (data data' : Buffer)
  (calls : trace) (rest : list Tools.Step) :
  (forall s, In s rest -> s <> Tools.WriteFile path' data') ->
  In (Tools.WriteFile path' data')
     (Tools.Access dir :: (map Tools.Call calls ++ Tools.WriteFile path data :: rest)%list) ->
  path' = path /\ data' = data.
Proof.
  intros Hrest [H|H]; [discriminate H|].
  apply in_app_iff in H. destruct H as [H|[H|H]].
  - apply in_map_iff in H. destruct H as [e [H _]]. discriminate H.
  - now inversion H.
  - now apply Hrest in H.
Qed.

Lemma no_write_among_calls (dir path : string) (data : Buffer) (calls : trace) :
  ~ In (Tools.WriteFile path data) (Tools.Access dir :: map Tools.Call calls).
Proof.
  intros [H|H]; [discriminate H|].
  apply in_map_iff in H. destruct H as [e [H _]]. discriminate H.
Qed.

(** X19: the five tools that save a file ([html_to_pdf], [url_to_pdf],
    [markdown_to_pdf], [html_to_docx], [markdown_to_docx]).  Every call
    is answered with one text.  Nothing is converted and nothing is
    written unless [output_path] is a string whose directory can be
    accessed; when the directory cannot be accessed the answer is
    "Directory does not exist: <directory>" and the check is the only
    thing done.  The answer is a success exactly when the file was
    written and the write was not rejected: a failed conversion and a
    rejected write both give an error answer. *)
Theorem file_tools_save_after_success (h : Tools.Host) (name : string) (args : value)
  (response : Tools.Response) (steps : list Tools.Step) :
  In name file_tools ->
  Tools.callTool h name args = Some (response, steps) ->
  (exists text, Tools.content response = [text])
  /\ (Tools.isError response = false <->
      exists path data,
        In (Tools.WriteFile path data) steps /\ Tools.writeFile h path data = None)
  /\ (forall s,
         In s steps ->
         (exists path data, s = Tools.WriteFile path data) \/ (exists e, s = Tools.Call e) ->
         exists path,
           prop args "output_path" = VStr path
           /\ Tools.access h (Tools.dirname h path) = true)
  /\ (forall path,
         prop args "output_path" = VStr path ->
         Tools.access h (Tools.dirname h path) = false ->
         response = Tools.failed ("Directory does not exist: " ++ Tools.dirname h path)%string
         /\ steps = [Tools.Access (Tools.dirname h path)]).
Proof.
  intros Hin Hrun.
  pose proof (file_tool_outcome h name args _ Hin Hrun) as Hout.
  destruct Hout as [[msg [Hnone E]]|[path [Hpath Hout]]].
  { inversion E; subst response steps. clear E.
    split; [eexists; reflexivity|]. split; [split|split].
    - discriminate.
    - intros [p [d [[H|[]] _]]]. discriminate H.
    - intros s [<-|[]] [[p [d H]]|[e H]]; discriminate H.
    - intros p Hp. now apply Hnone in Hp. }
  cbv zeta in Hout.
  destruct Hout as [[Haccess E]|[Haccess Hout]].
  { inversion E; subst response steps. clear E.
    split; [eexists; reflexivity|]. split; [split|split].
    - discriminate.
    - intros [p [d [[H|[]] _]]]. discriminate H.
    - intros s [<-|[]] [[p [d H]]|[e H]]; discriminate H.
    - intros p Hp _. rewrite Hpath in Hp. inversion Hp; subst p. now split. }
  assert (Hdir : exists p, prop args "output_path" = VStr p
                           /\ Tools.access h (Tools.dirname h p) = true)
    by now exists path.
  assert (Hlast : forall p,
    prop args "output_path" = VStr p ->
    Tools.access h (Tools.dirname h p) = false ->
    response = Tools.failed ("Directory does not exist: " ++ Tools.dirname h p)%string
    /\ steps = [Tools.Access (Tools.dirname h p)]).
  { intros p Hp Hno. rewrite Hpath in Hp. inversion Hp; subst p. congruence. }
  destruct Hout as [[msg E]|[[calls [msg E]]|[[calls [data [e [Hwrite E]]]]
                                              |[calls [data [text [Hwrite E]]]]]]];
    inversion E; subst response steps; clear E;
    (split; [eexists; reflexivity|]);
    (split; [|split; [intros s _ _; exact Hdir|exact Hlast]]).
  - split; [discriminate|].
    intros [p [d [[H|[H|[]]] _]]]; discriminate H.
  - split; [discriminate|].
    intros [p [d [H _]]]. now apply no_write_among_calls in H.
  - split; [discriminate|].
    intros [p [d [H Hnone]]].
    apply write_among_calls in H.
    + destruct H as [-> ->]. congruence.
    + intros s [<-|[]]. discriminate.
  - split; [|reflexivity].
    intros _. exists path, data. split; [|exact Hwrite].
    right. apply in_app_iff. right. now left.
Qed.

Lemma file_tools_save_after_success_witness :
  exists response steps,
    Tools.callTool sample_tool_host "html_to_pdf"
      (VObj [("html", VStr "<p>x</p>"); ("output_path", VStr "/tmp/x.pdf")])
    = Some (response, steps)
    /\ Tools.isError response = false
    /\ In (Tools.WriteFile "/tmp/x.pdf" [x25; x50; x44; x46]) steps.
Proof.
  eexists. eexists. split; [reflexivity|].
  split; [|cbn; tauto].
  apply (proj2 (proj1 (proj2
           (file_tools_save_after_success sample_tool_host "html_to_pdf"
              (VObj [("html", VStr "<p>x</p>"); ("output_path", VStr "/tmp/x.pdf")])
              _ _ (or_introl eq_refl) eq_refl)))).
  exists "/tmp/x.pdf"%string, [x25; x50; x44; x46]. split; [cbn; tauto|reflexivity].
Defined.

(** X20: the [markdown_to_docx] tool called without options.  The tool
    fills in the title "Document" and the orientation "portrait" before
    it calls the composer, so the DOCX stage always has a title to
    place: the document handed to the emitter is the full document with
    a second [<title>Document</title>] inserted right after [<head>],
    before the title the full document already has.  The emitter is
    given the orientation only: no margins, since the tool passes the
    absent [margins] on as an explicit [undefined]. *)
Theorem markdown_to_docx_tool_defaults (h : Tools.Host) (markdown path html : string) :
  markdown <> ""%string ->
  html <> ""%string ->
  Tools.access h (Tools.dirname h path) = true ->
  marked_parse (Tools.converters h)
    {| breaks := false; gfm := true; pedantic := false |} markdown = inr html ->
  let full :=
    MarkdownToHtmlConverter.createFullHtmlDocument html (Some "Document"%string) None in
  exists remainder,
    full = (document_opening ++ remainder)%string
    /\ Contains "<title>Document</title>" remainder
    /\ exists response rest,
       Tools.callTool h "markdown_to_docx"
         (VObj [("markdown", VStr markdown); ("output_path", VStr path)])
       = Some (response,
               Tools.Access (Tools.dirname h path)
               :: Tools.Call (EMarkedSetOptions
                                {| breaks := false; gfm := true; pedantic := false |})
               :: Tools.Call (EMarkedParse markdown)
               :: Tools.Call
                    (EAsBlob
                       (document_opening ++ HtmlToDocxConverter.headSeparator
                          ++ "<title>Document</title>" ++ remainder)%string
                       [("orientation", VStr "portrait")])
               :: rest).
Proof.
  intros Hmarkdown Hhtml Haccess Hparse full.
  exists (Str.drop (String.length document_opening) full).
  destruct markdown as [|m0 markdown]; [now contradiction Hmarkdown|].
  destruct html as [|h0 html]; [now contradiction Hhtml|].
  destruct h as [w dirname invalidPath toString access writeFile writeText].
  destruct w as [mp sh pl np sc pg pp bc ab rf fe].
  cbn [Tools.converters Tools.access Tools.dirname marked_parse] in *.
  split; [reflexivity|]. split.
  - subst full. apply includes_Contains. vm_compute. reflexivity.
  - vm_compute. rewrite Haccess. vm_compute. rewrite Hparse.
    destruct (ab _ _) as [e|[bytes|[e|bytes]|]];
      try destruct (writeFile path bytes); eexists; eexists; reflexivity.
Qed.

Lemma markdown_to_docx_tool_defaults_witness :
  exists remainder,
    MarkdownToHtmlConverter.createFullHtmlDocument "<p># Hi</p>" (Some "Document"%string)
      None
    = (document_opening ++ remainder)%string
    /\ Contains "<title>Document</title>" remainder
    /\ exists response rest,
         Tools.callTool sample_tool_host "markdown_to_docx"
           (VObj [("markdown", VStr "# Hi"); ("output_path", VStr "/tmp/x.docx")])
         = Some (response,
                 Tools.Access "/tmp"
                 :: Tools.Call (EMarkedSetOptions
                                  {| breaks := false; gfm := true; pedantic := false |})
                 :: Tools.Call (EMarkedParse "# Hi")
                 :: Tools.Call
                      (EAsBlob
                         (document_opening ++ HtmlToDocxConverter.headSeparator
                            ++ "<title>Document</title>" ++ remainder)%string
                         [("orientation", VStr "portrait")])
                 :: rest).
Proof.
  assert (Hmarkdown : "# Hi"%string <> ""%string) by discriminate.
  assert (Hhtml : "<p># Hi</p>"%string <> ""%string) by discriminate.
  exact (markdown_to_docx_tool_defaults sample_tool_host "# Hi" "/tmp/x.docx"
           "<p># Hi</p>" Hmarkdown Hhtml eq_refl eq_refl).
Defined.

(* ================================================================== *)
(** ** The Markdown-to-HTML tool *)
(* ================================================================== *)

Lemma tool_bind_next {A B} (a : A) (t : list Tools.Step) (k : A -> Tools.T B) :
  Tools.bind (Tools.Next a, t) k = (let (r, t2) := k a in (r, (t ++ t2)%list)).
Proof. reflexivity. Qed.

(** X21: unlike the tools that save a file, [markdown_to_html] converts
    before it looks at the output path.  If the conversion yields HTML
    and the directory of the output path cannot be accessed, the answer
    is "Directory does not exist", after the converter's calls; if no
    output path is given (absent or empty), nothing on the file system
    is touched and the answer is a success with two texts, a summary and
    the HTML itself after "HTML Content:". *)
Theorem markdown_to_html_tool_converts_first (h : Tools.Host) (args : value)
  (html : string) :
  absent args = false ->
  Tools.optionsOf args <> VNull ->
  let options := Tools.optionsOf args in
  let d :=
    MarkdownToHtmlConverter.convertMarkdownToHtml (Tools.converters h)
      (prop args "markdown") (VObj (Tools.markdownStage options)) in
  let document :=
    if truthy (prop options "fullDocument") then
      MarkdownToHtmlConverter.createFullHtmlDocument html
        (Some (Tools.text_of h (or_else (prop options "title") (VStr "Document")))) None
    else html in
  usable_text (fst d) = Some html ->
  (forall path,
      prop args "output_path" = VStr path ->
      path <> ""%string ->
      Tools.access h (Tools.dirname h path) = false ->
      Tools.callTool h "markdown_to_html" args
      = Some (Tools.failed ("Directory does not exist: " ++ Tools.dirname h path)%string,
              (map Tools.Call (snd d) ++ [Tools.Access (Tools.dirname h path)])%list))
  /\ (truthy (prop args "output_path") = false ->
      exists summary,
        Tools.callTool h "markdown_to_html" args
        = Some ({| Tools.content := [summary; ("HTML Content:" ++ nl ++ document)%string];
                   Tools.isError := false |},
                map Tools.Call (snd d))).
Proof.
  intros Hargs Hoptions options d document Husable.
  assert (Hrun :
    Tools.callTool h "markdown_to_html" args
    = Some (Tools.guarded
              (Tools.bind (Tools.await d) (fun result =>
                 match usable_text result with
                 | None =>
                     Tools.respond
                       (Tools.failed (string_or (error result)
                                        "Failed to convert Markdown to HTML"))
                 | Some html =>
                     let html :=
                       if truthy (prop options "fullDocument") then
                         MarkdownToHtmlConverter.createFullHtmlDocument html
                           (Some (Tools.text_of h
                                    (or_else (prop options "title") (VStr "Document"))))
                           None
                       else html in
                     if truthy (prop args "output_path") then
                       Tools.bind (Tools.outputDirectory h (prop args "output_path"))
                         (fun output_path =>
                            Tools.bind
                              (Tools.attempt (Tools.WriteText output_path html)
                                 (Tools.writeText h output_path html))
                              (fun _ =>
                                 Tools.respond
                                   (Tools.done
                                      ("HTML generated successfully: " ++ output_path
                                         ++ " (" ++ Tools.kilobytes (String.length html)
                                         ++ " KB)")%string)))
                     else
                       Tools.respond
                         {| Tools.content :=
                              [("HTML conversion completed successfully. Length: "
                                  ++ Str.of_nat (String.length html) ++ " characters"
                                  ++ match metadata result with
                                     | Some m =>
                                         if MarkdownToHtmlConverter.sanitized m
                                         then " (sanitized)" else ""
                                     | None => ""
                                     end)%string;
                               ("HTML Content:" ++ nl ++ html)%string];
                            Tools.isError := false |}
                 end)))).
  { change (Tools.callTool h "markdown_to_html" args)
      with (Some (Tools.guarded (Tools.markdown_to_html h args))).
    unfold Tools.markdown_to_html. fold options. fold d.
    replace (Tools.destructure args "markdown") with (@Tools.next unit tt)
      by (destruct args; try discriminate Hargs; reflexivity).
    replace (Tools.reading options "sanitize") with (@Tools.next unit tt)
      by (unfold Tools.reading, options;
          destruct (Tools.optionsOf args) eqn:E; try reflexivity; congruence).
    unfold Tools.bind at 1 2. unfold Tools.next. cbn [app].
    destruct (Tools.bind _ _) as [o t]. reflexivity. }
  rewrite Hrun. clear Hrun.
  unfold Tools.await. rewrite tool_bind_next. rewrite Husable. cbv zeta.
  fold document. split.
  - intros path Hpath Hne Haccess. rewrite Hpath.
    assert (Htruthy : truthy (VStr path) = true).
    { cbn. now destruct (String.eqb_spec path ""). }
    rewrite Htruthy.
    unfold Tools.outputDirectory, Tools.bind, Tools.emit, Tools.respond, Tools.guarded.
    rewrite Haccess. cbn. reflexivity.
  - intros Hnone. rewrite Hnone. eexists.
    unfold Tools.respond, Tools.guarded. cbn [app]. rewrite ?app_nil_r. reflexivity.
Qed.

Lemma markdown_to_html_tool_converts_first_witness :
  exists summary,
    Tools.callTool sample_tool_host "markdown_to_html" (VObj [("markdown", VStr "# Hi")])
    = Some ({| Tools.content := [summary; ("HTML Content:" ++ nl ++ "<p># Hi</p>")%string];
               Tools.isError := false |},
            [Tools.Call (EMarkedSetOptions
                           {| breaks := false; gfm := true; pedantic := false |});
             Tools.Call (EMarkedParse "# Hi")]).
Proof.
  assert (Hoptions : Tools.optionsOf (VObj [("markdown", VStr "# Hi")]) <> VNull)
    by discriminate.
  exact (proj2 (markdown_to_html_tool_converts_first sample_tool_host
                  (VObj [("markdown", VStr "# Hi")]) "<p># Hi</p>"
                  eq_refl Hoptions eq_refl) eq_refl).
Defined.

(** X22: what the Markdown tools make of [sanitize], [gfm] and [breaks].
    When [sanitize] and [breaks] are booleans or falsy, the options the
    tools build are valid whatever else the caller's options hold, and
    the parser is configured with [breaks] as the truth value given,
    [gfm] on unless it is exactly [false], and [pedantic] off: a tool
    cannot turn [pedantic] on, and a falsy value that is no boolean
    (null, 0, the empty string) counts as [false] instead of being
    rejected. *)
Theorem tool_markdown_options (options : value) :
  (forall k, In k ["sanitize"; "breaks"]%string ->
             truthy (prop options k) = true -> exists b, prop options k = VBool b) ->
  let validated :=
    VObj [("sanitize", VBool (truthy (prop options "sanitize")));
          ("breaks", VBool (truthy (prop options "breaks")));
          ("gfm", VBool (is_not_false (prop options "gfm")))] in
  safeParse MarkdownToHtmlOptionsSchema (VObj (Tools.markdownStage options))
  = ParseOk validated
  /\ MarkdownToHtmlConverter.markedOptions validated
     = {| breaks := truthy (prop options "breaks");
          gfm := is_not_false (prop options "gfm");
          pedantic := false |}.
Proof.
  intros Hbool validated. subst validated.
  assert (Hcoerced : forall k,
    In k ["sanitize"; "breaks"]%string ->
    or_else (prop options k) (VBool false) = VBool (truthy (prop options k))).
  { intros k Hk. unfold or_else.
    destruct (truthy (prop options k)) eqn:E; [|reflexivity].
    destruct (Hbool k Hk E) as [b Hb]. rewrite Hb in E |- *. cbn in E. now subst b. }
  unfold Tools.markdownStage.
  rewrite (Hcoerced "sanitize"%string) by (cbn; tauto).
  rewrite (Hcoerced "breaks"%string) by (cbn; tauto).
  destruct (truthy (prop options "sanitize")), (truthy (prop options "breaks")),
    (is_not_false (prop options "gfm")); split; reflexivity.
Qed.

Lemma tool_markdown_options_witness :
  safeParse MarkdownToHtmlOptionsSchema
    (VObj (Tools.markdownStage
             (VObj [("sanitize", VNull); ("gfm", VStr "no"); ("pedantic", VBool true)])))
  = ParseOk (VObj [("sanitize", VBool false); ("breaks", VBool false);
                   ("gfm", VBool true)]).
Proof.
  apply (tool_markdown_options
           (VObj [("sanitize", VNull); ("gfm", VStr "no"); ("pedantic", VBool true)])).
  intros k [<-|[<-|[]]]; discriminate.
Defined.
